(** * Study-assistant services: assessment generation, progress tracking, roadmaps

  A shallow embedding of [assessment_service.py] and [roadmap_service.py].

  Conventions of the embedding.
  - A Python [str] is a [string]; each character stands for one code point
    in the range 0..255.
  - A Python [int] is a [Z]; a Python [float] is a binary64 [float]. The
    quotient [a / b] of two ints is the exact quotient rounded once to
    binary64, and a product of floats is the binary64 product.
  - A dict used as a struct (progress record, mistake, roadmap, week, day)
    is a record whose fields are the keys the code reads with [d[k]]; a key
    the code treats as optional ([in], [.get]) is an [option] field.
  - A dict used as a map (the progress store keyed by session id) and the
    directories of JSON files (keyed by path) are [gmap]s. A JSON file
    holds the document last dumped into it. A file is known by its path:
    two paths are one file only if they are equal, which is so for ids
    that are file-name components, free of "/". The order of the keys in
    the progress file is not kept; the one function that depends on it
    takes it as an argument.
  - External collaborators (the PDF partitioner, the language model, the
    JSON parser and repairer, the random generator, the file clock) are
    section variables; the ones whose answers change from call to call are
    indexed by a logical time kept in the world. File writes succeed. *)

From Stdlib Require Import ZArith String Ascii List Bool Lia Floats Reals Lra.
From stdpp Require Import base gmap strings list pretty.

Set Warnings "-register-all".

Local Open Scope Z_scope.

(** ** Python string operations *)

Module PyStr.

Fixpoint take (n : nat) (s : string) : string :=
  match n, s with
  | S n', String c s' => String c (take n' s')
  | _, _ => EmptyString
  end.

Fixpoint drop (n : nat) (s : string) : string :=
  match n, s with
  | S n', String _ s' => drop n' s'
  | _, _ => s
  end.

Definition len (s : string) : Z := Z.of_nat (String.length s).

(** Normalisation of a slice bound: a negative bound counts from the end,
    and every bound is clamped to [0, len]. *)
Definition bound (n i : Z) : Z :=
  if i <? 0 then Z.max 0 (i + n) else Z.min i n.

(** [s[lo:hi]] *)
Definition slice (lo hi : Z) (s : string) : string :=
  let n := len s in
  drop (Z.to_nat (bound n lo)) (take (Z.to_nat (bound n hi)) s).

(** [s[lo:]] *)
Definition slice_from (lo : Z) (s : string) : string :=
  drop (Z.to_nat (bound (len s) lo)) s.

(** [s[:hi]] *)
Definition slice_to (hi : Z) (s : string) : string :=
  take (Z.to_nat (bound (len s) hi)) s.

(** [s.startswith(p)] *)
Definition startswith (p s : string) : bool := String.prefix p s.

(** [s.endswith(p)] *)
Definition endswith (p s : string) : bool :=
  (String.length p <=? String.length s)%nat
  && String.eqb (drop (String.length s - String.length p) s) p.

(** [c.isspace()] for the code points 0..255. *)
Definition isspace (c : ascii) : bool :=
  let n := nat_of_ascii c in
  ((9 <=? n) && (n <=? 13) || (28 <=? n) && (n <=? 32)
   || (n =? 133) || (n =? 160))%nat.

Fixpoint lstrip (s : string) : string :=
  match s with
  | String c s' => if isspace c then lstrip s' else s
  | EmptyString => EmptyString
  end.

Fixpoint rstrip (s : string) : string :=
  match s with
  | String c s' =>
      let r := rstrip s' in
      if isspace c && String.eqb r EmptyString then EmptyString
      else String c r
  | EmptyString => EmptyString
  end.

(** [s.strip()] *)
Definition strip (s : string) : string := rstrip (lstrip s).

(** [c.lower()] for the code points 0..255. *)
Definition lower_char (c : ascii) : ascii :=
  let n := nat_of_ascii c in
  if ((65 <=? n) && (n <=? 90)
      || (192 <=? n) && (n <=? 222) && negb (n =? 215))%nat
  then ascii_of_nat (n + 32) else c.

Fixpoint lower (s : string) : string :=
  match s with
  | String c s' => String (lower_char c) (lower s')
  | EmptyString => EmptyString
  end.

(** [sep.join(parts)] *)
Fixpoint join (sep : string) (parts : list string) : string :=
  match parts with
  | [] => EmptyString
  | [p] => p
  | p :: rest => p +:+ sep +:+ join sep rest
  end.

(** [os.path.join(a, b)] on POSIX, for two components. *)
Definition path_join (a b : string) : string :=
  if startswith "/" b then b
  else if String.eqb a EmptyString || endswith "/" a then a +:+ b
  else a +:+ "/" +:+ b.

(** A string that does not open with white space. *)
Definition no_leading_space (s : string) : Prop :=
  match s with
  | String c _ => isspace c = false
  | EmptyString => True
  end.

Definition newline : string := String (ascii_of_nat 10) EmptyString.

(** The double-quote character, for templates that contain it. *)
Definition dq : string := String (ascii_of_nat 34) EmptyString.

Definition quoted (s : string) : string := dq +:+ s +:+ dq.

(** Whether a character occurs in a string. *)
Fixpoint has_char (c : ascii) (s : string) : bool :=
  match s with
  | String x s' => Ascii.eqb x c || has_char c s'
  | EmptyString => false
  end.

End PyStr.

(** ** JSON documents *)

Inductive Num :=
| NInt (z : Z)
| NFloat (f : float).

Inductive Json :=
| JNull
| JBool (b : bool)
| JNum (n : Num)
| JStr (s : string)
| JArr (items : list Json)
| JObj (fields : list (string * Json)).

Definition JInt (z : Z) : Json := JNum (NInt z).

(** [{"error": msg}] *)
Definition error_payload (msg : string) : Json := JObj [("error", JStr msg)].

(** ** assessment_service.py *)

Module Assessment.
Import PyStr.

Definition UPLOAD_ROOT : string := "uploads".
Definition DATA_ROOT : string := "data".
Definition ASSESSMENT_DIR : string := path_join DATA_ROOT "assessments".
Definition PROGRESS_FILE : string := path_join DATA_ROOT "user_progress.json".

(** *** Data model *)

Record SubmissionEvent := {
  ev_level : Z;
  ev_score : Z;
  ev_max_score : Z;
  ev_passed : bool;
  ev_xp_gained : Z;
  ev_timestamp : string }.

(** A mistake as the caller submits it: ["question"] is read with [m[...]],
    the other keys with [m.get(...)]. *)
Record Mistake := {
  m_question : string;
  m_correct_answer : option string;
  m_explanation : option string;
  m_user_answer : option string }.

Record MistakeEntry := {
  question : string;
  correct_answer : option string;
  explanation : option string;
  user_answer : option string;
  level : Z;
  comments : string;
  timestamp : string }.

(** One session's entry of the progress store; ["mistakes"] may be absent
    from a stored record. *)
Record ProgressRecord := {
  xp : Z;
  unlocked_level : Z;
  history : list SubmissionEvent;
  mistakes : option (list MistakeEntry) }.

(** The dict [submit_assessment_result] returns. *)
Record SubmitResult := {
  passed : bool;
  xp_gained : Z;
  new_total_xp : Z;
  res_unlocked_level : Z;
  score : Z }.

(** The arguments of one call of [submit_assessment_result]. *)
Record Submission := {
  sub_session : string;
  sub_level : Z;
  sub_score : Z;
  sub_max_score : Z;
  sub_mistakes : option (list Mistake) }.

(** The files the service works on (the upload folders with their listings
    and the assessment files, both by path, and the content and modification
    time of [PROGRESS_FILE]), the prompts sent to the model so far, and the
    logical time. *)
Record World := {
  upload_dirs : gmap string (list string);
  assessment_files : gmap string Json;
  progress_file : option (gmap string ProgressRecord);
  progress_mtime : string;
  llm_calls : list string;
  ticks : nat }.

Definition tick (w : World) : World :=
  {| upload_dirs := upload_dirs w;
     assessment_files := assessment_files w;
     progress_file := progress_file w;
     progress_mtime := progress_mtime w;
     llm_calls := llm_calls w;
     ticks := S (ticks w) |}.

Definition log_llm_call (prompt : string) (w : World) : World :=
  {| upload_dirs := upload_dirs w;
     assessment_files := assessment_files w;
     progress_file := progress_file w;
     progress_mtime := progress_mtime w;
     llm_calls := llm_calls w ++ [prompt];
     ticks := ticks w |}.

Definition write_assessment (path : string) (doc : Json) (w : World) : World :=
  {| upload_dirs := upload_dirs w;
     assessment_files := <[path := doc]> (assessment_files w);
     progress_file := progress_file w;
     progress_mtime := progress_mtime w;
     llm_calls := llm_calls w;
     ticks := ticks w |}.

Definition write_progress (p : gmap string ProgressRecord) (mtime : string)
    (w : World) : World :=
  {| upload_dirs := upload_dirs w;
     assessment_files := assessment_files w;
     progress_file := Some p;
     progress_mtime := mtime;
     llm_calls := llm_calls w;
     ticks := ticks w |}.

(** *** Prompt templates *)

Definition get_assessment_prompt (level : Z) (context : string) : string :=
  if level =? 1 then
    "
        You are an educational AI. Create a Level 1 Assessment (Recall & Understanding) based on the text below.
        
        Rules:
        1. Generate 10 Multiple Choice Questions (MCQs).
        2. Focus strictly on DEFINITIONS, DIRECT FACTS, and basic UNDERSTANDING from the text.
        3. Do not ask complex analysis questions yet.
        4. Provide 4 options for each question.
        5. Output JSON format only.

        Text Context:
        " +:+ context +:+ "

        Output JSON format:
        [
            {
                " +:+ dq +:+ "id" +:+ dq +:+ ": 1,
                " +:+ dq +:+ "question" +:+ dq +:+ ": " +:+ dq +:+ "What is..." +:+ dq +:+ ",
                " +:+ dq +:+ "options" +:+ dq +:+ ": [" +:+ dq +:+ "A" +:+ dq +:+ ", " +:+ dq +:+ "B" +:+ dq +:+ ", " +:+ dq +:+ "C" +:+ dq +:+ ", " +:+ dq +:+ "D" +:+ dq +:+ "],
                " +:+ dq +:+ "correct_answer" +:+ dq +:+ ": " +:+ dq +:+ "A" +:+ dq +:+ ",
                " +:+ dq +:+ "explanation" +:+ dq +:+ ": " +:+ dq +:+ "Brief explanation of why A is correct." +:+ dq +:+ "
            },
            ...
        ]
        "
  else if level =? 2 then
    "
        You are an educational AI. Create a Level 2 Assessment (Application & Analysis) based on the text below.
        
        Rules:
        1. Generate 10 Multiple Choice Questions (MCQs).
        2. Focus on SCENARIOS, CASE STUDIES, and APPLICATION of concepts.
        3. Questions should start like " +:+ dq +:+ "A student observes that..." +:+ dq +:+ " or " +:+ dq +:+ "If X happens..." +:+ dq +:+ ", asking the user to apply knowledge.
        4. Provide 4 options for each question.
        5. Output JSON format only.

        Text Context:
        " +:+ context +:+ "

        Output JSON format:
        [
            {
                " +:+ dq +:+ "id" +:+ dq +:+ ": 1,
                " +:+ dq +:+ "question" +:+ dq +:+ ": " +:+ dq +:+ "Scenario..." +:+ dq +:+ ",
                " +:+ dq +:+ "options" +:+ dq +:+ ": [" +:+ dq +:+ "A" +:+ dq +:+ ", " +:+ dq +:+ "B" +:+ dq +:+ ", " +:+ dq +:+ "C" +:+ dq +:+ ", " +:+ dq +:+ "D" +:+ dq +:+ "],
                " +:+ dq +:+ "correct_answer" +:+ dq +:+ ": " +:+ dq +:+ "B" +:+ dq +:+ ",
                " +:+ dq +:+ "explanation" +:+ dq +:+ ": " +:+ dq +:+ "Brief explanation of why B is correct in this scenario." +:+ dq +:+ "
            },
            ...
        ]
        "
  else if level =? 3 then
    "
        You are an educational AI. Create a Level 3 Assessment (Creation & Evaluation) based on the text below.
        
        Rules:
        1. Generate 5 Short Answer / Thought-Provoking Questions.
        2. Focus on " +:+ dq +:+ "Create a solution" +:+ dq +:+ ", " +:+ dq +:+ "Critique this method" +:+ dq +:+ ", " +:+ dq +:+ "Propose an alternative" +:+ dq +:+ ".
        3. These are Open-Ended questions requiring synthesis of newer case studies or concepts.
        4. Output JSON format only.

        Text Context:
        " +:+ context +:+ "

        Output JSON format:
        [
            {
                " +:+ dq +:+ "id" +:+ dq +:+ ": 1,
                " +:+ dq +:+ "question" +:+ dq +:+ ": " +:+ dq +:+ "Propose a method to..." +:+ dq +:+ ",
                " +:+ dq +:+ "type" +:+ dq +:+ ": " +:+ dq +:+ "short_answer" +:+ dq +:+ ",
                " +:+ dq +:+ "explanation" +:+ dq +:+ ": " +:+ dq +:+ "Key elements that should be in the student's answer." +:+ dq +:+ "
            },
            ...
        ]
        "
  else "".

(** *** Operations *)

Section Service.

(** [partition_pdf(filename=path, strategy="fast")]: the texts [str(e)] of the
    elements found, or [None] when the partitioner raises. *)
Variable partition_pdf : string -> option (list string).

(** [llm.invoke(messages)] at a given time: [response.content], or [None] when
    the call or the reading of its content raises. *)
Variable llm_invoke : nat -> string -> option string.

(** [json.loads]: [None] when it raises. *)
Variable json_loads : string -> option Json.

(** [random.randint(a, b)] at a given time. *)
Variable randint : nat -> Z -> Z -> Z.

(** [str(os.path.getmtime(PROGRESS_FILE))] after a write at a given time. *)
Variable clock : nat -> string.

Definition add_pdf_text (session_dir : string) (full_text filename : string)
    : string :=
  if endswith ".pdf" (lower filename) then
    match partition_pdf (path_join session_dir filename) with
    | Some elements => full_text +:+ join newline elements
    | None => full_text
    end
  else full_text.

Definition get_session_text (w : World) (session_id : string) : string :=
  let session_dir := path_join UPLOAD_ROOT session_id in
  match upload_dirs w !! session_dir with
  | None => ""
  | Some listing =>
      let full_text := fold_left (add_pdf_text session_dir) listing "" in
      slice_to 50000 full_text
  end.

(** What one directory entry adds to the text: the elements of a PDF that
    parses, joined by newlines, and nothing otherwise. *)
Definition pdf_text (session_dir filename : string) : string :=
  add_pdf_text session_dir "" filename.

(** The extractor as the specification words it: the texts of the PDFs,
    joined by newlines, cut to 50,000 characters; a file that fails to parse
    is left out, and a missing folder gives the empty string. *)
Definition spec_pdf_texts (session_dir : string) (listing : list string)
    : list string :=
  flat_map
    (fun filename =>
       if endswith ".pdf" (lower filename) then
         match partition_pdf (path_join session_dir filename) with
         | Some elements => [join newline elements]
         | None => []
         end
       else [])
    listing.

Definition spec_session_text (w : World) (session_id : string) : string :=
  let session_dir := path_join UPLOAD_ROOT session_id in
  match upload_dirs w !! session_dir with
  | None => ""
  | Some listing => slice_to 50000 (join newline (spec_pdf_texts session_dir listing))
  end.

(** The block under [# Clean Markdown]. *)
Definition clean_markdown (content : string) : string :=
  if startswith "```json" content then slice 7 (-3) content
  else if startswith "```" content then slice 3 (-3) content
  else content.

(** The response of the model, from [response.content.strip()] to
    [json.loads(content)]. *)
Definition parse_assessment_response (response : string) : option Json :=
  json_loads (clean_markdown (strip response)).

Definition cache_path (session_id : string) (level : Z) : string :=
  path_join ASSESSMENT_DIR (session_id +:+ "_lvl" +:+ pretty level +:+ ".json").

Definition generate_assessment (w : World) (session_id : string) (level : Z)
    : Json * World :=
  let cache_file := cache_path session_id level in
  match assessment_files w !! cache_file with
  | Some cached => (cached, w)
  | None =>
      let context := get_session_text w session_id in
      if String.eqb context "" then
        (error_payload "No documents found for this session.", w)
      else
        let prompt := get_assessment_prompt level context in
        let w1 := tick (log_llm_call prompt w) in
        match llm_invoke (ticks w) prompt with
        | None => (error_payload "Failed to generate assessment.", w1)
        | Some response =>
            match parse_assessment_response response with
            | None => (error_payload "Failed to generate assessment.", w1)
            | Some assessment_data =>
                let result :=
                  JObj [("level", JInt level);
                        ("timer_seconds", JInt 600);
                        ("questions", assessment_data)] in
                (result, write_assessment cache_file result w1)
            end
        end
  end.

Definition load_user_progress (w : World) : gmap string ProgressRecord :=
  match progress_file w with
  | Some progress => progress
  | None => ∅
  end.

Definition save_user_progress (progress : gmap string ProgressRecord)
    (w : World) : World :=
  tick (write_progress progress (clock (ticks w)) w).

(** [str(os.path.getmtime(PROGRESS_FILE) if os.path.exists(PROGRESS_FILE) else 0)] *)
Definition mtime_stamp (w : World) : string :=
  match progress_file w with
  | Some _ => progress_mtime w
  | None => "0"
  end.

Definition new_record : ProgressRecord :=
  {| xp := 0; unlocked_level := 1; history := []; mistakes := Some [] |}.

(** The entry appended for a submitted mistake. *)
Definition mistake_entry (level : Z) (stamp : string) (m : Mistake)
    : MistakeEntry :=
  {| question := m_question m;
     correct_answer := m_correct_answer m;
     explanation := m_explanation m;
     user_answer := m_user_answer m;
     level := level;
     comments := "";
     timestamp := stamp |}.

(** One turn of the loop over the submitted mistakes. *)
Definition add_mistake (level : Z) (stamp : string)
    (stored : list MistakeEntry) (m : Mistake) : list MistakeEntry :=
  if existsb (fun dm => String.eqb (question dm) (m_question m)) stored
  then stored
  else stored ++ [mistake_entry level stamp m].

Definition submit_assessment_result (w : World) (session_id : string)
    (level score max_score : Z) (mistakes : option (list Mistake))
    : SubmitResult * World :=
  let progress := load_user_progress w in
  let user_data :=
    match progress !! session_id with
    | Some r => r
    | None => new_record
    end in
  let stored :=
    match Assessment.mistakes user_data with
    | Some l => l
    | None => []
    end in
  (* Bloom's logic and thresholds: xp gained, passed, unlocked level, and
     whether the generator was consulted *)
  let '(gained, pass, unlocked, drew) :=
    if level =? 1 then
      if score >=? 8 then
        (randint (ticks w) 50 100, true,
         if unlocked_level user_data <? 2 then 2 else unlocked_level user_data,
         true)
      else (0, false, unlocked_level user_data, false)
    else if level =? 2 then
      if score >=? 7 then
        (randint (ticks w) 100 150, true,
         if unlocked_level user_data <? 3 then 3 else unlocked_level user_data,
         true)
      else (0, false, unlocked_level user_data, false)
    else if level =? 3 then
      if score >? 0 then
        (randint (ticks w) 150 200, true, unlocked_level user_data, true)
      else (0, false, unlocked_level user_data, false)
    else (0, false, unlocked_level user_data, false) in
  let total := if pass then xp user_data + gained else xp user_data in
  let stamp := mtime_stamp w in
  let event :=
    {| ev_level := level; ev_score := score; ev_max_score := max_score;
       ev_passed := pass; ev_xp_gained := gained; ev_timestamp := stamp |} in
  let stored' :=
    match mistakes with
    | Some ms => fold_left (add_mistake level stamp) ms stored
    | None => stored
    end in
  let user_data' :=
    {| xp := total; unlocked_level := unlocked;
       history := history user_data ++ [event];
       mistakes := Some stored' |} in
  let w1 := if drew then tick w else w in
  ({| passed := pass; xp_gained := gained; new_total_xp := total;
      res_unlocked_level := unlocked; score := score |},
   save_user_progress (<[session_id := user_data']> progress) w1).

(** The mistakes stored for a session,
    [progress[session_id].get("mistakes", [])], and the empty list for a
    session that is not in the store. *)
Definition session_mistakes (w : World) (session_id : string)
    : list MistakeEntry :=
  match load_user_progress w !! session_id with
  | Some r =>
      match mistakes r with
      | Some l => l
      | None => []
      end
  | None => []
  end.

(** [get_mistakes]: under the sentinel ["all"] the mistakes of every session,
    each with its ["session_id"]. The loop over [progress.items()] visits
    the sessions in the order of the keys in the progress file, the order
    in which the sessions were first stored; the world keeps the store as a
    map and does not record that order, so it is the argument [file_order]. *)
Definition get_mistakes (file_order : list string) (w : World)
    (session_id : string) : list (MistakeEntry * option string) :=
  let progress := load_user_progress w in
  if String.eqb session_id "all" then
    flat_map
      (fun sid =>
         match progress !! sid with
         | Some data =>
             match mistakes data with
             | Some l => map (fun m => (m, Some sid)) l
             | None => []
             end
         | None => []
         end)
      file_order
  else map (fun m => (m, None)) (session_mistakes w session_id).

(** Whether an entry of the view carries the id of a session. *)
Definition tagged_with (session_id : string)
    (entry : MistakeEntry * option string) : bool :=
  match snd entry with
  | Some sid => String.eqb sid session_id
  | None => false
  end.

(** The loop of [update_mistake_comment]: the first entry with the question
    gets the comment; [None] when no entry has it. *)
Fixpoint set_comment (question_text comment : string) (l : list MistakeEntry)
    : option (list MistakeEntry) :=
  match l with
  | [] => None
  | m :: rest =>
      if String.eqb (question m) question_text then
        Some ({| question := question m;
                 correct_answer := correct_answer m;
                 explanation := explanation m;
                 user_answer := user_answer m;
                 level := level m;
                 comments := comment;
                 timestamp := timestamp m |} :: rest)
      else option_map (cons m) (set_comment question_text comment rest)
  end.

Definition update_mistake_comment (w : World)
    (session_id question_text comment : string) : bool * World :=
  let progress := load_user_progress w in
  match progress !! session_id with
  | Some r =>
      match mistakes r with
      | Some l =>
          match set_comment question_text comment l with
          | Some l' =>
              let r' := {| xp := xp r; unlocked_level := unlocked_level r;
                           history := history r; mistakes := Some l' |} in
              (true, save_user_progress (<[session_id := r']> progress) w)
          | None => (false, w)
          end
      | None => (false, w)
      end
  | None => (false, w)
  end.

Definition get_progress (w : World) (session_id : string) : ProgressRecord :=
  match load_user_progress w !! session_id with
  | Some r => r
  | None => {| xp := 0; unlocked_level := 1; history := []; mistakes := None |}
  end.

(** A sequence of submissions, each one call of [submit_assessment_result]. *)
Definition submit_step (w : World) (c : Submission) : World :=
  snd (submit_assessment_result w (sub_session c) (sub_level c) (sub_score c)
         (sub_max_score c) (sub_mistakes c)).

Definition submit_all (calls : list Submission) (w : World) : World :=
  fold_left submit_step calls w.

(** The order of the keys in the progress file: the submission of a session
    that is not stored yet puts its key at the end, any other submission
    leaves the order as it is. *)
Definition key_order_step (order : list string) (c : Submission)
    : list string :=
  if existsb (String.eqb (sub_session c)) order then order
  else order ++ [sub_session c].

Definition key_order (calls : list Submission) : list string :=
  fold_left key_order_step calls [].

(** The worlds the progress tracker reaches from a missing progress file. *)
Inductive reachable : World -> Prop :=
| reach_fresh w : progress_file w = None -> reachable w
| reach_submit w c : reachable w -> reachable (submit_step w c)
| reach_comment w session_id question_text comment :
    reachable w ->
    reachable (snd (update_mistake_comment w session_id question_text comment)).

(** The XP the events of a history record as gained. *)
Definition gains (h : list SubmissionEvent) : Z :=
  fold_right Z.add 0 (map ev_xp_gained h).

(** An event as the thresholds of [submit_assessment_result] grade it: a
    passed event is of level 1, 2 or 3 with the score its level asks for and
    a gain in the range of its level; a failed one gained nothing. *)
Definition graded (e : SubmissionEvent) : Prop :=
  if ev_passed e then
    (ev_level e = 1 /\ 8 <= ev_score e /\ 50 <= ev_xp_gained e <= 100)
    \/ (ev_level e = 2 /\ 7 <= ev_score e /\ 100 <= ev_xp_gained e <= 150)
    \/ (ev_level e = 3 /\ 0 < ev_score e /\ 150 <= ev_xp_gained e <= 200)
  else ev_xp_gained e = 0.

(** How many submissions of a sequence are for a session. *)
Definition submissions_of (session_id : string) (calls : list Submission)
    : nat :=
  length (List.filter (fun c => String.eqb (sub_session c) session_id) calls).

End Service.

End Assessment.

(** ** Python numbers *)

Module PyNum.

(** [float(z)]: the binary64 nearest to [z]. *)
Definition float_of_Z (z : Z) : float :=
  SF2Prim (binary_normalize prec emax z 0 false).

(** An int as an unrounded operand of the division: its digits are the
    mantissa, of any size, and the exponent is zero. *)
Definition int_SF (z : Z) : spec_float :=
  match z with
  | 0 => S754_zero false
  | Z.pos p => S754_finite false p 0
  | Z.neg p => S754_finite true p 0
  end.

(** [a / b] on ints: the exact quotient rounded once to binary64, ties to
    even, whatever the size of [a] and [b]; [inr] carries the exception
    raised, for a zero divisor or a quotient beyond the largest float. *)
Definition truediv (a b : Z) : float + string :=
  if b =? 0 then inr "ZeroDivisionError"
  else
    match SFdiv prec emax (int_SF a) (int_SF b) with
    | S754_infinity _ => inr "OverflowError"
    | q => inl (SF2Prim q)
    end.

(** [x * k] for a float [x] and an int [k] within the range of the floats:
    the int is converted, and the product is the binary64 product. *)
Definition mul_int (x : float) (k : Z) : float := (x * float_of_Z k)%float.

(** [f == n] for a float and an int: the comparison is exact. *)
Definition float_eq_int (f : float) (n : Z) : bool :=
  match Prim2SF f with
  | S754_zero _ => n =? 0
  | S754_finite s m e =>
      let sign := if s then -1 else 1 in
      if 0 <=? e then sign * (Z.pos m * 2 ^ e) =? n
      else (Z.pos m mod 2 ^ (- e) =? 0) && (sign * (Z.pos m / 2 ^ (- e)) =? n)
  | _ => false
  end.

(** [number == n] for a JSON number and an int. *)
Definition num_eq_int (x : Num) (n : Z) : bool :=
  match x with
  | NInt z => z =? n
  | NFloat f => float_eq_int f n
  end.

(** The real number a float stands for; zero for the infinities and NaN,
    which [is_finite] tells apart. *)
Definition SF2R (x : spec_float) : R :=
  match x with
  | S754_finite s m e =>
      ((if s then - IZR (Z.pos m) else IZR (Z.pos m)) * powerRZ 2 e)%R
  | _ => 0%R
  end.

Definition to_R (x : float) : R := SF2R (Prim2SF x).

Definition is_finite (x : float) : bool :=
  match Prim2SF x with
  | S754_zero _ | S754_finite _ _ _ => true
  | _ => false
  end.

(** The position of the quotient [X / Y] of two ints between the integers
    next to it: on one of them, or below, at or above the middle. *)
Definition loc_of (X Y : Z) : location :=
  if X mod Y =? 0 then loc_Exact else loc_Inexact (2 * (X mod Y) ?= Y).

(** A mantissa with its rounding and sticky bits that stands for [X / Y]. *)
Definition inbetween (X Y : Z) (mrs : shr_record) : Prop :=
  shr_m mrs = X / Y /\ loc_of_shr_record mrs = loc_of X Y.

End PyNum.

(** ** Python view of JSON values *)

Module PyJson.

(** [d.get(key)] on a dict. *)
Fixpoint get (key : string) (fields : list (string * Json)) : option Json :=
  match fields with
  | [] => None
  | (k, v) :: rest => if String.eqb k key then Some v else get key rest
  end.

(** [d.get(key, default)] *)
Definition get_default (key : string) (default : Json)
    (fields : list (string * Json)) : Json :=
  match get key fields with
  | Some v => v
  | None => default
  end.

(** [bool(v)] *)
Definition truthy (v : Json) : bool :=
  match v with
  | JNull => false
  | JBool b => b
  | JNum (NInt z) => negb (z =? 0)
  | JNum (NFloat f) => negb (PrimFloat.eqb f 0%float)
  | JStr s => negb (String.eqb s "")
  | JArr items => match items with [] => false | _ => true end
  | JObj fields => match fields with [] => false | _ => true end
  end.

(** [v == n] for an int [n]. *)
Definition eq_int (v : Json) (n : Z) : bool :=
  match v with
  | JBool b => (if b then 1 else 0) =? n
  | JNum x => PyNum.num_eq_int x n
  | _ => false
  end.

End PyJson.

(** ** roadmap_service.py *)

Module Roadmap.
Import PyStr.

Definition ROADMAPS_DIR : string := path_join "data" "roadmaps".

(** *** Data model *)

Record Day := {
  day_number : Z;
  topic : string;
  learning_objectives : option Json;
  youtube_video_title : option Json;
  youtube_video_url : option Json;
  reference_content : option Json;
  questions : option Json }.

Record Week := {
  week_number : Z;
  goal : string;
  days : list Day }.

Record Roadmap := {
  id : string;
  session_id : string;
  title : string;
  description : string;
  total_days : Z;
  status : string;
  created_at : string;
  days_completed : Z;
  progress_percentage : Num;
  completed_days : option (list Z);
  weeks : list Week }.

(** What a call does: it returns a value or raises. *)
Inductive Outcome (A : Type) :=
| Returned (a : A)
| Raised (exn : string).
Arguments Returned {A} a.
Arguments Raised {A} exn.

(** The roadmap files by path, the requests sent to the model so far, and
    the logical time. *)
Record World := {
  roadmap_files : gmap string Roadmap;
  model_calls : list string;
  ticks : nat }.

Definition log_model_call (contents : string) (w : World) : World :=
  {| roadmap_files := roadmap_files w;
     model_calls := model_calls w ++ [contents];
     ticks := S (ticks w) |}.

Definition write_roadmap (path : string) (r : Roadmap) (w : World) : World :=
  {| roadmap_files := <[path := r]> (roadmap_files w);
     model_calls := model_calls w;
     ticks := ticks w |}.

Definition set_days (ds : list Day) (wk : Week) : Week :=
  {| week_number := week_number wk; goal := goal wk; days := ds |}.

Definition set_weeks (ws : list Week) (r : Roadmap) : Roadmap :=
  {| id := id r; session_id := session_id r; title := title r;
     description := description r; total_days := total_days r;
     status := status r; created_at := created_at r;
     days_completed := days_completed r;
     progress_percentage := progress_percentage r;
     completed_days := completed_days r; weeks := ws |}.

Definition set_completed_days (l : list Z) (r : Roadmap) : Roadmap :=
  {| id := id r; session_id := session_id r; title := title r;
     description := description r; total_days := total_days r;
     status := status r; created_at := created_at r;
     days_completed := days_completed r;
     progress_percentage := progress_percentage r;
     completed_days := Some l; weeks := weeks r |}.

Definition set_progress (n : Z) (pct : Num) (r : Roadmap) : Roadmap :=
  {| id := id r; session_id := session_id r; title := title r;
     description := description r; total_days := total_days r;
     status := status r; created_at := created_at r;
     days_completed := n;
     progress_percentage := pct;
     completed_days := completed_days r; weeks := weeks r |}.

(** *** Operations *)

Section Service.

(** [client.models.generate_content(...)] at a given time: [response.text],
    or the message of the exception raised by the call or by the reading of
    its text. *)
Variable generate_content : nat -> string -> string + string.

(** [json.loads]: [None] when it raises. *)
Variable json_loads : string -> option Json.

(** [str(parse_err)] for a text [json.loads] rejects. *)
Variable json_error : string -> string.

(** [repair_json] of the json_repair package. *)
Variable repair_json : string -> string.

(** The clean-up of the response text in [generate_roadmap]. *)
Definition clean_roadmap_text (response_text : string) : string :=
  let text := strip response_text in
  let text := if startswith "```json" text then slice_from 7 text else text in
  let text := if endswith "```" text then slice_to (-3) text else text in
  strip text.

(** [generate_roadmap] from the clean-up of the response text to the parse:
    the parsed document, or the error payload returned to the caller. *)
Definition parse_roadmap_response (response_text : string) : Json + Json :=
  let text := clean_roadmap_text response_text in
  match json_loads (repair_json text) with
  | Some roadmap_data => inl roadmap_data
  | None =>
      inr (error_payload
             ("Failed to parse AI response: " +:+ json_error (repair_json text)))
  end.

Definition roadmap_path (roadmap_id : string) : string :=
  path_join ROADMAPS_DIR (roadmap_id +:+ ".json").

Definition save_roadmap (roadmap : Roadmap) (w : World) : World :=
  write_roadmap (roadmap_path (id roadmap)) roadmap w.

Definition get_roadmap (w : World) (roadmap_id : string) : option Roadmap :=
  roadmap_files w !! roadmap_path roadmap_id.

Definition week_system_prompt : string :=
  "
    You are an expert educational consultant. Your task is to fill in the deep educational content for a specific week of a learning roadmap.
    
    For each day in the provided list, you must provide:
    1. `learning_objectives`: A list of key things the user will learn.
    2. `youtube_search_term`: A specific search term to find the best tutorial.
    3. `youtube_video_title`: The title of a recommended video.
    4. `youtube_video_url`: An actual URL found via web search.
    5. `reference_content`: A highly comprehensive, in-depth tutorial (minimum 400 words).
    6. `questions`: 2 questions with a `hint` field (the answer/explanation).
    
    IMPORTANT:
    - THE CONTENT MUST BE EXTREMELY ELABORATE. For coding, include data types, syntax, and library functions. For Math, include formulas and derivations.
    - Return ONLY the JSON array matching the 'days' structure.
    ".

(** The items a [for d in new_days_data] loop visits; [None] when the value
    cannot be iterated. The items of a dict are its keys, those of a string
    its characters. *)
Definition iter_items (v : Json) : option (list Json) :=
  match v with
  | JArr items => Some items
  | JObj fields => Some (map (fun kv => JStr (fst kv)) fields)
  | JStr s =>
      Some (map (fun c => JStr (String c EmptyString)) (list_ascii_of_string s))
  | _ => None
  end.

(** [next((d for d in items if d.get("day_number") == n), None)]: the search
    stops at the first match and raises at an item that is not a dict. *)
Fixpoint find_day_data (n : Z) (items : list Json) : Outcome (option Json) :=
  match items with
  | [] => Returned None
  | JObj fields :: rest =>
      match PyJson.get "day_number" fields with
      | Some v =>
          if PyJson.eq_int v n then Returned (Some (JObj fields))
          else find_day_data n rest
      | None => find_day_data n rest
      end
  | _ :: rest => Raised "AttributeError"
  end.

(** [day.update({...})] with the five fields read from [new_day_data]. *)
Definition update_day (day : Day) (fields : list (string * Json)) : Day :=
  {| day_number := day_number day;
     topic := topic day;
     learning_objectives :=
       Some (PyJson.get_default "learning_objectives" (JArr []) fields);
     youtube_video_title :=
       Some (PyJson.get_default "youtube_video_title" (JStr "") fields);
     youtube_video_url :=
       Some (PyJson.get_default "youtube_video_url" (JStr "") fields);
     reference_content :=
       Some (PyJson.get_default "reference_content" (JStr "") fields);
     questions := Some (PyJson.get_default "questions" (JArr []) fields) |}.

(** One turn of the loop over [enumerate(target_week["days"])]. *)
Definition merge_day (new_days_data : Json) (i : nat) (day : Day)
    : Outcome Day :=
  match iter_items new_days_data with
  | None => Raised "TypeError"
  | Some items =>
      match find_day_data (day_number day) items with
      | Raised e => Raised e
      | Returned found =>
          let new_day_data :=
            match found with
            | Some d => Some d
            | None => items !! i
            end in
          match new_day_data with
          | Some d =>
              if PyJson.truthy d then
                match d with
                | JObj fields => Returned (update_day day fields)
                | _ => Raised "AttributeError"
                end
              else Returned day
          | None => Returned day
          end
      end
  end.

Fixpoint merge_days (new_days_data : Json) (i : nat) (ds : list Day)
    : Outcome (list Day) :=
  match ds with
  | [] => Returned []
  | day :: rest =>
      match merge_day new_days_data i day with
      | Raised e => Raised e
      | Returned day' =>
          match merge_days new_days_data (S i) rest with
          | Raised e => Raised e
          | Returned rest' => Returned (day' :: rest')
          end
      end
  end.

(** The first week with the number gets the new days: [target_week] is that
    element of [roadmap["weeks"]], updated in place. *)
Fixpoint replace_week (n : Z) (ds : list Day) (ws : list Week) : list Week :=
  match ws with
  | [] => []
  | wk :: rest =>
      if week_number wk =? n then set_days ds wk :: rest
      else wk :: replace_week n ds rest
  end.

Definition week_context (target_week : Week) : string :=
  join newline
    (map (fun day => "Day " +:+ pretty (day_number day) +:+ ": " +:+ topic day)
       (days target_week)).

(** The clean-up of the response text in [generate_week_content]. *)
Definition clean_week_text (response_text : string) : string :=
  let text := strip response_text in
  let text := if startswith "```json" text then slice_from 7 text else text in
  if endswith "```" text then slice_to (-3) text else text.

Definition generate_week_content (w : World) (roadmap_id : string)
    (week_number' : Z) : Json * World :=
  match get_roadmap w roadmap_id with
  | None => (error_payload "Roadmap not found", w)
  | Some roadmap =>
      match find (fun wk => week_number wk =? week_number') (weeks roadmap) with
      | None =>
          (error_payload
             ("Week " +:+ pretty week_number' +:+ " not found in roadmap outline"),
           w)
      | Some target_week =>
          let context_str := week_context target_week in
          let contents :=
            week_system_prompt +:+ "

Roadmap Title: " +:+ title roadmap +:+ "
Week " +:+ pretty week_number' +:+ " Outline:
" +:+ context_str in
          let w1 := log_model_call contents w in
          match generate_content (ticks w) contents with
          | inr e => (error_payload e, w1)
          | inl response_text =>
              let text := clean_week_text response_text in
              match json_loads (repair_json text) with
              | None =>
                  (error_payload "Failed to parse AI response for week content",
                   w1)
              | Some new_days_data =>
                  match merge_days new_days_data 0 (days target_week) with
                  | Raised _ =>
                      (error_payload
                         "Failed to parse AI response for week content", w1)
                  | Returned ds =>
                      let roadmap' :=
                        set_weeks
                          (replace_week week_number' ds (weeks roadmap))
                          roadmap in
                      (JObj [("status", JStr "success");
                             ("week_number", JInt week_number')],
                       save_roadmap roadmap' w1)
                  end
              end
          end
      end
  end.

Definition update_progress (w : World) (roadmap_id : string) (day_number' : Z)
    : Outcome (option Roadmap) * World :=
  match get_roadmap w roadmap_id with
  | None => (Returned None, w)
  | Some roadmap =>
      let completed :=
        match completed_days roadmap with
        | Some l => l
        | None => []
        end in
      let roadmap := set_completed_days completed roadmap in
      if existsb (Z.eqb day_number') completed then (Returned (Some roadmap), w)
      else
        let roadmap := set_completed_days (completed ++ [day_number']) roadmap in
        let n := Z.of_nat (length (completed ++ [day_number'])) in
        match PyNum.truediv n (total_days roadmap) with
        | inr exn => (Raised exn, w)
        | inl quotient =>
            let pct := PyNum.mul_int quotient 100 in
            let roadmap := set_progress n (NFloat pct) roadmap in
            (Returned (Some roadmap), save_roadmap roadmap w)
        end
  end.

(** Whether an item of the response is a dict whose ["day_number"] equals
    the number, as the search of [generate_week_content] tests it. *)
Definition is_day_data (n : Z) (item : Json) : bool :=
  match item with
  | JObj fields =>
      match PyJson.get "day_number" fields with
      | Some v => PyJson.eq_int v n
      | None => false
      end
  | _ => false
  end.

Definition is_dict (item : Json) : bool :=
  match item with
  | JObj _ => true
  | _ => false
  end.

(** The days of a roadmap marked as completed, an absent list being empty. *)
Definition completed_list (r : Roadmap) : list Z :=
  match completed_days r with
  | Some l => l
  | None => []
  end.

(** A sequence of calls of [update_progress] for one roadmap; a call that
    raises leaves the world to the next one as it was. *)
Definition update_step (roadmap_id : string) (w : World) (day : Z) : World :=
  snd (update_progress w roadmap_id day).

Definition update_all (roadmap_id : string) (days_done : list Z) (w : World)
    : World :=
  fold_left (update_step roadmap_id) days_done w.

End Service.

End Roadmap.

(** ** The response normalizer as the specification words it *)

Module SpecNormalizer.
Import PyStr.

Section Normalizer.

Variable json_loads : string -> option Json.
Variable repair_json : string -> string.

(** A leading code-fence marker, with or without the language tag, and a
    trailing one are stripped if present. *)
Definition strip_fence (text : string) : string :=
  let text :=
    if startswith "```json" text then slice_from 7 text
    else if startswith "```" text then slice_from 3 text
    else text in
  if endswith "```" text then slice_to (-3) text else text.

(** Strict parsing first; on failure the repair pass and a second parse;
    [None] is the failure reported through an error payload. *)
Definition normalize (text : string) : option Json :=
  let text := strip_fence text in
  match json_loads text with
  | Some document => Some document
  | None => json_loads (repair_json text)
  end.

End Normalizer.

End SpecNormalizer.

(** ** Concrete collaborators and stores for the examples *)

Module Demo.
Import PyStr.

(** A generator that always draws the least value. *)
Definition randint (_ : nat) (a _ : Z) : Z := a.

Definition clock (_ : nat) : string := "1700000000.0".

(** No progress file, no upload, no cached assessment. *)
Definition fresh : Assessment.World :=
  {| Assessment.upload_dirs := ∅;
     Assessment.assessment_files := ∅;
     Assessment.progress_file := None;
     Assessment.progress_mtime := "";
     Assessment.llm_calls := [];
     Assessment.ticks := 0 |}.

Definition mistake (q answer : string) : Assessment.Mistake :=
  {| Assessment.m_question := q;
     Assessment.m_correct_answer := Some answer;
     Assessment.m_explanation := None;
     Assessment.m_user_answer := None |}.

(** Session [s1] holds two PDFs that parse, one that does not, and a text
    file. *)
Definition partition_pdf (path : string) : option (list string) :=
  if String.eqb path "uploads/s1/a.pdf" then Some ["A1"; "A2"]
  else if String.eqb path "uploads/s1/b.pdf" then Some ["B"]
  else None.

Definition uploaded : Assessment.World :=
  {| Assessment.upload_dirs :=
       {[ "uploads/s1" := ["a.pdf"; "notes.txt"; "c.pdf"; "b.pdf"] ]};
     Assessment.assessment_files := ∅;
     Assessment.progress_file := None;
     Assessment.progress_mtime := "";
     Assessment.llm_calls := [];
     Assessment.ticks := 0 |}.

(** A model that answers with an array that ends in a comma, and one whose
    call fails. *)
Definition llm_trailing_comma (_ : nat) (_ : string) : option string :=
  Some "[1, 2,]".

Definition llm_down (_ : nat) (_ : string) : option string := None.

(** [json.loads] and [repair_json] on the texts of the examples: the text
    [[1, 2]] is the array of 1 and 2; [[1, 2,]] is no JSON document, and its
    repair drops the trailing comma. Other texts are left unparsed and
    unrepaired. *)
Definition json_loads (text : string) : option Json :=
  if String.eqb text "[1, 2]" then Some (JArr [JInt 1; JInt 2]) else None.

Definition repair_json (text : string) : string :=
  if String.eqb text "[1, 2,]" then "[1, 2]" else text.

Definition json_error (_ : string) : string := "Expecting value".

(** A cache that holds the level-1 assessment of session [s1]. *)
Definition cached_doc : Json :=
  JObj [("level", JInt 1); ("timer_seconds", JInt 600); ("questions", JArr [])].

Definition cached : Assessment.World :=
  {| Assessment.upload_dirs := ∅;
     Assessment.assessment_files := {[ "data/assessments/s1_lvl1.json" := cached_doc ]};
     Assessment.progress_file := None;
     Assessment.progress_mtime := "";
     Assessment.llm_calls := [];
     Assessment.ticks := 0 |}.

(** A three-day roadmap with one week, stored under its id, nothing
    completed yet. *)
Definition day (n : Z) (t : string) : Roadmap.Day :=
  {| Roadmap.day_number := n;
     Roadmap.topic := t;
     Roadmap.learning_objectives := None;
     Roadmap.youtube_video_title := None;
     Roadmap.youtube_video_url := None;
     Roadmap.reference_content := None;
     Roadmap.questions := None |}.

Definition three_days : Roadmap.Roadmap :=
  {| Roadmap.id := "r1";
     Roadmap.session_id := "s1";
     Roadmap.title := "Sets";
     Roadmap.description := "";
     Roadmap.total_days := 3;
     Roadmap.status := "active";
     Roadmap.created_at := "2026-01-01T00:00:00";
     Roadmap.days_completed := 0;
     Roadmap.progress_percentage := NInt 0;
     Roadmap.completed_days := None;
     Roadmap.weeks :=
       [ {| Roadmap.week_number := 1;
            Roadmap.goal := "Basics";
            Roadmap.days := [day 1 "Union"; day 2 "Meet"; day 3 "Maps"] |} ] |}.

Definition roadmaps : Roadmap.World :=
  {| Roadmap.roadmap_files := {[ "data/roadmaps/r1.json" := three_days ]};
     Roadmap.model_calls := [];
     Roadmap.ticks := 0 |}.

(** The same outline with ["total_days": 0], stored alone. *)
Definition no_days : Roadmap.Roadmap :=
  {| Roadmap.id := "r0";
     Roadmap.session_id := "s1";
     Roadmap.title := "Sets";
     Roadmap.description := "";
     Roadmap.total_days := 0;
     Roadmap.status := "active";
     Roadmap.created_at := "2026-01-01T00:00:00";
     Roadmap.days_completed := 0;
     Roadmap.progress_percentage := NInt 0;
     Roadmap.completed_days := None;
     Roadmap.weeks := [] |}.

Definition roadmaps_no_days : Roadmap.World :=
  {| Roadmap.roadmap_files := {[ "data/roadmaps/r0.json" := no_days ]};
     Roadmap.model_calls := [];
     Roadmap.ticks := 0 |}.

Definition generate_content (_ : nat) (_ : string) : string + string :=
  inr "503 UNAVAILABLE".

End Demo.

(** ** backend_upload_endpoint.py *)

Module Upload.
Import PyStr.

Definition UPLOAD_ROOT : string := "uploads".

(** The set [{".pdf"}]. *)
Definition ALLOWED_EXTENSIONS : list string := [".pdf"].

Definition is_allowed_file (filename : string) : bool :=
  existsb (fun ext => endswith ext (lower filename)) ALLOWED_EXTENSIONS.

Record HTTPException := {
  status_code : Z;
  detail : string }.

(** The dict [upload_files] returns. *)
Record UploadResponse := {
  session_id : string;
  status : string;
  uploaded_files : list string;
  rejected_files : list string }.

(** What a request does to the machine: the folders made, the files saved
    (by path, in order) and the folders handed to the background ingestion. *)
Record Effects := {
  made_dirs : list string;
  saved_paths : list string;
  ingest_tasks : list string }.

Section Endpoint.

(** The saving of an uploaded file under a path ([open] and
    [shutil.copyfileobj]): [None] when it succeeds, the message of the
    exception otherwise. *)
Variable save_file : string -> option string.

(** The loop over the uploaded files, from the lists gathered so far: the
    saved and rejected file names, or the exception that ends the request,
    and the paths saved. *)
Fixpoint save_files (session_dir : string) (files : list string)
    (saved_files rejected_files paths : list string)
    : (HTTPException + list string * list string) * list string :=
  match files with
  | [] => (inr (saved_files, rejected_files), paths)
  | filename :: rest =>
      if negb (is_allowed_file filename) then
        save_files session_dir rest saved_files
          (rejected_files ++ [filename]) paths
      else
        let file_path := path_join session_dir filename in
        match save_file file_path with
        | None =>
            save_files session_dir rest (saved_files ++ [filename])
              rejected_files (paths ++ [file_path])
        | Some e =>
            (inl {| status_code := 500;
                    detail := "Failed to save file " +:+ filename +:+ ": " +:+ e |},
             paths)
        end
  end.

(** [upload_files]; the folder is made and the ingestion scheduled without
    failure. *)
Definition upload_files (files : list string) (session : string)
    : (HTTPException + UploadResponse) * Effects :=
  match files with
  | [] =>
      (inl {| status_code := 400; detail := "No files uploaded" |},
       {| made_dirs := []; saved_paths := []; ingest_tasks := [] |})
  | _ =>
      let session_dir := path_join UPLOAD_ROOT session in
      match save_files session_dir files [] [] [] with
      | (inl e, paths) =>
          (inl e,
           {| made_dirs := [session_dir]; saved_paths := paths;
              ingest_tasks := [] |})
      | (inr (saved_files, rejected_files), paths) =>
          match saved_files with
          | [] =>
              (inl {| status_code := 400;
                      detail := "No valid PDF files were uploaded" |},
               {| made_dirs := [session_dir]; saved_paths := paths;
                  ingest_tasks := [] |})
          | _ =>
              (inr {| session_id := session;
                      status := "processing";
                      uploaded_files := saved_files;
                      rejected_files := rejected_files |},
               {| made_dirs := [session_dir]; saved_paths := paths;
                  ingest_tasks := [session_dir] |})
          end
      end
  end.

End Endpoint.

End Upload.

(** ** More concrete stores and collaborators for the examples *)

Module Examples.
Import PyStr.

(** A failed level-1 submission with two mistakes, and the store it leaves
    when there was no progress file. *)
Definition two_mistakes_call : Assessment.Submission :=
  {| Assessment.sub_session := "s1";
     Assessment.sub_level := 1;
     Assessment.sub_score := 5;
     Assessment.sub_max_score := 10;
     Assessment.sub_mistakes :=
       Some [Demo.mistake "Q" "A"; Demo.mistake "R" "B"] |}.

Definition two_mistakes : Assessment.World :=
  Assessment.submit_step Demo.randint Demo.clock Demo.fresh two_mistakes_call.

(** A passed level-1 submission after it. *)
Definition passed_call : Assessment.Submission :=
  {| Assessment.sub_session := "s1";
     Assessment.sub_level := 1;
     Assessment.sub_score := 9;
     Assessment.sub_max_score := 10;
     Assessment.sub_mistakes := None |}.

Definition passed_after : Assessment.World :=
  Assessment.submit_step Demo.randint Demo.clock two_mistakes passed_call.

(** A response for a week that carries content for day 2 only, as
    [json.dumps] writes it, and the document it parses to; [repair_json]
    returns such a text as it is. *)
Definition week_text : string :=
  "[{" +:+ quoted "day_number" +:+ ": 2, " +:+ quoted "reference_content"
  +:+ ": " +:+ quoted "Meet of sets" +:+ "}]".

Definition week_items : list Json :=
  [JObj [("day_number", JInt 2); ("reference_content", JStr "Meet of sets")]].

Definition week_model (_ : nat) (_ : string) : string + string :=
  inl week_text.

Definition week_loads (text : string) : option Json :=
  if String.eqb text week_text then Some (JArr week_items) else None.

Definition week_repair (text : string) : string := text.

(** The week of the three-day roadmap. *)
Definition first_week : Roadmap.Week :=
  {| Roadmap.week_number := 1;
     Roadmap.goal := "Basics";
     Roadmap.days := [Demo.day 1 "Union"; Demo.day 2 "Meet"; Demo.day 3 "Maps"] |}.


Definition save_full (path : string) : option string :=
  if String.eqb path "uploads/s1/b.pdf" then Some "No space left on device"
  else None.

(** A model that answers with the array of 1 and 2, and the uploads of
    session [s1] next to the cached level-1 assessment of that session. *)
Definition llm_answers (_ : nat) (_ : string) : option string := Some "[1, 2]".

Definition uploaded_cached : Assessment.World :=
  Assessment.write_assessment (Assessment.cache_path "s1" 1) Demo.cached_doc
    Demo.uploaded.

(** A failed submission of session [s2] with one mistake, and the store
    after it and then the two mistakes of session [s1]: the progress file
    lists [s2] first. *)
Definition other_session_call : Assessment.Submission :=
  {| Assessment.sub_session := "s2";
     Assessment.sub_level := 1;
     Assessment.sub_score := 2;
     Assessment.sub_max_score := 10;
     Assessment.sub_mistakes := Some [Demo.mistake "P" "C"] |}.

Definition two_sessions : Assessment.World :=
  Assessment.submit_step Demo.randint Demo.clock
    (Assessment.submit_step Demo.randint Demo.clock Demo.fresh
       other_session_call)
    two_mistakes_call.

(** The file of roadmap [r1] copied to [r2.json], the id inside left as it
    was. *)
Definition roadmaps_copied : Roadmap.World :=
  Roadmap.write_roadmap (Roadmap.roadmap_path "r2") Demo.three_days
    Demo.roadmaps.

End Examples.

(** * Properties *)

(** ** Strings *)

Module PyStrFacts.
Import PyStr.

Lemma append_cons (c : ascii) (a b : string) :
  String c a +:+ b = String c (a +:+ b).
Proof. reflexivity. Qed.

Lemma append_nil_l (s : string) : "" +:+ s = s.
Proof. reflexivity. Qed.

Lemma append_nil_r (s : string) : s +:+ "" = s.
Proof.
  induction s as [|c s IH]; [reflexivity|].
  rewrite append_cons, IH. reflexivity.
Qed.

Lemma append_assoc (a b c : string) : (a +:+ b) +:+ c = a +:+ (b +:+ c).
Proof.
  induction a as [|x a IH]; [reflexivity|].
  rewrite !append_cons, IH. reflexivity.
Qed.

Lemma length_append (a b : string) :
  String.length (a +:+ b) = (String.length a + String.length b)%nat.
Proof.
  induction a as [|x a IH]; [reflexivity|].
  rewrite append_cons. cbn [String.length]. rewrite IH. reflexivity.
Qed.

Lemma length_take (n : nat) (s : string) :
  String.length (take n s) = Nat.min n (String.length s).
Proof.
  revert s. induction n as [|n IH]; intros [|c s]; cbn; try reflexivity.
  rewrite IH. reflexivity.
Qed.

Lemma take_all (n : nat) (s : string) :
  (String.length s <= n)%nat -> take n s = s.
Proof.
  revert s. induction n as [|n IH]; intros [|c s]; cbn; intros H;
    try reflexivity; try lia.
  rewrite IH by lia. reflexivity.
Qed.

Lemma take_append (a b : string) : take (String.length a) (a +:+ b) = a.
Proof.
  induction a as [|x a IH]; [destruct b; reflexivity|].
  rewrite append_cons. cbn [String.length take]. rewrite IH. reflexivity.
Qed.

Lemma drop_append (a b : string) : drop (String.length a) (a +:+ b) = b.
Proof.
  induction a as [|x a IH]; [destruct b; reflexivity|].
  rewrite append_cons. cbn [String.length drop]. exact IH.
Qed.

Lemma slice_to_length (hi : Z) (s : string) :
  0 <= hi -> len (slice_to hi s) <= hi.
Proof.
  intros Hhi. unfold slice_to, bound, len.
  destruct (Z.ltb_spec hi 0); [lia|].
  rewrite length_take. lia.
Qed.

Lemma slice_to_short (hi : Z) (s : string) :
  len s <= hi -> slice_to hi s = s.
Proof.
  intros Hlen. unfold slice_to, bound, len in *.
  destruct (Z.ltb_spec hi 0); [lia|].
  apply take_all. lia.
Qed.

Lemma join_empty_cons (p : string) (rest : list string) :
  join "" (p :: rest) = p +:+ join "" rest.
Proof. destruct rest; cbn [join]; [rewrite append_nil_r|]; reflexivity. Qed.


Lemma startswith_append (p s : string) : startswith p (p +:+ s) = true.
Proof.
  unfold startswith. induction p as [|c p IH]; [destruct s; reflexivity|].
  rewrite append_cons. cbn [String.prefix].
  destruct (ascii_dec c c); [exact IH|contradiction].
Qed.

Lemma startswith_cons (c : ascii) (p s : string) :
  startswith (String c p) (String c s) = startswith p s.
Proof.
  unfold startswith. cbn [String.prefix].
  destruct (ascii_dec c c); [reflexivity|contradiction].
Qed.

Lemma startswith_shorter (a b s : string) :
  startswith (a +:+ b) s = true -> startswith a s = true.
Proof.
  unfold startswith. revert s.
  induction a as [|c a IH]; intros s; [destruct s; reflexivity|].
  rewrite append_cons. destruct s as [|d s]; cbn [String.prefix]; [congruence|].
  destruct (ascii_dec c d); [apply IH|congruence].
Qed.

Lemma endswith_append (s q : string) : endswith q (s +:+ q) = true.
Proof.
  unfold endswith. rewrite length_append.
  replace (String.length s + String.length q - String.length q)%nat
    with (String.length s) by lia.
  rewrite drop_append, String.eqb_refl, andb_true_r.
  apply Nat.leb_le. lia.
Qed.

Lemma slice_from_append (p s : string) : slice_from (len p) (p +:+ s) = s.
Proof.
  unfold slice_from, bound, len. rewrite length_append.
  destruct (Z.ltb_spec (Z.of_nat (String.length p)) 0); [lia|].
  rewrite Z.min_l by lia. rewrite Nat2Z.id. apply drop_append.
Qed.

Lemma slice_to_append (s q : string) :
  q <> "" -> slice_to (- len q) (s +:+ q) = s.
Proof.
  intros Hq. unfold slice_to, bound, len. rewrite length_append.
  assert (0 < String.length q)%nat by (destruct q; [congruence|cbn; lia]).
  destruct (Z.ltb_spec (- Z.of_nat (String.length q)) 0); [|lia].
  rewrite Z.max_r by lia.
  replace (Z.to_nat _) with (String.length s) by lia.
  apply take_append.
Qed.

Lemma slice_fenced (p body q : string) :
  q <> "" -> slice (len p) (- len q) (p +:+ body +:+ q) = body.
Proof.
  intros Hq. unfold slice.
  change (take (Z.to_nat (bound (len (p +:+ body +:+ q)) (- len q)))
            (p +:+ body +:+ q))
    with (slice_to (- len q) (p +:+ body +:+ q)).
  rewrite <- append_assoc, slice_to_append by exact Hq.
  unfold bound, len. rewrite !length_append.
  destruct (Z.ltb_spec (Z.of_nat (String.length p)) 0); [lia|].
  rewrite Z.min_l by lia. rewrite Nat2Z.id. apply drop_append.
Qed.

Lemma drop_all (n : nat) (s : string) :
  (String.length s <= n)%nat -> drop n s = "".
Proof.
  revert s. induction n as [|n IH]; intros [|c s]; cbn; intros H;
    try reflexivity; try lia.
  apply IH. lia.
Qed.

(** A slice [s[lo:-3]] of a string with at most three characters after
    position [lo] is empty. *)
Lemma slice_cut_short (lo : Z) (s : string) :
  0 <= lo -> len s <= lo + 3 -> slice lo (-3) s = "".
Proof.
  intros Hlo Hlen. unfold slice. apply drop_all.
  rewrite length_take. unfold bound, len in *.
  destruct (Z.ltb_spec (-3) 0); [|lia].
  destruct (Z.ltb_spec lo 0); [lia|]. lia.
Qed.

(** [strip] leaves a stripped string as it is. *)

Lemma lstrip_no_leading_space (s : string) : no_leading_space (lstrip s).
Proof.
  induction s as [|c s IH]; cbn [lstrip]; [exact I|].
  destruct (isspace c) eqn:E; [exact IH|exact E].
Qed.

Lemma lstrip_fixed (s : string) : no_leading_space s -> lstrip s = s.
Proof. destruct s as [|c s]; cbn; [reflexivity|intros ->; reflexivity]. Qed.

Lemma rstrip_no_leading_space (s : string) :
  no_leading_space s -> no_leading_space (rstrip s).
Proof.
  destruct s as [|c s]; cbn [rstrip no_leading_space]; [auto|].
  intros H. rewrite H. exact H.
Qed.

Lemma rstrip_idempotent (s : string) : rstrip (rstrip s) = rstrip s.
Proof.
  induction s as [|c s IH]; [reflexivity|]. cbn [rstrip].
  destruct (isspace c && String.eqb (rstrip s) "") eqn:E; [reflexivity|].
  cbn [rstrip]. rewrite IH, E. reflexivity.
Qed.

Lemma strip_idempotent (s : string) : strip (strip s) = strip s.
Proof.
  unfold strip.
  rewrite (lstrip_fixed (rstrip (lstrip s)))
    by apply rstrip_no_leading_space, lstrip_no_leading_space.
  apply rstrip_idempotent.
Qed.

End PyStrFacts.

(** ** Numbers: the division of ints and the percentage *)

Module PyNumFacts.
Import PyNum.


Lemma digits2_pos_bounds (p : positive) :
  2 ^ (Z.pos (digits2_pos p) - 1) <= Z.pos p < 2 ^ Z.pos (digits2_pos p).
Proof.
  induction p as [p IH|p IH|]; cbn [digits2_pos]; [| |cbn; lia].
  all: rewrite Pos2Z.inj_succ;
    replace (Z.succ (Z.pos (digits2_pos p)) - 1)
      with (Z.succ (Z.pos (digits2_pos p) - 1)) by lia;
    rewrite !Z.pow_succ_r by lia; lia.
Qed.

Lemma Zdigits2_bounds (m : Z) :
  0 < m -> 2 ^ (Zdigits2 m - 1) <= m < 2 ^ Zdigits2 m.
Proof.
  destruct m as [|p|p]; try lia. intros _. apply digits2_pos_bounds.
Qed.

Lemma Zdigits2_pos (m : Z) : 0 < m -> 0 < Zdigits2 m.
Proof. destruct m; cbn; lia. Qed.

Lemma Zdigits2_unique (m d : Z) :
  0 < m -> 2 ^ (d - 1) <= m < 2 ^ d -> Zdigits2 m = d.
Proof.
  intros Hm [Hlo Hhi].
  pose proof (Zdigits2_bounds m Hm) as [Hlo' Hhi'].
  pose proof (Zdigits2_pos m Hm) as Hpos.
  assert (Hd : 0 < d).
  { destruct (Z.lt_ge_cases 0 d) as [|Hle]; [assumption|].
    assert (2 ^ d <= 2 ^ 0) by (apply Z.pow_le_mono_r; lia).
    change (2 ^ 0) with 1 in *. lia. }
  assert (d - 1 < Zdigits2 m).
  { apply (Z.pow_lt_mono_r_iff 2); lia. }
  assert (Zdigits2 m - 1 < d).
  { apply (Z.pow_lt_mono_r_iff 2); lia. }
  lia.
Qed.

Lemma iter_pos_nat {A : Type} (f : A -> A) (p : positive) (x : A) :
  SpecFloat.iter_pos f p x = Nat.iter (Pos.to_nat p) f x.
Proof.
  revert x. induction p as [p IH|p IH|]; intros x; cbn [SpecFloat.iter_pos].
  - rewrite !IH, Pos2Nat.inj_xI. cbn [Nat.mul].
    rewrite Nat.add_0_r, <- Nat.iter_add, Nat.iter_succ_r. reflexivity.
  - rewrite !IH, Pos2Nat.inj_xO. cbn [Nat.mul].
    rewrite Nat.add_0_r, <- Nat.iter_add. reflexivity.
  - reflexivity.
Qed.

Lemma inbetween_of_loc (X Y : Z) :
  inbetween X Y (shr_record_of_loc (X / Y) (loc_of X Y)).
Proof.
  unfold inbetween. destruct (loc_of X Y) as [|[| |]]; split; reflexivity.
Qed.

Lemma shr_1_m (mrs : shr_record) :
  0 <= shr_m mrs ->
  shr_1 mrs
  = {| shr_m := shr_m mrs / 2; shr_r := Z.odd (shr_m mrs);
       shr_s := shr_r mrs || shr_s mrs |}.
Proof.
  destruct mrs as [m r s]. cbn [shr_m shr_r shr_s]. intros Hm.
  destruct m as [|[p|p|]|p]; try lia; cbn [shr_1 Z.odd]; f_equal.
  - rewrite Pos2Z.inj_xI. apply (Z.div_unique _ 2 _ 1); lia.
  - rewrite Pos2Z.inj_xO. apply (Z.div_unique _ 2 _ 0); lia.
Qed.

Lemma shr_1_inbetween (X Y : Z) (mrs : shr_record) :
  0 <= X -> 0 < Y -> inbetween X Y mrs -> inbetween X (2 * Y) (shr_1 mrs).
Proof.
  intros HX HY [Hm Hloc].
  assert (Hm0 : 0 <= shr_m mrs) by (rewrite Hm; apply Z.div_pos; lia).
  rewrite (shr_1_m mrs Hm0). unfold inbetween. cbn [shr_m].
  assert (Hdiv : X / (2 * Y) = X / Y / 2).
  { rewrite (Z.mul_comm 2 Y). symmetry. apply Z.div_div; lia. }
  assert (Hmod : X mod (2 * Y) = X mod Y + Y * ((X / Y) mod 2)).
  { rewrite (Z.mul_comm 2 Y). apply Z.rem_mul_r; lia. }
  split; [rewrite Hm, Hdiv; reflexivity|].
  pose proof (Z.mod_pos_bound X Y HY) as Hrho.
  unfold loc_of in *. rewrite Hmod, Hm.
  rewrite (Zmod_odd (X / Y)).
  destruct mrs as [m r s]. cbn [shr_r shr_s loc_of_shr_record] in *.
  destruct (Z.eqb_spec (X mod Y) 0) as [E|E].
  - assert (r = false /\ s = false) as [-> ->].
    { destruct r, s; try discriminate; auto. }
    rewrite E. cbn [orb].
    destruct (Z.odd (X / Y)).
    + rewrite Z.mul_1_r, Z.add_0_l.
      destruct (Z.eqb_spec Y 0); [lia|].
      rewrite Z.compare_refl. reflexivity.
    + rewrite Z.mul_0_r. reflexivity.
  - assert (Hrs : r || s = true).
    { destruct r, s; try discriminate; auto. }
    rewrite Hrs.
    destruct (Z.odd (X / Y)).
    + rewrite Z.mul_1_r.
      destruct (Z.eqb_spec (X mod Y + Y) 0); [lia|].
      replace (2 * (X mod Y + Y) ?= 2 * Y) with Gt
        by (symmetry; apply Z.compare_gt_iff; lia).
      reflexivity.
    + rewrite Z.mul_0_r, Z.add_0_r.
      destruct (Z.eqb_spec (X mod Y) 0); [lia|].
      replace (2 * (X mod Y) ?= 2 * Y) with Lt
        by (symmetry; apply Z.compare_lt_iff; lia).
      reflexivity.
Qed.

Lemma shr_iter_inbetween (X Y : Z) (mrs : shr_record) (k : nat) :
  0 <= X -> 0 < Y -> inbetween X Y mrs ->
  inbetween X (2 ^ Z.of_nat k * Y) (Nat.iter k shr_1 mrs).
Proof.
  intros HX HY H. induction k as [|k IH].
  - cbn [Nat.iter]. change (2 ^ Z.of_nat 0) with 1. rewrite Z.mul_1_l. exact H.
  - cbn [Nat.iter]. rewrite Nat2Z.inj_succ, Z.pow_succ_r by lia.
    rewrite <- Z.mul_assoc. apply shr_1_inbetween; [lia| |exact IH].
    apply Z.mul_pos_pos; [apply Z.pow_pos_nonneg; lia|lia].
Qed.

Lemma round_nearest_even_near (X Y : Z) (mrs : shr_record) :
  0 <= X -> 0 < Y -> inbetween X Y mrs ->
  let m := round_nearest_even (shr_m mrs) (loc_of_shr_record mrs) in
  2 * Z.abs (m * Y - X) <= Y /\ X / Y <= m <= X / Y + 1.
Proof.
  intros HX HY [Hm Hloc]. cbv zeta. rewrite Hloc, Hm.
  pose proof (Z.mod_pos_bound X Y HY) as Hrho.
  pose proof (Z.div_mod X Y ltac:(lia)) as HXY.
  unfold loc_of. destruct (Z.eqb_spec (X mod Y) 0) as [E|E]; cbn [round_nearest_even].
  - split; nia.
  - destruct (Z.compare_spec (2 * (X mod Y)) Y) as [C|C|C].
    + destruct (Z.even (X / Y)); split; nia.
    + split; nia.
    + split; nia.
Qed.

Lemma fexp_normal (e : Z) : -1021 <= e -> fexp prec emax e = e - 53.
Proof. unfold fexp, emin, prec, emax. lia. Qed.

Lemma shr_nonneg (mrs : shr_record) (e k : Z) :
  0 <= k -> shr mrs e k = (Nat.iter (Z.to_nat k) shr_1 mrs, e + k).
Proof.
  intros Hk. destruct k as [|p|p]; [| |lia]; cbn [shr Z.to_nat].
  - rewrite Z.add_0_r. reflexivity.
  - rewrite iter_pos_nat. reflexivity.
Qed.

Lemma div_pow_bounds (m d k : Z) :
  0 <= k -> k < d -> 2 ^ (d - 1) <= m < 2 ^ d ->
  2 ^ (d - 1 - k) <= m / 2 ^ k < 2 ^ (d - k).
Proof.
  intros Hk Hd [Hlo Hhi].
  assert (Hp : 0 < 2 ^ k) by (apply Z.pow_pos_nonneg; lia).
  split.
  - apply Z.div_le_lower_bound; [exact Hp|].
    rewrite <- Z.pow_add_r by lia. replace (k + (d - 1 - k)) with (d - 1) by lia.
    exact Hlo.
  - apply Z.div_lt_upper_bound; [exact Hp|].
    rewrite <- Z.pow_add_r by lia. replace (k + (d - k)) with d by lia.
    exact Hhi.
Qed.

(** Rounding in the normal range: the mantissa [X / Y] with its position
    has at least 53 bits, and the result neither underflows nor overflows. *)
Lemma binary_round_aux_normal (sx : bool) (X Y ex : Z) :
  0 < Y ->
  2 ^ 52 <= X / Y ->
  -1074 <= ex + (Zdigits2 (X / Y) - 53) < 971 ->
  exists m' e',
    binary_round_aux prec emax sx (X / Y) ex (loc_of X Y) = S754_finite sx m' e'
    /\ valid_binary (S754_finite sx m' e') = true
    /\ 2 ^ 52 <= Z.pos m' < 2 ^ 53
    /\ ex + (Zdigits2 (X / Y) - 53) <= e' <= ex + (Zdigits2 (X / Y) - 53) + 1
    /\ 2 * Z.abs (Z.pos m' * 2 ^ (e' - ex) * Y - X)
        <= 2 ^ (Zdigits2 (X / Y) - 53) * Y.
Proof.
  intros HY Hmx He.
  set (mx := X / Y) in *. set (d := Zdigits2 mx) in *. set (k := d - 53) in *.
  assert (Hmx0 : 0 < mx) by lia.
  assert (HX : 0 <= X).
  { destruct (Z.lt_ge_cases X 0) as [Hneg|]; [|assumption].
    assert (X / Y < 0) by (apply Z.div_lt_upper_bound; lia). lia. }
  pose proof (Zdigits2_bounds mx Hmx0) as Hd. fold d in Hd.
  assert (Hk : 0 <= k).
  { assert (52 < d); [|lia]. apply (Z.pow_lt_mono_r_iff 2); [lia| |lia].
    pose proof (Zdigits2_pos mx Hmx0). fold d in H. lia. }
  unfold binary_round_aux, shr_fexp. fold d.
  rewrite fexp_normal by lia.
  replace (d + ex - 53 - ex) with k by lia.
  rewrite shr_nonneg by exact Hk.
  set (mrs := Nat.iter (Z.to_nat k) shr_1 (shr_record_of_loc mx (loc_of X Y))).
  assert (Hin : inbetween X (2 ^ k * Y) mrs).
  { replace k with (Z.of_nat (Z.to_nat k)) at 1 by lia.
    apply shr_iter_inbetween; [exact HX|exact HY|apply inbetween_of_loc]. }
  assert (Hp : 0 < 2 ^ k) by (apply Z.pow_pos_nonneg; lia).
  destruct (round_nearest_even_near X (2 ^ k * Y) mrs HX ltac:(nia) Hin)
    as [Hnear Hrange].
  set (mr := round_nearest_even (shr_m mrs) (loc_of_shr_record mrs)) in *.
  assert (Hq : X / (2 ^ k * Y) = mx / 2 ^ k).
  { rewrite (Z.mul_comm (2 ^ k) Y). symmetry. apply Z.div_div; lia. }
  rewrite Hq in Hrange.
  pose proof (div_pow_bounds mx d k Hk ltac:(lia) Hd) as Hdiv.
  replace (d - 1 - k) with 52 in Hdiv by lia.
  replace (d - k) with 53 in Hdiv by lia.
  assert (Hmr : 2 ^ 52 <= mr <= 2 ^ 53) by lia.
  destruct (Z.eq_dec mr (2 ^ 53)) as [Htop|Htop].
  - exists (Z.to_pos (2 ^ 52)), (ex + k + 1).
    rewrite Htop.
    replace (Zdigits2 (2 ^ 53)) with 54 by reflexivity.
    rewrite fexp_normal by lia.
    replace (54 + (ex + k) - 53 - (ex + k)) with 1 by lia.
    cbn [shr shr_record_of_loc SpecFloat.iter_pos].
    change (shr_m (shr_1 {| shr_m := 2 ^ 53; shr_r := false; shr_s := false |}))
      with (Z.pos (Z.to_pos (2 ^ 52))).
    cbv iota beta.
    replace (ex + k + 1 <=? emax - prec) with true
      by (symmetry; apply Z.leb_le; unfold emax, prec; lia).
    split; [reflexivity|]. split.
    { unfold SpecFloat.valid_binary, SpecFloat.bounded, canonical_mantissa.
      replace (Z.pos (digits2_pos (Z.to_pos (2 ^ 52)))) with 53 by reflexivity.
      rewrite fexp_normal by lia.
      apply andb_true_intro. split; [apply Z.eqb_eq; lia|].
      apply Z.leb_le. unfold emax, prec. lia. }
    split; [change (Z.pos (Z.to_pos (2 ^ 52))) with (2 ^ 52); lia|].
    split; [lia|].
    change (Z.pos (Z.to_pos (2 ^ 52))) with (2 ^ 52).
    replace (ex + k + 1 - ex) with (Z.succ k) by lia.
    rewrite Z.pow_succ_r by lia.
    replace (2 ^ 52 * (2 * 2 ^ k) * Y - X) with (mr * (2 ^ k * Y) - X)
      by (rewrite Htop; change (2 ^ 53) with (2 * 2 ^ 52); ring).
    exact Hnear.
  - assert (Hdm : Zdigits2 mr = 53) by (apply Zdigits2_unique; lia).
    exists (Z.to_pos mr), (ex + k).
    rewrite Hdm, fexp_normal by lia.
    replace (53 + (ex + k) - 53 - (ex + k)) with 0 by lia.
    cbn [shr shr_record_of_loc shr_m].
    destruct mr as [|p|p] eqn:Emr; [lia| |lia].
    cbn [Z.to_pos].
    replace (ex + k <=? emax - prec) with true
      by (symmetry; apply Z.leb_le; unfold emax, prec; lia).
    split; [reflexivity|]. split.
    { unfold SpecFloat.valid_binary, SpecFloat.bounded, canonical_mantissa.
      change (Z.pos (digits2_pos p)) with (Zdigits2 (Z.pos p)).
      rewrite Hdm, fexp_normal by lia.
      apply andb_true_intro. split; [apply Z.eqb_eq; lia|].
      apply Z.leb_le. unfold emax, prec. lia. }
    split; [lia|]. split; [lia|].
    replace (ex + k - ex) with k by lia.
    replace (Z.pos p * 2 ^ k * Y - X) with (Z.pos p * (2 ^ k * Y) - X) by ring.
    exact Hnear.
Qed.

Lemma IZR_pow2 (k : Z) : 0 <= k -> IZR (2 ^ k) = powerRZ 2 k.
Proof.
  intros Hk. rewrite <- (Z2Nat.id k Hk) at 1 2.
  rewrite <- pow_IZR, <- pow_powerRZ. reflexivity.
Qed.

Lemma bpow_pos (e : Z) : (0 < powerRZ 2 e)%R.
Proof. apply powerRZ_lt. lra. Qed.

Lemma bpow_add (a b : Z) :
  powerRZ 2 (a + b) = (powerRZ 2 a * powerRZ 2 b)%R.
Proof. apply powerRZ_add. lra. Qed.

(** The same in the reals: the result is within a relative error of
    [2^-53] of the value rounded. *)
Lemma binary_round_aux_near (sx : bool) (X Y ex : Z) :
  0 < Y ->
  2 ^ 52 <= X / Y ->
  -1074 <= ex + (Zdigits2 (X / Y) - 53) < 971 ->
  exists m' e',
    binary_round_aux prec emax sx (X / Y) ex (loc_of X Y) = S754_finite sx m' e'
    /\ valid_binary (S754_finite sx m' e') = true
    /\ 2 ^ 52 <= Z.pos m' < 2 ^ 53
    /\ ex + (Zdigits2 (X / Y) - 53) <= e' <= ex + (Zdigits2 (X / Y) - 53) + 1
    /\ (Rabs (IZR (Z.pos m') * powerRZ 2 e' - IZR X / IZR Y * powerRZ 2 ex)
         <= IZR X / IZR Y * powerRZ 2 ex / 2 ^ 53)%R.
Proof.
  intros HY Hmx He.
  destruct (binary_round_aux_normal sx X Y ex HY Hmx He)
    as (m' & e' & Hres & Hvalid & Hm' & He' & Hnear).
  exists m', e'. repeat (split; [assumption|]).
  set (mx := X / Y) in *. set (k := Zdigits2 mx - 53) in *.
  assert (Hmx0 : 0 < mx) by lia.
  pose proof (Zdigits2_bounds mx Hmx0) as [Hlo _].
  assert (Hk : 0 <= k).
  { assert (52 < Zdigits2 mx); [|lia].
    apply (Z.pow_lt_mono_r_iff 2); [lia| |].
    - pose proof (Zdigits2_pos mx Hmx0). lia.
    - pose proof (Zdigits2_bounds mx Hmx0). lia. }
  replace (Zdigits2 mx - 1) with (52 + k) in Hlo by lia.
  rewrite Z.pow_add_r in Hlo by lia.
  pose proof (Z.div_mod X Y ltac:(lia)) as HXY. fold mx in HXY.
  pose proof (Z.mod_pos_bound X Y HY) as Hrho.
  assert (Hfloor : Y * mx <= X) by lia.
  set (P := 2 ^ (e' - ex)) in *.
  assert (H1 : 2 * (Z.pos m' * P * Y - X) <= 2 ^ k * Y) by lia.
  assert (H2 : - (2 ^ k * Y) <= 2 * (Z.pos m' * P * Y - X)) by lia.
  apply IZR_le in H1, H2, Hlo, Hfloor.
  repeat rewrite ?opp_IZR, ?mult_IZR, ?minus_IZR in H1.
  repeat rewrite ?opp_IZR, ?mult_IZR, ?minus_IZR in H2.
  rewrite mult_IZR in Hlo, Hfloor.
  assert (Hy : (0 < IZR Y)%R) by (apply IZR_lt; exact HY).
  assert (HP : IZR P = powerRZ 2 (e' - ex)) by (apply IZR_pow2; lia).
  assert (HK : (0 < IZR (2 ^ k))%R).
  { apply IZR_lt. apply Z.pow_pos_nonneg; lia. }
  replace e' with ((e' - ex) + ex) at 1 by lia.
  rewrite bpow_add, <- HP.
  pose proof (bpow_pos ex) as HE.
  set (E := powerRZ 2 ex) in *. set (M := IZR (Z.pos m')) in *.
  set (p := IZR P) in *. set (K := IZR (2 ^ k)) in *.
  set (y := IZR Y) in *. set (q := (IZR X / y)%R).
  assert (Hq : IZR X = (q * y)%R) by (unfold q; field; lra).
  rewrite Hq in H1, H2, Hfloor.
  change (IZR (2 ^ 52)) with (IZR 4503599627370496) in Hlo.
  assert (Hmq : (IZR mx <= q)%R).
  { apply (Rmult_le_reg_r y); [exact Hy|]. lra. }
  assert (Ha : (2 * (M * p - q) <= K)%R).
  { apply (Rmult_le_reg_r y); [exact Hy|]. lra. }
  assert (Hb : (- K <= 2 * (M * p - q))%R).
  { apply (Rmult_le_reg_r y); [exact Hy|]. lra. }
  assert (Hc : (K / 2 <= q / 2 ^ 53)%R) by lra.
  replace (M * (p * E) - q * E)%R with ((M * p - q) * E)%R by ring.
  replace (q * E / 2 ^ 53)%R with (q / 2 ^ 53 * E)%R by (field; lra).
  apply Rabs_le. split.
  - replace (- (q / 2 ^ 53 * E))%R with ((- (q / 2 ^ 53)) * E)%R by ring.
    apply Rmult_le_compat_r; lra.
  - apply Rmult_le_compat_r; lra.
Qed.

Lemma Rabs_le_inv (x b : R) : (Rabs x <= b -> - b <= x <= b)%R.
Proof. unfold Rabs. destruct (Rcase_abs x); lra. Qed.

Lemma binary_round_aux_exact (sx : bool) (mx ex : Z) :
  2 ^ 52 <= mx ->
  -1074 <= ex + (Zdigits2 mx - 53) < 971 ->
  exists m' e',
    binary_round_aux prec emax sx mx ex loc_Exact = S754_finite sx m' e'
    /\ valid_binary (S754_finite sx m' e') = true
    /\ 2 ^ 52 <= Z.pos m' < 2 ^ 53
    /\ ex + (Zdigits2 mx - 53) <= e' <= ex + (Zdigits2 mx - 53) + 1
    /\ (Rabs (IZR (Z.pos m') * powerRZ 2 e' - IZR mx * powerRZ 2 ex)
         <= IZR mx * powerRZ 2 ex / 2 ^ 53)%R.
Proof.
  intros Hmx He.
  pose proof (binary_round_aux_near sx mx 1 ex) as H.
  rewrite Z.div_1_r in H. unfold loc_of in H. rewrite Z.mod_1_r in H.
  cbn [Z.eqb] in H.
  replace (IZR mx / 1)%R with (IZR mx) in H by lra.
  apply H; [lia|assumption|assumption].
Qed.

Lemma new_location_loc (Y r : Z) :
  0 < Y -> 0 <= r < Y ->
  new_location Y r
  = if r =? 0 then loc_Exact else loc_Inexact (2 * r ?= Y).
Proof.
  intros HY Hr. unfold new_location, new_location_even, new_location_odd.
  destruct (Z.even Y) eqn:Ev; [reflexivity|].
  destruct (Z.eqb_spec r 0); [reflexivity|]. f_equal.
  assert (Hodd : Z.odd Y = true) by (rewrite <- Z.negb_even, Ev; reflexivity).
  apply Z.odd_spec in Hodd. destruct Hodd as [c Hc].
  destruct (Z.compare_spec (2 * r + 1) Y);
    symmetry; [apply Z.compare_lt_iff|apply Z.compare_lt_iff
              |apply Z.compare_gt_iff]; lia.
Qed.

Lemma SFdiv_core_ints (m1 m2 : Z) :
  0 < m1 -> 0 < m2 ->
  let e0 := Z.min (fexp prec emax (Zdigits2 m1 - Zdigits2 m2)) 0 in
  SFdiv_core_binary prec emax m1 0 m2 0
  = (m1 * 2 ^ (- e0) / m2, e0, loc_of (m1 * 2 ^ (- e0)) m2).
Proof.
  intros H1 H2 e0. unfold SFdiv_core_binary.
  rewrite !Z.add_0_r. change (0 - 0) with 0. fold e0.
  replace (0 - e0) with (- e0) by lia.
  assert (He0 : 0 <= - e0) by lia.
  set (X := m1 * 2 ^ (- e0)).
  assert (HX : match - e0 with
               | Z.pos _ => Z.shiftl m1 (- e0)
               | 0 => m1
               | Z.neg _ => 0
               end = X).
  { unfold X. destruct (- e0) as [|p|p] eqn:E; [| |lia].
    - rewrite Z.pow_0_r, Z.mul_1_r. reflexivity.
    - apply Z.shiftl_mul_pow2. lia. }
  rewrite HX.
  pose proof (Z.mod_pos_bound X m2 H2) as Hr.
  unfold loc_of. rewrite <- (new_location_loc m2 (X mod m2) H2 Hr).
  unfold Z.div, Z.modulo. destruct (Z.div_eucl X m2). reflexivity.
Qed.

(** [a / b] on ints in the normal range: the quotient is a float within
    a relative error of [2^-53] of the exact quotient. *)
Lemma truediv_near (a b : Z) :
  0 < a < 2 ^ 1000 -> b <> 0 -> Z.abs b <= 2 ^ 1000 ->
  exists q m e,
    PyNum.truediv a b = inl q
    /\ Prim2SF q = S754_finite (b <? 0) m e
    /\ 2 ^ 52 <= Z.pos m < 2 ^ 53
    /\ -1053 <= e <= 948
    /\ (Rabs (IZR (Z.pos m) * powerRZ 2 e - IZR a / IZR (Z.abs b))
         <= IZR a / IZR (Z.abs b) / 2 ^ 53)%R.
Proof.
  intros Ha Hb Hbb. unfold PyNum.truediv.
  destruct (Z.eqb_spec b 0) as [|_]; [contradiction|].
  assert (Hia : PyNum.int_SF a = S754_finite false (Z.to_pos a) 0).
  { destruct a; try lia. reflexivity. }
  assert (Hib : PyNum.int_SF b = S754_finite (b <? 0) (Z.to_pos (Z.abs b)) 0).
  { destruct b; try lia; reflexivity. }
  rewrite Hia, Hib. cbn [SFdiv xorb].
  set (y := Z.abs b) in *. assert (Hy : 0 < y) by lia.
  rewrite !Z2Pos.id by lia.
  rewrite (SFdiv_core_ints a y) by lia.
  set (d1 := Zdigits2 a). set (d2 := Zdigits2 y).
  pose proof (Zdigits2_bounds a ltac:(lia)) as Hd1. fold d1 in Hd1.
  pose proof (Zdigits2_bounds y Hy) as Hd2. fold d2 in Hd2.
  pose proof (Zdigits2_pos a ltac:(lia)) as Hd1p. fold d1 in Hd1p.
  pose proof (Zdigits2_pos y Hy) as Hd2p. fold d2 in Hd2p.
  assert (Hd1u : d1 <= 1000).
  { assert (d1 - 1 < 1000); [|lia]. apply (Z.pow_lt_mono_r_iff 2); lia. }
  assert (Hd2u : d2 <= 1001).
  { assert (d2 - 1 < 1001); [|lia]. apply (Z.pow_lt_mono_r_iff 2); [lia|lia|].
    change (2 ^ 1001) with (2 * 2 ^ 1000). lia. }
  rewrite fexp_normal by lia.
  set (e0 := Z.min (d1 - d2 - 53) 0). set (sh := - e0).
  assert (Hsh : 0 <= sh /\ 53 + d2 - d1 <= sh /\ sh <= Z.max (53 + d2 - d1) 0)
    by (unfold sh, e0; lia).
  set (X := a * 2 ^ sh).
  assert (Hpsh : 0 < 2 ^ sh) by (apply Z.pow_pos_nonneg; lia).
  assert (HXlo : 2 ^ (d1 - 1 + sh) <= X).
  { unfold X. rewrite Z.pow_add_r by lia. nia. }
  assert (HXhi : X < 2 ^ (d1 + sh)).
  { unfold X. rewrite Z.pow_add_r by lia. nia. }
  assert (Hq52 : 2 ^ 52 <= X / y).
  { apply Z.div_le_lower_bound; [exact Hy|].
    assert (2 ^ 52 * 2 ^ d2 <= 2 ^ (d1 - 1 + sh)).
    { rewrite <- Z.pow_add_r by lia. apply Z.pow_le_mono_r; lia. }
    nia. }
  set (u := d1 + sh - d2 + 1).
  assert (Hqhi : X / y < 2 ^ u).
  { apply Z.div_lt_upper_bound; [exact Hy|].
    assert (2 ^ (d1 + sh) = 2 ^ (d2 - 1) * 2 ^ u).
    { rewrite <- Z.pow_add_r by (unfold u; lia). f_equal. unfold u. lia. }
    assert (0 < 2 ^ u) by (apply Z.pow_pos_nonneg; unfold u; lia).
    nia. }
  pose proof (Zdigits2_bounds (X / y) ltac:(lia)) as HD.
  set (D := Zdigits2 (X / y)) in *.
  assert (HDlo : 53 <= D).
  { assert (52 < D); [|lia]. apply (Z.pow_lt_mono_r_iff 2); [lia| |lia].
    pose proof (Zdigits2_pos (X / y) ltac:(lia)). fold D in H. lia. }
  assert (HDhi : D <= u).
  { assert (D - 1 < u); [|lia].
    apply (Z.pow_lt_mono_r_iff 2); [lia|unfold u; lia|lia]. }
  destruct (binary_round_aux_near (b <? 0) X y e0 Hy Hq52)
    as (m & e & Hres & Hvalid & Hm & He & Hnear).
  { fold D. unfold u in HDhi. unfold sh in *. lia. }
  fold D in He.
  rewrite Hres.
  exists (SF2Prim (S754_finite (b <? 0) m e)), m, e.
  split; [reflexivity|].
  split; [apply Prim2SF_SF2Prim; exact Hvalid|].
  split; [exact Hm|].
  split; [unfold u in HDhi; unfold sh in *; lia|].
  assert (HXR : (IZR X / IZR y * powerRZ 2 e0 = IZR a / IZR y)%R).
  { unfold X. rewrite mult_IZR, IZR_pow2 by lia.
    replace e0 with (- sh) by (unfold sh; lia).
    rewrite powerRZ_neg'.
    pose proof (bpow_pos sh). assert (0 < IZR y)%R by (apply IZR_lt; lia).
    field. lra. }
  rewrite <- HXR. exact Hnear.
Qed.

Lemma float_100 :
  Prim2SF (PyNum.float_of_Z 100) = S754_finite false 7036874417766400 (-46).
Proof. reflexivity. Qed.

(** [x * 100] for a normal float away from the ends of the range. *)
Lemma mul_100_near (q : float) (s : bool) (m : positive) (e : Z) :
  Prim2SF q = S754_finite s m e ->
  2 ^ 52 <= Z.pos m < 2 ^ 53 ->
  -1053 <= e <= 948 ->
  exists m' e',
    Prim2SF (PyNum.mul_int q 100) = S754_finite s m' e'
    /\ (Rabs (IZR (Z.pos m') * powerRZ 2 e'
               - 100 * (IZR (Z.pos m) * powerRZ 2 e))
         <= 100 * (IZR (Z.pos m) * powerRZ 2 e) / 2 ^ 53)%R.
Proof.
  intros Hq Hm He. unfold PyNum.mul_int.
  rewrite mul_spec, Hq, float_100. unfold SF64mul, SFmul.
  rewrite xorb_false_r, Pos2Z.inj_mul.
  set (c := 7036874417766400) in *.
  set (P := Z.pos m * c).
  assert (HP : 2 ^ 104 <= P < 2 ^ 106) by (unfold P, c; nia).
  pose proof (Zdigits2_bounds P ltac:(lia)) as HD.
  pose proof (Zdigits2_pos P ltac:(lia)) as HDp.
  set (D := Zdigits2 P) in *.
  assert (HDlo : 105 <= D).
  { assert (104 < D); [|lia]. apply (Z.pow_lt_mono_r_iff 2); lia. }
  assert (HDhi : D <= 106).
  { assert (D - 1 < 106); [|lia]. apply (Z.pow_lt_mono_r_iff 2); lia. }
  destruct (binary_round_aux_exact s P (e + -46))
    as (m' & e' & Hres & _ & _ & _ & Hnear); [lia|fold D; lia|].
  exists m', e'. split; [exact Hres|].
  replace (100 * (IZR (Z.pos m) * powerRZ 2 e))%R
    with (IZR P * powerRZ 2 (e + -46))%R; [exact Hnear|].
  unfold P, c. rewrite mult_IZR, bpow_add.
  change (powerRZ 2 (-46)) with (/ 2 ^ 46)%R. field.
Qed.

(** The stored percentage [(n / t) * 100]: no exception is raised, and the
    float is within a relative error of [2^-51] of [100 * n / t]. *)
Lemma percentage_near (n t : Z) :
  0 < n < 2 ^ 1000 -> t <> 0 -> Z.abs t <= 2 ^ 1000 ->
  exists q,
    PyNum.truediv n t = inl q
    /\ PyNum.is_finite (PyNum.mul_int q 100) = true
    /\ (Rabs (PyNum.to_R (PyNum.mul_int q 100) - 100 * IZR n / IZR t)
         <= Rabs (100 * IZR n / IZR t) / 2 ^ 51)%R.
Proof.
  intros Hn Ht Htt.
  destruct (truediv_near n t Hn Ht Htt) as (q & m & e & Hq & Hsf & Hm & He & H1).
  destruct (mul_100_near q (t <? 0) m e Hsf Hm He) as (m' & e' & Hres & H2).
  exists q. split; [exact Hq|].
  unfold PyNum.is_finite, PyNum.to_R. rewrite Hres. split; [reflexivity|].
  cbn [PyNum.SF2R].
  set (A := (IZR (Z.pos m) * powerRZ 2 e)%R) in *.
  set (B := (IZR (Z.pos m') * powerRZ 2 e')%R) in *.
  assert (Hy : (0 < IZR (Z.abs t))%R) by (apply IZR_lt; lia).
  assert (Hx : (0 < IZR n)%R) by (apply IZR_lt; lia).
  set (x := (IZR n / IZR (Z.abs t))%R) in *.
  assert (Hx0 : (0 < x)%R) by (apply Rdiv_lt_0_compat; assumption).
  apply Rabs_le_inv in H1, H2.
  destruct (Z.ltb_spec t 0) as [Hneg|Hpos]; cbv beta iota; fold B.
  - assert (Hex : (100 * IZR n / IZR t = - (100 * x))%R).
    { unfold x. rewrite (Z.abs_neq t) by lia. rewrite opp_IZR.
      field. apply not_0_IZR. lia. }
    rewrite Hex, Rabs_Ropp, (Rabs_pos_eq (100 * x)) by lra.
    replace (- IZR (Z.pos m') * powerRZ 2 e')%R with (- B)%R by (unfold B; ring).
    clearbody A B x. apply Rabs_le. lra.
  - assert (Hex : (100 * IZR n / IZR t = 100 * x)%R).
    { unfold x. rewrite (Z.abs_eq t) by lia. field. apply not_0_IZR. lia. }
    rewrite Hex, (Rabs_pos_eq (100 * x)) by lra.
    clearbody A B x. apply Rabs_le. lra.
Qed.

(** A quotient of equal ints is exactly one. *)
Lemma truediv_same (a : Z) : 0 < a -> PyNum.truediv a a = inl 1%float.
Proof.
  intros Ha. unfold PyNum.truediv.
  destruct (Z.eqb_spec a 0) as [|_]; [lia|].
  assert (Hia : PyNum.int_SF a = S754_finite false (Z.to_pos a) 0).
  { destruct a; try lia. reflexivity. }
  rewrite Hia. cbn [SFdiv xorb]. rewrite Z2Pos.id by lia.
  rewrite (SFdiv_core_ints a a) by lia.
  rewrite Z.sub_diag.
  change (Z.min (fexp prec emax 0) 0) with (-53).
  change (- -53) with 53.
  assert (Hq : a * 2 ^ 53 / a = 2 ^ 53).
  { rewrite Z.mul_comm. apply Z.div_mul. lia. }
  assert (Hl : loc_of (a * 2 ^ 53) a = loc_Exact).
  { unfold loc_of. rewrite Z.mul_comm, Z.mod_mul by lia. reflexivity. }
  rewrite Hq, Hl. reflexivity.
Qed.

(** The quotient is rounded once: for [1 / (2^53 + 1)] it is the float below
    [2^-53], where the quotient of the two ints rounded to floats first is
    [2^-53] itself; the percentages differ in the last place. *)
Lemma truediv_rounds_once :
  match PyNum.truediv 1 (2 ^ 53 + 1) with
  | inl quotient =>
      Prim2SF quotient = S754_finite false 9007199254740991 (-106)
      /\ Prim2SF (PyNum.mul_int quotient 100)
         = S754_finite false 7036874417766399 (-99)
  | inr _ => False
  end
  /\ Prim2SF (PyNum.float_of_Z 1 / PyNum.float_of_Z (2 ^ 53 + 1))
     = S754_finite false 4503599627370496 (-105)
  /\ Prim2SF
       (PyNum.mul_int (PyNum.float_of_Z 1 / PyNum.float_of_Z (2 ^ 53 + 1)) 100)
     = S754_finite false 7036874417766400 (-99).
Proof. vm_compute. repeat split. Qed.

End PyNumFacts.

(** ** Progress tracker *)

Module ProgressFacts.
Import Assessment.

Section Tracker.

Variable randint : nat -> Z -> Z -> Z.
Variable clock : nat -> string.

Abbreviation submit := (submit_assessment_result randint clock).

Lemma load_save (p : gmap string ProgressRecord) (w : World) :
  load_user_progress (save_user_progress clock p w) = p.
Proof. reflexivity. Qed.

Lemma get_progress_save (p : gmap string ProgressRecord) (w : World)
    (session_id : string) (r : ProgressRecord) :
  get_progress (save_user_progress clock (<[session_id := r]> p) w) session_id = r.
Proof.
  unfold get_progress. rewrite load_save, lookup_insert_eq. reflexivity.
Qed.

Lemma get_progress_save_ne (p : gmap string ProgressRecord) (w w0 : World)
    (s s' : string) (r : ProgressRecord) :
  s <> s' -> load_user_progress w0 = p ->
  get_progress (save_user_progress clock (<[s := r]> p) w) s' = get_progress w0 s'.
Proof.
  intros Hne Hp. unfold get_progress.
  rewrite load_save, lookup_insert_ne, Hp by exact Hne. reflexivity.
Qed.

(** The record a session has before its first submission is the one
    [get_progress] reports, up to the absent mistake list. *)
Lemma prior_record (w : World) (session_id : string) :
  let r := match load_user_progress w !! session_id with
           | Some r => r
           | None => new_record
           end in
  xp r = xp (get_progress w session_id)
  /\ unlocked_level r = unlocked_level (get_progress w session_id)
  /\ history r = history (get_progress w session_id).
Proof.
  unfold get_progress. destruct (load_user_progress w !! session_id); auto.
Qed.

Hypothesis randint_range : forall t a b, a <= b -> a <= randint t a b <= b.

(** C1: a level-1 submission passes exactly when the score is at least 8,
    gains the generator's draw from 50 to 100 and lifts the unlocked level
    to at least 2; level 2 passes from 7, gains from 100 to 150 and lifts it
    to at least 3; level 3 passes above 0, gains from 150 to 200 and unlocks
    nothing; a failed submission gains 0 and leaves XP and unlocked level as
    they were; the total returned is the prior XP plus the gain. *)
Theorem submit_policy (w w' : World) (session_id : string)
    (level score max_score : Z) (mistakes : option (list Mistake))
    (res : SubmitResult) :
  submit w session_id level score max_score mistakes = (res, w') ->
  let prior := get_progress w session_id in
  let after := get_progress w' session_id in
  (level = 1 ->
     (passed res = true <-> 8 <= score)
     /\ (passed res = true ->
         xp_gained res = randint (ticks w) 50 100
         /\ 50 <= xp_gained res <= 100
         /\ unlocked_level after = Z.max (unlocked_level prior) 2))
  /\ (level = 2 ->
     (passed res = true <-> 7 <= score)
     /\ (passed res = true ->
         xp_gained res = randint (ticks w) 100 150
         /\ 100 <= xp_gained res <= 150
         /\ unlocked_level after = Z.max (unlocked_level prior) 3))
  /\ (level = 3 ->
     (passed res = true <-> 0 < score)
     /\ (passed res = true ->
         xp_gained res = randint (ticks w) 150 200
         /\ 150 <= xp_gained res <= 200)
     /\ unlocked_level after = unlocked_level prior)
  /\ (passed res = false ->
     xp_gained res = 0
     /\ xp after = xp prior
     /\ unlocked_level after = unlocked_level prior)
  /\ new_total_xp res = xp prior + xp_gained res
  /\ xp after = new_total_xp res
  /\ unlocked_level after = res_unlocked_level res.
Proof.
  intros Hcall prior after. subst prior after.
  unfold submit_assessment_result in Hcall.
  destruct (prior_record w session_id) as (Hxp & Hul & _).
  cbv zeta in Hxp, Hul.
  set (ud := match load_user_progress w !! session_id with
             | Some r => r | None => new_record end) in *.
  pose proof (randint_range (ticks w) 50 100 ltac:(lia)) as R1.
  pose proof (randint_range (ticks w) 100 150 ltac:(lia)) as R2.
  pose proof (randint_range (ticks w) 150 200 ltac:(lia)) as R3.
  rewrite <- Hxp, <- Hul.
  destruct (Z.eqb_spec level 1) as [->|N1];
    [|destruct (Z.eqb_spec level 2) as [->|N2];
      [|destruct (Z.eqb_spec level 3) as [->|N3]]].
  all: unfold Z.geb, Z.gtb in Hcall.
  all: try (destruct (Z.compare_spec score 8); cbn in Hcall).
  all: try (destruct (Z.compare_spec score 7); cbn in Hcall).
  all: try (destruct (Z.compare_spec score 0); cbn in Hcall).
  all: try (destruct (Z.ltb_spec (unlocked_level ud) 2); cbn in Hcall).
  all: try (destruct (Z.ltb_spec (unlocked_level ud) 3); cbn in Hcall).
  all: injection Hcall as <- <-; rewrite get_progress_save; cbn.
  all: repeat split; intros; try discriminate; try lia.
Qed.

(** *** What a submission leaves in the store *)

Lemma submit_stored (w w' : World) (session_id : string)
    (level score max_score : Z) (mistakes : option (list Mistake))
    (res : SubmitResult) :
  submit w session_id level score max_score mistakes = (res, w') ->
  progress_file w'
    = Some (<[session_id := get_progress w' session_id]> (load_user_progress w))
  /\ session_mistakes w' session_id
     = match mistakes with
       | Some ms =>
           fold_left (add_mistake level (mtime_stamp w)) ms
             (session_mistakes w session_id)
       | None => session_mistakes w session_id
       end
  /\ history (get_progress w' session_id)
     = history (get_progress w session_id)
       ++ [ {| ev_level := level; ev_score := score;
               ev_max_score := max_score; ev_passed := passed res;
               ev_xp_gained := xp_gained res;
               ev_timestamp := mtime_stamp w |} ]
  /\ unlocked_level (get_progress w session_id)
     <= unlocked_level (get_progress w' session_id)
  /\ (passed res = false ->
      xp_gained res = 0
      /\ xp (get_progress w' session_id) = xp (get_progress w session_id)
      /\ unlocked_level (get_progress w' session_id)
         = unlocked_level (get_progress w session_id)).
Proof.
  intros Hcall. unfold submit_assessment_result in Hcall.
  assert (Hm : match Assessment.mistakes (match load_user_progress w !! session_id with
                               | Some r => r | None => new_record end) with
               | Some l => l | None => [] end = session_mistakes w session_id).
  { unfold session_mistakes. destruct (load_user_progress w !! session_id); auto. }
  destruct (prior_record w session_id) as (Hxp & Hul & Hh).
  cbv zeta in Hxp, Hul, Hh.
  set (ud := match load_user_progress w !! session_id with
             | Some r => r | None => new_record end) in *.
  rewrite <- Hxp, <- Hul, <- Hh, <- Hm.
  destruct (level =? 1);
    [|destruct (level =? 2); [|destruct (level =? 3)]].
  all: try (destruct (score >=? 8); cbn in Hcall).
  all: try (destruct (score >=? 7); cbn in Hcall).
  all: try (destruct (score >? 0); cbn in Hcall).
  all: try (destruct (Z.ltb_spec (unlocked_level ud) 2); cbn in Hcall).
  all: try (destruct (Z.ltb_spec (unlocked_level ud) 3); cbn in Hcall).
  all: injection Hcall as <- <-; rewrite get_progress_save.
  all: unfold session_mistakes; rewrite load_save, lookup_insert_eq; cbn.
  all: repeat split; intros; try discriminate; try lia.
Qed.

Lemma submit_other_sessions (w w' : World) (session_id other : string)
    (level score max_score : Z) (mistakes : option (list Mistake))
    (res : SubmitResult) :
  submit w session_id level score max_score mistakes = (res, w') ->
  session_id <> other ->
  get_progress w' other = get_progress w other
  /\ session_mistakes w' other = session_mistakes w other.
Proof.
  intros Hcall Hne.
  destruct (submit_stored _ _ _ _ _ _ _ _ Hcall) as (Hfile & _).
  unfold get_progress, session_mistakes, load_user_progress at 1 3.
  rewrite Hfile, lookup_insert_ne by exact Hne. auto.
Qed.

(** *** Monotonicity of the unlocked level *)

Lemma submit_step_unlocked (w : World) (c : Submission) (session_id : string) :
  unlocked_level (get_progress w session_id)
  <= unlocked_level (get_progress (submit_step randint clock w c) session_id).
Proof.
  unfold submit_step.
  destruct (submit w (sub_session c) (sub_level c) (sub_score c)
              (sub_max_score c) (sub_mistakes c)) as [res w'] eqn:Hcall.
  cbn [snd].
  destruct (decide (sub_session c = session_id)) as [<-|Hne].
  - apply (submit_stored _ _ _ _ _ _ _ _ Hcall).
  - destruct (submit_other_sessions _ _ _ session_id _ _ _ _ _ Hcall Hne)
      as [-> _]. lia.
Qed.

(** C2: across any sequence of submissions, and at each call of it, the
    unlocked level of every session is at least what it was before. *)
Theorem unlocked_level_never_decreases (w : World) (calls : list Submission)
    (c : Submission) (session_id : string) :
  let w1 := submit_all randint clock calls w in
  unlocked_level (get_progress w session_id)
  <= unlocked_level (get_progress w1 session_id)
  /\ unlocked_level (get_progress w1 session_id)
     <= unlocked_level (get_progress (submit_step randint clock w1 c) session_id).
Proof.
  cbv zeta. split; [|apply submit_step_unlocked].
  unfold submit_all. revert w.
  induction calls as [|c0 calls IH]; intros w; cbn [fold_left].
  - lia.
  - specialize (IH (submit_step randint clock w c0)).
    pose proof (submit_step_unlocked w c0 session_id). lia.
Qed.

(** C10: a submission for a level other than 1, 2 and 3 fails, gains no XP
    and unlocks nothing, and still its event is appended to the history and
    the store is written back. *)
Theorem submit_unknown_level (w w' : World) (session_id : string)
    (level score max_score : Z) (mistakes : option (list Mistake))
    (res : SubmitResult) :
  level <> 1 -> level <> 2 -> level <> 3 ->
  submit w session_id level score max_score mistakes = (res, w') ->
  let prior := get_progress w session_id in
  let after := get_progress w' session_id in
  passed res = false
  /\ xp_gained res = 0
  /\ new_total_xp res = xp prior
  /\ xp after = xp prior
  /\ unlocked_level after = unlocked_level prior
  /\ history after
     = history prior
       ++ [ {| ev_level := level; ev_score := score;
               ev_max_score := max_score; ev_passed := false;
               ev_xp_gained := 0; ev_timestamp := mtime_stamp w |} ]
  /\ progress_file w' = Some (<[session_id := after]> (load_user_progress w)).
Proof.
  intros N1 N2 N3 Hcall prior after. subst prior after.
  destruct (submit_stored _ _ _ _ _ _ _ _ Hcall) as (Hfile & _ & Hhist & _ & Hfail).
  assert (Hres : passed res = false /\ new_total_xp res
                 = xp (get_progress w session_id)).
  { unfold submit_assessment_result in Hcall.
    destruct (prior_record w session_id) as (Hxp & _). cbv zeta in Hxp.
    rewrite <- Hxp.
    destruct (Z.eqb_spec level 1); [contradiction|].
    destruct (Z.eqb_spec level 2); [contradiction|].
    destruct (Z.eqb_spec level 3); [contradiction|].
    injection Hcall as <- _. auto. }
  destruct Hres as [Hp Hx]. destruct (Hfail Hp) as (Hg & Hxp & Hul).
  rewrite Hhist, Hp, Hg. auto 10.
Qed.

(** *** Deduplication of mistakes *)

Abbreviation questions l := (map question l).

Lemma existsb_question (q : string) (l : list MistakeEntry) :
  existsb (fun dm => String.eqb (question dm) q) l = true <-> In q (questions l).
Proof.
  rewrite existsb_exists, in_map_iff. split.
  - intros (e & He & Hq). apply String.eqb_eq in Hq. eauto.
  - intros (e & Hq & He). exists e. rewrite String.eqb_eq. auto.
Qed.

Lemma add_mistake_cases (lvl : Z) (stamp : string) (l : list MistakeEntry)
    (m : Mistake) :
  (In (m_question m) (questions l) /\ add_mistake lvl stamp l m = l)
  \/ (~ In (m_question m) (questions l)
      /\ add_mistake lvl stamp l m = l ++ [mistake_entry lvl stamp m]).
Proof.
  unfold add_mistake.
  destruct (existsb _ l) eqn:E.
  - left. split; [apply existsb_question; exact E | reflexivity].
  - right. split; [|reflexivity].
    intros H. apply existsb_question in H. congruence.
Qed.

Lemma add_mistake_NoDup (lvl : Z) (stamp : string) (l : list MistakeEntry)
    (m : Mistake) :
  NoDup (questions l) -> NoDup (questions (add_mistake lvl stamp l m)).
Proof.
  intros Hl. destruct (add_mistake_cases lvl stamp l m) as [[_ ->]|[Hn ->]].
  - exact Hl.
  - rewrite List.map_app. apply NoDup_app. split; [exact Hl|]. split.
    + intros q Hq Hq'. apply list_elem_of_In in Hq, Hq'.
      destruct Hq' as [<-|[]]. contradiction.
    + cbn. apply NoDup_singleton.
Qed.

Lemma fold_add_NoDup (lvl : Z) (stamp : string) (ms : list Mistake)
    (l : list MistakeEntry) :
  NoDup (questions l) ->
  NoDup (questions (fold_left (add_mistake lvl stamp) ms l)).
Proof.
  revert l. induction ms as [|m ms IH]; intros l Hl; cbn [fold_left].
  - exact Hl.
  - apply IH, add_mistake_NoDup, Hl.
Qed.

Lemma fold_add_extends (lvl : Z) (stamp : string) (ms : list Mistake)
    (l : list MistakeEntry) :
  exists added, fold_left (add_mistake lvl stamp) ms l = l ++ added.
Proof.
  revert l. induction ms as [|m ms IH]; intros l; cbn [fold_left].
  - exists []. symmetry. apply app_nil_r.
  - destruct (IH (add_mistake lvl stamp l m)) as [added ->].
    destruct (add_mistake_cases lvl stamp l m) as [[_ ->]|[_ ->]].
    + eauto.
    + rewrite <- app_assoc. eauto.
Qed.

Lemma fold_add_covers (lvl : Z) (stamp : string) (ms : list Mistake)
    (l : list MistakeEntry) (m : Mistake) :
  In m ms ->
  In (m_question m) (questions (fold_left (add_mistake lvl stamp) ms l)).
Proof.
  revert l. induction ms as [|m0 ms IH]; intros l; cbn [fold_left].
  - intros [].
  - intros [->|Hin]; [|apply IH, Hin].
    destruct (fold_add_extends lvl stamp ms (add_mistake lvl stamp l m))
      as [added ->].
    rewrite List.map_app. apply in_or_app. left.
    destruct (add_mistake_cases lvl stamp l m) as [[H ->]|[_ ->]].
    + exact H.
    + rewrite List.map_app. apply in_or_app. right. left. reflexivity.
Qed.

Lemma fold_add_first_wins (lvl : Z) (stamp : string) (ms : list Mistake)
    (l : list MistakeEntry) (m : Mistake) :
  find (fun m' => String.eqb (m_question m') (m_question m)) ms = Some m ->
  ~ In (m_question m) (questions l) ->
  In (mistake_entry lvl stamp m) (fold_left (add_mistake lvl stamp) ms l).
Proof.
  revert l. induction ms as [|m0 ms IH]; intros l; cbn [fold_left find].
  - discriminate.
  - destruct (String.eqb_spec (m_question m0) (m_question m)) as [Heq|Hne].
    + intros [= ->] Hfresh.
      destruct (fold_add_extends lvl stamp ms (add_mistake lvl stamp l m))
        as [added ->].
      destruct (add_mistake_cases lvl stamp l m) as [[H _]|[_ ->]];
        [contradiction|].
      apply in_or_app. left. apply in_or_app. right. left. reflexivity.
    + intros Hfind Hfresh. apply IH; [exact Hfind|].
      destruct (add_mistake_cases lvl stamp l m0) as [[_ ->]|[_ ->]];
        [exact Hfresh|].
      rewrite List.map_app. intros H. apply in_app_or in H as [H|[H|[]]].
      * contradiction.
      * apply Hne. exact H.
Qed.

Lemma no_entry_for_fresh_question (q : string) (l : list MistakeEntry) :
  ~ In q (questions l) ->
  List.filter (fun e => String.eqb (question e) q) l = [].
Proof.
  induction l as [|e l IH]; cbn [map List.filter]; intros Hfresh.
  - reflexivity.
  - destruct (String.eqb_spec (question e) q) as [Heq|Hne].
    + exfalso. apply Hfresh. left. exact Heq.
    + apply IH. intros H. apply Hfresh. right. exact H.
Qed.

Lemma one_entry_per_question (q : string) (l : list MistakeEntry) :
  NoDup (questions l) -> In q (questions l) ->
  length (List.filter (fun e => String.eqb (question e) q) l) = 1%nat.
Proof.
  induction l as [|e l IH]; cbn [map List.filter]; intros Hnd Hin.
  - destruct Hin.
  - apply NoDup_cons in Hnd as [Hfresh Hnd].
    rewrite list_elem_of_In in Hfresh.
    destruct (String.eqb_spec (question e) q) as [Heq|Hne].
    + rewrite no_entry_for_fresh_question; [reflexivity|]. congruence.
    + destruct Hin as [Hq|Hin]; [contradiction|]. apply IH; assumption.
Qed.

Lemma set_comment_questions (q c : string) (l l' : list MistakeEntry) :
  set_comment q c l = Some l' -> questions l' = questions l.
Proof.
  revert l'. induction l as [|e l IH]; intros l'; cbn [set_comment].
  - discriminate.
  - destruct (String.eqb (question e) q).
    + intros [= <-]. reflexivity.
    + destruct (set_comment q c l) as [l0|]; [|discriminate].
      intros [= <-]. cbn [map]. f_equal. apply IH. reflexivity.
Qed.

Lemma comment_keeps_questions (w : World) (session_id q c other : string) :
  questions (session_mistakes (snd (update_mistake_comment clock w session_id q c)) other)
  = questions (session_mistakes w other).
Proof.
  unfold update_mistake_comment.
  destruct (load_user_progress w !! session_id) as [r|] eqn:Hr; [|reflexivity].
  destruct (mistakes r) as [l|] eqn:Hl; [|reflexivity].
  destruct (set_comment q c l) as [l'|] eqn:Hs; [|reflexivity].
  cbn [snd]. unfold session_mistakes at 1. rewrite load_save.
  destruct (decide (session_id = other)) as [<-|Hne].
  - rewrite lookup_insert_eq. cbn. unfold session_mistakes. rewrite Hr, Hl.
    eapply set_comment_questions, Hs.
  - rewrite lookup_insert_ne by exact Hne. reflexivity.
Qed.

Lemma reachable_NoDup (w : World) :
  reachable randint clock w ->
  forall session_id, NoDup (questions (session_mistakes w session_id)).
Proof.
  induction 1 as [w Hw|w c _ IH|w s q c _ IH]; intros session_id.
  - unfold session_mistakes, load_user_progress. rewrite Hw, lookup_empty.
    constructor.
  - unfold submit_step.
    destruct (submit w (sub_session c) (sub_level c) (sub_score c)
                (sub_max_score c) (sub_mistakes c)) as [res w'] eqn:Hcall.
    cbn [snd].
    destruct (decide (sub_session c = session_id)) as [<-|Hne].
    + destruct (submit_stored _ _ _ _ _ _ _ _ Hcall) as (_ & -> & _).
      destruct (sub_mistakes c); [apply fold_add_NoDup|]; apply IH.
    + destruct (submit_other_sessions _ _ _ session_id _ _ _ _ _ Hcall Hne)
        as [_ ->]. apply IH.
  - rewrite comment_keeps_questions. apply IH.
Qed.

(** C3: in every reachable store no two mistakes of a session share their
    question text; a submission keeps the stored entries as they are, adds
    for each new question text the entry of its first occurrence in the
    submission, and leaves exactly one entry for each submitted text. *)
Theorem mistakes_unique_by_question :
  (forall w, reachable randint clock w ->
     forall session_id, NoDup (questions (session_mistakes w session_id)))
  /\ (forall w w' session_id level score max_score ms res,
        submit w session_id level score max_score (Some ms) = (res, w') ->
        NoDup (questions (session_mistakes w session_id)) ->
        NoDup (questions (session_mistakes w' session_id))
        /\ (exists added,
              session_mistakes w' session_id = session_mistakes w session_id ++ added)
        /\ (forall m, In m ms ->
              length (List.filter (fun e => String.eqb (question e) (m_question m))
                        (session_mistakes w' session_id)) = 1%nat)
        /\ (forall m,
              find (fun m' => String.eqb (m_question m') (m_question m)) ms
                = Some m ->
              ~ In (m_question m) (questions (session_mistakes w session_id)) ->
              In (mistake_entry level (mtime_stamp w) m)
                (session_mistakes w' session_id))).
Proof.
  split; [exact reachable_NoDup|].
  intros w w' session_id level score max_score ms res Hcall Hnd.
  destruct (submit_stored _ _ _ _ _ _ _ _ Hcall) as (_ & -> & _).
  split; [apply fold_add_NoDup, Hnd|].
  split; [apply fold_add_extends|].
  split.
  - intros m Hm. apply one_entry_per_question.
    + apply fold_add_NoDup, Hnd.
    + apply fold_add_covers, Hm.
  - intros m Hfind Hfresh. apply fold_add_first_wins; assumption.
Qed.

End Tracker.

(** Examples on a store with no progress file. *)

Lemma demo_randint_range (t : nat) (a b : Z) :
  a <= b -> a <= Demo.randint t a b <= b.
Proof. unfold Demo.randint. lia. Qed.

Lemma submit_policy_example :
  let res :=
    fst (submit_assessment_result Demo.randint Demo.clock Demo.fresh "s1"
           1 9 10 None) in
  (passed res = true <-> 8 <= 9)
  /\ new_total_xp res = 0 + xp_gained res.
Proof.
  cbv zeta.
  destruct (submit_assessment_result Demo.randint Demo.clock Demo.fresh "s1"
              1 9 10 None) as [res w'] eqn:E.
  destruct (submit_policy Demo.randint Demo.clock demo_randint_range
              Demo.fresh w' "s1" 1 9 10 None res E)
    as (H1 & _ & _ & _ & Hxp & _).
  cbn [fst]. split; [exact (proj1 (H1 eq_refl))|exact Hxp].
Defined.

Lemma submit_unknown_level_example :
  let r :=
    submit_assessment_result Demo.randint Demo.clock Demo.fresh "s1"
      7 9 10 None in
  passed (fst r) = false
  /\ xp_gained (fst r) = 0
  /\ history (get_progress (snd r) "s1")
     = [ {| ev_level := 7; ev_score := 9; ev_max_score := 10;
            ev_passed := false; ev_xp_gained := 0; ev_timestamp := "0" |} ].
Proof.
  cbv zeta.
  destruct (submit_assessment_result Demo.randint Demo.clock Demo.fresh "s1"
              7 9 10 None) as [res w'] eqn:E.
  destruct (submit_unknown_level Demo.randint Demo.clock Demo.fresh w' "s1"
              7 9 10 None res ltac:(lia) ltac:(lia) ltac:(lia) E)
    as (Hp & Hg & _ & _ & _ & Hh & _).
  cbn [fst snd]. split; [exact Hp|]. split; [exact Hg|exact Hh].
Defined.

Lemma duplicate_mistake_example :
  let w' :=
    snd (submit_assessment_result Demo.randint Demo.clock Demo.fresh "s1"
           1 5 10 (Some [Demo.mistake "Q" "A"; Demo.mistake "Q" "B"])) in
  length (List.filter (fun e => String.eqb (question e) "Q")
            (session_mistakes w' "s1")) = 1%nat
  /\ In (mistake_entry 1 "0" (Demo.mistake "Q" "A")) (session_mistakes w' "s1").
Proof.
  cbv zeta.
  destruct (submit_assessment_result Demo.randint Demo.clock Demo.fresh "s1"
              1 5 10 (Some [Demo.mistake "Q" "A"; Demo.mistake "Q" "B"]))
    as [res w'] eqn:E.
  destruct (proj2 (mistakes_unique_by_question Demo.randint Demo.clock)
              Demo.fresh w' "s1" 1 5 10
              [Demo.mistake "Q" "A"; Demo.mistake "Q" "B"] res E
              (NoDup_nil_2 : NoDup (map question (session_mistakes Demo.fresh "s1"))))
    as (_ & _ & Hone & Hfirst).
  cbn [snd]. split.
  - exact (Hone (Demo.mistake "Q" "A") (or_introl eq_refl)).
  - apply (Hfirst (Demo.mistake "Q" "A")); [reflexivity|intros []].
Defined.

End ProgressFacts.

(** ** Text extraction and assessment generation *)

Module GenerationFacts.
Import PyStr PyStrFacts Assessment.

Section Generation.

Variable partition_pdf : string -> option (list string).
Variable llm_invoke : nat -> string -> option string.
Variable json_loads : string -> option Json.

Abbreviation session_text := (get_session_text partition_pdf).
Abbreviation generate := (generate_assessment partition_pdf llm_invoke json_loads).
Abbreviation entry_text := (pdf_text partition_pdf).

Lemma add_pdf_text_append (dir full filename : string) :
  add_pdf_text partition_pdf dir full filename = full +:+ entry_text dir filename.
Proof.
  unfold pdf_text, add_pdf_text.
  destruct (endswith ".pdf" (lower filename));
    [destruct (partition_pdf _)|]; cbn; rewrite ?append_nil_r; reflexivity.
Qed.

Lemma fold_pdf_text (dir : string) (listing : list string) (full : string) :
  fold_left (add_pdf_text partition_pdf dir) listing full
  = full +:+ join "" (map (entry_text dir) listing).
Proof.
  revert full. induction listing as [|f listing IH]; intros full.
  - cbn. rewrite append_nil_r. reflexivity.
  - cbn [fold_left map]. rewrite IH, add_pdf_text_append, join_empty_cons.
    apply append_assoc.
Qed.

Lemma no_pdf_no_text (dir : string) (listing : list string) :
  Forall (fun f => endswith ".pdf" (lower f) = false) listing ->
  join "" (map (entry_text dir) listing) = "".
Proof.
  induction 1 as [|f listing Hf _ IH]; [reflexivity|].
  cbn [map]. rewrite join_empty_cons, IH.
  unfold pdf_text, add_pdf_text. rewrite Hf. reflexivity.
Qed.

(** C8, as amended: the elements of each PDF are joined by newlines, the
    texts of the PDFs follow one another with nothing between them, and the
    whole is cut to its first 50,000 characters; a file whose parsing fails
    adds nothing and the others are still read; a missing folder or one
    without PDFs gives the empty string. *)
Theorem session_text_extracted (w : World) (session_id : string) :
  let dir := path_join UPLOAD_ROOT session_id in
  (upload_dirs w !! dir = None -> session_text w session_id = "")
  /\ (forall listing, upload_dirs w !! dir = Some listing ->
        session_text w session_id
          = slice_to 50000 (join "" (map (entry_text dir) listing))
        /\ len (session_text w session_id) <= 50000
        /\ (Forall (fun f => endswith ".pdf" (lower f) = false) listing ->
            session_text w session_id = ""))
  /\ (forall filename elements,
        endswith ".pdf" (lower filename) = true ->
        partition_pdf (path_join dir filename) = Some elements ->
        entry_text dir filename = join newline elements)
  /\ (forall filename,
        partition_pdf (path_join dir filename) = None ->
        entry_text dir filename = "").
Proof.
  cbv zeta. unfold get_session_text.
  split; [intros ->; reflexivity|].
  split.
  - intros listing ->. rewrite fold_pdf_text. cbn [String.append].
    split; [reflexivity|]. split; [apply slice_to_length; lia|].
    intros Hnone. rewrite no_pdf_no_text by exact Hnone. reflexivity.
  - unfold pdf_text, add_pdf_text. split.
    + intros filename elements -> ->. reflexivity.
    + intros filename ->. destruct (endswith _ _); reflexivity.
Qed.

(** *** The cache *)

(** C4: a cached assessment is returned as it is and the world, with the
    record of calls to the model, stays as it was; hence after a call that
    left a cache entry, the next call returns the same content and sends
    nothing to the model. *)
Theorem cached_assessment_returned (w : World) (session_id : string)
    (level : Z) :
  (forall cached,
     assessment_files w !! cache_path session_id level = Some cached ->
     generate w session_id level = (cached, w))
  /\ (forall result w1,
        generate w session_id level = (result, w1) ->
        is_Some (assessment_files w1 !! cache_path session_id level) ->
        assessment_files w1 !! cache_path session_id level = Some result
        /\ generate w1 session_id level = (result, w1)
        /\ llm_calls (snd (generate w1 session_id level)) = llm_calls w1)
  /\ (forall response questions,
        let prompt := get_assessment_prompt level (session_text w session_id) in
        let result :=
          JObj [("level", JInt level); ("timer_seconds", JInt 600);
                ("questions", questions)] in
        assessment_files w !! cache_path session_id level = None ->
        session_text w session_id <> "" ->
        llm_invoke (ticks w) prompt = Some response ->
        parse_assessment_response json_loads response = Some questions ->
        exists w1,
          generate w session_id level = (result, w1)
          /\ llm_calls w1 = llm_calls w ++ [prompt]
          /\ generate w1 session_id level = (result, w1)).
Proof.
  assert (Hhit : forall w0 cached,
            assessment_files w0 !! cache_path session_id level = Some cached ->
            generate w0 session_id level = (cached, w0)).
  { intros w0 cached H. unfold generate_assessment. rewrite H. reflexivity. }
  split; [apply Hhit|].
  split.
  2:{ intros response questions prompt result Hmiss Htext Hllm Hparse.
      exists (write_assessment (cache_path session_id level) result
                (tick (log_llm_call prompt w))).
      assert (Hfirst : generate w session_id level
                       = (result,
                          write_assessment (cache_path session_id level) result
                            (tick (log_llm_call prompt w)))).
      { unfold generate_assessment. rewrite Hmiss.
        destruct (String.eqb_spec (session_text w session_id) "") as [|_];
          [contradiction|].
        fold prompt. rewrite Hllm, Hparse. reflexivity. }
      split; [exact Hfirst|]. split; [reflexivity|].
      apply Hhit. cbn. apply lookup_insert_eq. }
  intros result w1 Hcall Hcached.
  assert (Hentry : assessment_files w1 !! cache_path session_id level
                   = Some result).
  { unfold generate_assessment in Hcall.
    destruct (assessment_files w !! cache_path session_id level)
      as [cached|] eqn:Hc.
    { injection Hcall as <- <-. exact Hc. }
    destruct (String.eqb _ ""); [injection Hcall as <- <-|].
    { rewrite Hc in Hcached. destruct Hcached; discriminate. }
    destruct (llm_invoke _ _) as [response|].
    2:{ injection Hcall as <- <-. cbn in Hcached. rewrite Hc in Hcached.
        destruct Hcached; discriminate. }
    destruct (parse_assessment_response _ _) as [data|].
    2:{ injection Hcall as <- <-. cbn in Hcached. rewrite Hc in Hcached.
        destruct Hcached; discriminate. }
    injection Hcall as <- <-. cbn. apply lookup_insert_eq. }
  rewrite (Hhit w1 result Hentry). auto.
Qed.

(** C5: without a cache entry, a session with no text gets the "no
    documents" payload and the model is not called; a call of the model that
    fails, or a response that does not parse, gets the generic failure
    payload and the cache is left as it was, so that the next call sends the
    prompt to the model again. *)
Theorem generation_failures_are_payloads (w : World) (session_id : string)
    (level : Z) :
  assessment_files w !! cache_path session_id level = None ->
  let prompt := get_assessment_prompt level (session_text w session_id) in
  (session_text w session_id = "" ->
     generate w session_id level
     = (error_payload "No documents found for this session.", w))
  /\ (session_text w session_id <> "" ->
      (llm_invoke (ticks w) prompt = None
       \/ exists response,
            llm_invoke (ticks w) prompt = Some response
            /\ parse_assessment_response json_loads response = None) ->
      exists w1,
        generate w session_id level
        = (error_payload "Failed to generate assessment.", w1)
        /\ assessment_files w1 = assessment_files w
        /\ llm_calls w1 = llm_calls w ++ [prompt]
        /\ llm_calls (snd (generate w1 session_id level))
           = llm_calls w1 ++ [prompt]).
Proof.
  intros Hmiss prompt. subst prompt.
  unfold generate_assessment at 1 2. rewrite Hmiss. split.
  - intros ->. reflexivity.
  - intros Htext Hfail.
    destruct (String.eqb_spec (session_text w session_id) "") as [|_];
      [contradiction|].
    set (prompt := get_assessment_prompt level (session_text w session_id)) in *.
    exists (tick (log_llm_call prompt w)).
    assert (Hretry : llm_calls
                       (snd (generate (tick (log_llm_call prompt w))
                               session_id level))
                     = llm_calls (tick (log_llm_call prompt w)) ++ [prompt]).
    { unfold generate_assessment. cbn [assessment_files tick log_llm_call].
      rewrite Hmiss.
      change (session_text (tick (log_llm_call prompt w)) session_id)
        with (session_text w session_id).
      destruct (String.eqb_spec (session_text w session_id) "") as [|_];
        [contradiction|].
      fold prompt.
      destruct (llm_invoke (ticks (tick _)) prompt) as [response|];
        [|reflexivity].
      destruct (parse_assessment_response _ _); reflexivity. }
    destruct Hfail as [->|(response & -> & ->)]; auto.
Qed.

End Generation.

(** C8, as stated, fails for a folder with two PDFs: their texts follow one
    another with no newline between them. *)
Lemma session_text_has_no_separator :
  get_session_text Demo.partition_pdf Demo.uploaded "s1"
  = "A1" +:+ newline +:+ "A2B"
  /\ spec_session_text Demo.partition_pdf Demo.uploaded "s1"
     = "A1" +:+ newline +:+ "A2" +:+ newline +:+ "B"
  /\ get_session_text Demo.partition_pdf Demo.uploaded "s1"
     <> spec_session_text Demo.partition_pdf Demo.uploaded "s1".
Proof.
  split; [vm_compute; reflexivity|]. split; [vm_compute; reflexivity|].
  vm_compute. discriminate.
Qed.

Lemma session_text_example :
  get_session_text Demo.partition_pdf Demo.uploaded "s1"
  = "A1" +:+ newline +:+ "A2B"
  /\ get_session_text Demo.partition_pdf Demo.uploaded "nobody" = "".
Proof.
  split.
  - exact (proj1 (proj1 (proj2 (session_text_extracted Demo.partition_pdf
                                  Demo.uploaded "s1"))
                    ["a.pdf"; "notes.txt"; "c.pdf"; "b.pdf"] eq_refl)).
  - exact (proj1 (session_text_extracted Demo.partition_pdf Demo.uploaded
                    "nobody") eq_refl).
Defined.

Lemma cached_assessment_example :
  generate_assessment Demo.partition_pdf Demo.llm_trailing_comma
    Demo.json_loads Demo.cached "s1" 1
  = (Demo.cached_doc, Demo.cached).
Proof.
  exact (proj1 (cached_assessment_returned Demo.partition_pdf
                  Demo.llm_trailing_comma Demo.json_loads Demo.cached "s1" 1)
           Demo.cached_doc eq_refl).
Defined.

Lemma generation_failure_example :
  generate_assessment Demo.partition_pdf Demo.llm_down Demo.json_loads
    Demo.fresh "s1" 1
  = (error_payload "No documents found for this session.", Demo.fresh)
  /\ fst (generate_assessment Demo.partition_pdf Demo.llm_down Demo.json_loads
            Demo.uploaded "s1" 1)
     = error_payload "Failed to generate assessment.".
Proof.
  split.
  - exact (proj1 (generation_failures_are_payloads Demo.partition_pdf
                    Demo.llm_down Demo.json_loads Demo.fresh "s1" 1 eq_refl)
             eq_refl).
  - destruct (proj2 (generation_failures_are_payloads Demo.partition_pdf
                       Demo.llm_down Demo.json_loads Demo.uploaded "s1" 1
                       eq_refl))
      as (w1 & -> & _).
    + vm_compute. discriminate.
    + left. reflexivity.
    + reflexivity.
Defined.

End GenerationFacts.

(** ** Roadmaps *)

Module RoadmapFacts.
Import PyStr PyStrFacts Roadmap.

Lemma find_week_absent (n : Z) (ws : list Week) :
  Forall (fun wk => week_number wk <> n) ws ->
  find (fun wk => week_number wk =? n) ws = None.
Proof.
  induction 1 as [|wk ws Hwk _ IH]; cbn [find]; [reflexivity|].
  destruct (Z.eqb_spec (week_number wk) n); [contradiction|exact IH].
Qed.

Lemma existsb_day (d : Z) (l : list Z) :
  existsb (Z.eqb d) l = true <-> In d l.
Proof.
  rewrite existsb_exists. split.
  - intros (x & Hx & E). apply Z.eqb_eq in E. subst. exact Hx.
  - intros H. exists d. rewrite Z.eqb_refl. auto.
Qed.

Section Roadmaps.

Variable generate_content : nat -> string -> string + string.
Variable json_loads : string -> option Json.
Variable repair_json : string -> string.

Abbreviation week_content :=
  (generate_week_content generate_content json_loads repair_json).

(** C9: for a roadmap that is not stored, or one with no week of the given
    number, the result is the "not found" payload and the world, with its
    roadmap files and its record of calls to the model, stays as it was. *)
Theorem week_content_not_found (w : World) (roadmap_id : string) (n : Z) :
  (get_roadmap w roadmap_id = None ->
     week_content w roadmap_id n = (error_payload "Roadmap not found", w))
  /\ (forall roadmap,
        get_roadmap w roadmap_id = Some roadmap ->
        Forall (fun wk => week_number wk <> n) (weeks roadmap) ->
        week_content w roadmap_id n
        = (error_payload
             ("Week " +:+ pretty n +:+ " not found in roadmap outline"), w)).
Proof.
  unfold generate_week_content. split.
  - intros ->. reflexivity.
  - intros roadmap -> Hweeks. rewrite find_week_absent by exact Hweeks.
    reflexivity.
Qed.

End Roadmaps.

(** The days marked as completed, an absent list being empty. *)
Abbreviation completed r :=
  (match completed_days r with Some l => l | None => [] end).



(** A new day on a roadmap whose [total_days] is not zero: what is stored,
    and how near the percentage is to [100 * days_completed / total_days]. *)
Lemma update_progress_new (w : World) (roadmap_id : string) (day : Z)
    (r : Roadmap) :
  get_roadmap w roadmap_id = Some r ->
  ~ In day (completed r) ->
  total_days r <> 0 ->
  Z.abs (total_days r) <= 2 ^ 1000 ->
  Z.of_nat (length (completed r)) < 2 ^ 63 ->
  exists r' quotient pct,
    update_progress w roadmap_id day = (Returned (Some r'), save_roadmap r' w)
    /\ completed_days r' = Some (completed r ++ [day])
    /\ days_completed r' = Z.of_nat (length (completed r ++ [day]))
    /\ PyNum.truediv (days_completed r') (total_days r') = inl quotient
    /\ pct = PyNum.mul_int quotient 100
    /\ progress_percentage r' = NFloat pct
    /\ PyNum.is_finite pct = true
    /\ (Rabs (PyNum.to_R pct
               - 100 * IZR (days_completed r') / IZR (total_days r'))
         <= Rabs (100 * IZR (days_completed r') / IZR (total_days r'))
            / 2 ^ 51)%R
    /\ (days_completed r' = total_days r' -> pct = 100%float)
    /\ total_days r' = total_days r
    /\ id r' = id r
    /\ weeks r' = weeks r.
Proof.
  intros Hr Hnew Htotal Hbound Hlen. unfold update_progress. rewrite Hr.
  destruct (existsb (Z.eqb day) (completed r)) eqn:E.
  { apply existsb_day in E. contradiction. }
  cbn [total_days set_completed_days].
  set (n := Z.of_nat (length (completed r ++ [day]))).
  assert (Hn : 0 < n < 2 ^ 1000).
  { unfold n. rewrite length_app. cbn [length]. lia. }
  destruct (PyNumFacts.percentage_near n (total_days r) Hn Htotal Hbound)
    as (q & Hq & Hfinite & Hnear).
  rewrite Hq.
  exists (set_progress n (NFloat (PyNum.mul_int q 100))
            (set_completed_days (completed r ++ [day])
               (set_completed_days (completed r) r))),
    q, (PyNum.mul_int q 100).
  cbn [completed_days days_completed progress_percentage total_days id weeks
       set_progress set_completed_days].
  repeat (split; [first [reflexivity|assumption]|]).
  split; [|auto].
  intros Hall. rewrite <- Hall, PyNumFacts.truediv_same in Hq by lia.
  injection Hq as <-. reflexivity.
Qed.



(** With [total_days] zero the division raises and nothing is written. *)
Lemma update_progress_zero_total_days :
  update_progress Demo.roadmaps_no_days "r0" 1
  = (Raised "ZeroDivisionError", Demo.roadmaps_no_days).
Proof. reflexivity. Qed.

Lemma week_content_not_found_example :
  generate_week_content Demo.generate_content Demo.json_loads Demo.repair_json
    Demo.roadmaps "r1" 2
  = (error_payload "Week 2 not found in roadmap outline", Demo.roadmaps)
  /\ generate_week_content Demo.generate_content Demo.json_loads
       Demo.repair_json Demo.roadmaps "r9" 1
     = (error_payload "Roadmap not found", Demo.roadmaps).
Proof.
  split.
  - apply (proj2 (week_content_not_found Demo.generate_content
                    Demo.json_loads Demo.repair_json Demo.roadmaps "r1" 2)
             Demo.three_days eq_refl).
    repeat constructor. discriminate.
  - exact (proj1 (week_content_not_found Demo.generate_content
                    Demo.json_loads Demo.repair_json Demo.roadmaps "r9" 1)
             eq_refl).
Defined.


End RoadmapFacts.

(** ** Response normalisation *)

Module NormalizerFacts.
Import PyStr PyStrFacts.

Lemma clean_markdown_plain (content : string) :
  startswith "```" content = false -> Assessment.clean_markdown content = content.
Proof.
  intros H. unfold Assessment.clean_markdown. rewrite H.
  destruct (startswith "```json" content) eqn:E; [|reflexivity].
  apply (startswith_shorter "```" "json") in E. congruence.
Qed.

Lemma clean_markdown_json_fence (body : string) :
  Assessment.clean_markdown ("```json" +:+ body +:+ "```") = body.
Proof.
  unfold Assessment.clean_markdown. rewrite startswith_append.
  apply (slice_fenced "```json" body "```"). discriminate.
Qed.

Lemma clean_markdown_bare_fence (body : string) :
  startswith "```json" ("```" +:+ body +:+ "```") = false ->
  Assessment.clean_markdown ("```" +:+ body +:+ "```") = body.
Proof.
  intros H. unfold Assessment.clean_markdown.
  rewrite H, startswith_append.
  apply (slice_fenced "```" body "```"). discriminate.
Qed.

Lemma clean_roadmap_json_fence (response body : string) :
  strip response = "```json" +:+ body +:+ "```" ->
  Roadmap.clean_roadmap_text response = strip body.
Proof.
  intros H. unfold Roadmap.clean_roadmap_text. rewrite H.
  pose proof (slice_from_append "```json" (body +:+ "```")) as Hfrom.
  pose proof (slice_to_append body "```" ltac:(discriminate)) as Hto.
  change (len "```json") with 7 in Hfrom.
  change (- len "```") with (-3) in Hto.
  rewrite startswith_append, Hfrom, endswith_append, Hto. reflexivity.
Qed.

Lemma clean_roadmap_plain (response : string) :
  startswith "```json" (strip response) = false ->
  endswith "```" (strip response) = false ->
  Roadmap.clean_roadmap_text response = strip response.
Proof.
  intros H1 H2. unfold Roadmap.clean_roadmap_text.
  rewrite H1, H2. apply strip_idempotent.
Qed.

Lemma clean_markdown_json_cut (body tail : string) :
  String.length tail = 3%nat ->
  Assessment.clean_markdown ("```json" +:+ body +:+ tail) = body.
Proof.
  intros Htail. unfold Assessment.clean_markdown. rewrite startswith_append.
  pose proof (slice_fenced "```json" body tail) as Hs.
  change (len "```json") with 7 in Hs.
  replace (- len tail) with (-3) in Hs by (unfold len; lia).
  apply Hs. destruct tail; [discriminate|congruence].
Qed.

Lemma clean_markdown_bare_cut (body tail : string) :
  startswith "```json" ("```" +:+ body +:+ tail) = false ->
  String.length tail = 3%nat ->
  Assessment.clean_markdown ("```" +:+ body +:+ tail) = body.
Proof.
  intros H Htail. unfold Assessment.clean_markdown.
  rewrite H, startswith_append.
  pose proof (slice_fenced "```" body tail) as Hs.
  change (len "```") with 3 in Hs.
  replace (- len tail) with (-3) in Hs by (unfold len; lia).
  apply Hs. destruct tail; [discriminate|congruence].
Qed.

Lemma clean_markdown_short (marker rest : string) :
  marker = "```json" \/ marker = "```" ->
  startswith "```json" (marker +:+ rest) = startswith "```json" marker ->
  (String.length rest <= 3)%nat ->
  Assessment.clean_markdown (marker +:+ rest) = "".
Proof.
  intros Hmarker Hlead Hrest. unfold Assessment.clean_markdown.
  rewrite Hlead.
  destruct Hmarker as [-> | ->].
  - change (startswith "```json" "```json") with true. cbv iota.
    apply slice_cut_short; [lia|].
    unfold len. rewrite length_append. cbn [String.length]. lia.
  - change (startswith "```json" "```") with false. cbv iota.
    rewrite startswith_append.
    apply slice_cut_short; [lia|].
    unfold len. rewrite length_append. cbn [String.length]. lia.
Qed.

Lemma clean_roadmap_leading_only (response rest : string) :
  strip response = "```json" +:+ rest ->
  endswith "```" rest = false ->
  Roadmap.clean_roadmap_text response = strip rest.
Proof.
  intros H Hrest. unfold Roadmap.clean_roadmap_text. rewrite H.
  pose proof (slice_from_append "```json" rest) as Hfrom.
  change (len "```json") with 7 in Hfrom.
  rewrite startswith_append, Hfrom, Hrest. reflexivity.
Qed.

Lemma clean_roadmap_trailing_only (response body : string) :
  strip response = body +:+ "```" ->
  startswith "```json" (strip response) = false ->
  Roadmap.clean_roadmap_text response = strip body.
Proof.
  intros H Hlead. unfold Roadmap.clean_roadmap_text. rewrite Hlead, H.
  pose proof (slice_to_append body "```" ltac:(discriminate)) as Hto.
  change (- len "```") with (-3) in Hto.
  rewrite endswith_append, Hto. reflexivity.
Qed.

Section Normalizers.

Variable partition_pdf : string -> option (list string).
Variable llm_invoke : nat -> string -> option string.
Variable json_loads : string -> option Json.
Variable json_error : string -> string.
Variable repair_json : string -> string.

Abbreviation parse_assessment := (Assessment.parse_assessment_response json_loads).
Abbreviation parse_roadmap :=
  (Roadmap.parse_roadmap_response json_loads json_error repair_json).
Abbreviation generate :=
  (Assessment.generate_assessment partition_pdf llm_invoke json_loads).

(** C7, as amended. In [generate_assessment] the response is trimmed; when
    it opens with the marker, tagged json or bare, the marker and the last
    three characters are cut, which removes a fence that closes with the
    marker and leaves nothing of a response with at most three characters
    after the marker; the rest is parsed strictly, with no repair pass, and
    a response that does not parse gives the generic error payload. In
    [generate_roadmap] the response is trimmed, a leading json-tagged marker
    is removed if present and a trailing marker is removed if present, each
    whether or not the other is there, the rest is trimmed again and handed
    to the repair pass, whose output is parsed; for a repairer that keeps
    valid documents this is a strict parse followed, on failure, by a parse
    of the repaired text; a text that still does not parse gives an error
    payload. *)
Theorem responses_normalized :
  (forall response,
     startswith "```" (strip response) = false ->
     parse_assessment response = json_loads (strip response))
  /\ (forall response body,
        strip response = "```json" +:+ body +:+ "```" ->
        parse_assessment response = json_loads body)
  /\ (forall response body,
        strip response = "```" +:+ body +:+ "```" ->
        startswith "```json" (strip response) = false ->
        parse_assessment response = json_loads body)
  /\ (forall w session_id level response,
        Assessment.assessment_files w !! Assessment.cache_path session_id level
          = None ->
        Assessment.get_session_text partition_pdf w session_id <> "" ->
        llm_invoke (Assessment.ticks w)
          (Assessment.get_assessment_prompt level
             (Assessment.get_session_text partition_pdf w session_id))
          = Some response ->
        parse_assessment response = None ->
        fst (generate w session_id level)
        = error_payload "Failed to generate assessment.")
  /\ (forall response body,
        strip response = "```json" +:+ body +:+ "```" ->
        Roadmap.clean_roadmap_text response = strip body)
  /\ (forall response,
        startswith "```json" (strip response) = false ->
        endswith "```" (strip response) = false ->
        Roadmap.clean_roadmap_text response = strip response)
  /\ (forall response,
        let text := Roadmap.clean_roadmap_text response in
        parse_roadmap response
        = match json_loads (repair_json text) with
          | Some document => inl document
          | None =>
              inr (error_payload
                     ("Failed to parse AI response: "
                      +:+ json_error (repair_json text)))
          end)
  /\ ((forall text document,
         json_loads text = Some document ->
         json_loads (repair_json text) = Some document) ->
      forall response,
        let text := Roadmap.clean_roadmap_text response in
        match parse_roadmap response with
        | inl document => Some document
        | inr _ => None
        end
        = match json_loads text with
          | Some document => Some document
          | None => json_loads (repair_json text)
          end)
  /\ (forall response rest,
        strip response = "```json" +:+ rest ->
        endswith "```" rest = false ->
        Roadmap.clean_roadmap_text response = strip rest)
  /\ (forall response body,
        strip response = body +:+ "```" ->
        startswith "```json" (strip response) = false ->
        Roadmap.clean_roadmap_text response = strip body)
  /\ (forall response body tail,
        strip response = "```json" +:+ body +:+ tail ->
        String.length tail = 3%nat ->
        parse_assessment response = json_loads body)
  /\ (forall response body tail,
        strip response = "```" +:+ body +:+ tail ->
        startswith "```json" (strip response) = false ->
        String.length tail = 3%nat ->
        parse_assessment response = json_loads body)
  /\ (forall response rest,
        strip response = "```json" +:+ rest ->
        (String.length rest <= 3)%nat ->
        parse_assessment response = json_loads "")
  /\ (forall response rest,
        strip response = "```" +:+ rest ->
        startswith "```json" (strip response) = false ->
        (String.length rest <= 3)%nat ->
        parse_assessment response = json_loads "").
Proof.
  split; [|split; [|split; [|split; [|split; [|split; [|split; [|split;
    [|split; [|split; [|split; [|split; [|split]]]]]]]]]]]].
  - intros response H. unfold Assessment.parse_assessment_response.
    rewrite clean_markdown_plain by exact H. reflexivity.
  - intros response body H. unfold Assessment.parse_assessment_response.
    rewrite H, clean_markdown_json_fence. reflexivity.
  - intros response body H Hbare. unfold Assessment.parse_assessment_response.
    rewrite H in *. rewrite clean_markdown_bare_fence by exact Hbare.
    reflexivity.
  - intros w session_id level response Hmiss Htext Hllm Hparse.
    unfold Assessment.generate_assessment. rewrite Hmiss.
    destruct (String.eqb_spec
                (Assessment.get_session_text partition_pdf w session_id) "")
      as [|_]; [contradiction|].
    rewrite Hllm, Hparse. reflexivity.
  - exact clean_roadmap_json_fence.
  - exact clean_roadmap_plain.
  - reflexivity.
  - intros Hkeep response. cbv zeta. unfold Roadmap.parse_roadmap_response.
    destruct (json_loads (Roadmap.clean_roadmap_text response))
      as [document|] eqn:E.
    + rewrite (Hkeep _ _ E). reflexivity.
    + destruct (json_loads (repair_json _)); reflexivity.
  - exact clean_roadmap_leading_only.
  - exact clean_roadmap_trailing_only.
  - intros response body tail H Htail.
    unfold Assessment.parse_assessment_response.
    rewrite H, clean_markdown_json_cut by exact Htail. reflexivity.
  - intros response body tail H Hbare Htail.
    unfold Assessment.parse_assessment_response.
    rewrite H in *. rewrite clean_markdown_bare_cut by assumption.
    reflexivity.
  - intros response rest H Hrest.
    unfold Assessment.parse_assessment_response.
    rewrite H, (clean_markdown_short "```json" rest); auto.
    rewrite startswith_append. reflexivity.
  - intros response rest H Hbare Hrest.
    unfold Assessment.parse_assessment_response.
    rewrite H in *. rewrite (clean_markdown_short "```" rest); auto.
Qed.

End Normalizers.

(** C7, as stated, fails in [generate_assessment]: for the response
    [[1, 2,]] the strict parse fails and the generic error payload is
    returned with no repair pass, where the normalizer of the specification
    repairs the text and yields the array. *)
Lemma assessment_response_not_repaired :
  Assessment.parse_assessment_response Demo.json_loads "[1, 2,]" = None
  /\ fst (Assessment.generate_assessment Demo.partition_pdf
            Demo.llm_trailing_comma Demo.json_loads Demo.uploaded "s1" 1)
     = error_payload "Failed to generate assessment."
  /\ SpecNormalizer.normalize Demo.json_loads Demo.repair_json (strip "[1, 2,]")
     = Some (JArr [JInt 1; JInt 2]).
Proof. repeat split; vm_compute; reflexivity. Qed.

(** The clean-up of the two services on fences: [generate_assessment] cuts
    the last three characters of a response that opens with the marker
    whether or not it closes with it, and [generate_roadmap] keeps a leading
    marker that carries no language tag. *)
Lemma fences_as_cleaned :
  Assessment.clean_markdown "```json[1, 2]" = "[1,"
  /\ SpecNormalizer.strip_fence "```json[1, 2]" = "[1, 2]"
  /\ Roadmap.clean_roadmap_text ("```" +:+ newline +:+ "[1, 2]" +:+ newline +:+ "```")
     = "```" +:+ newline +:+ "[1, 2]"
  /\ SpecNormalizer.strip_fence ("```" +:+ newline +:+ "[1, 2]" +:+ newline +:+ "```")
     = newline +:+ "[1, 2]" +:+ newline.
Proof. repeat split; vm_compute; reflexivity. Qed.

Lemma demo_repair_keeps_documents (text : string) (document : Json) :
  Demo.json_loads text = Some document ->
  Demo.json_loads (Demo.repair_json text) = Some document.
Proof.
  unfold Demo.repair_json.
  destruct (String.eqb_spec text "[1, 2,]") as [->|_]; [|auto].
  vm_compute. discriminate.
Qed.

Lemma responses_normalized_example :
  Assessment.parse_assessment_response Demo.json_loads
    ("```json" +:+ "[1, 2]" +:+ "```")
  = Some (JArr [JInt 1; JInt 2])
  /\ Roadmap.parse_roadmap_response Demo.json_loads Demo.json_error
       Demo.repair_json ("```json" +:+ "[1, 2,]" +:+ "```")
     = inl (JArr [JInt 1; JInt 2])
  /\ match Roadmap.parse_roadmap_response Demo.json_loads Demo.json_error
            Demo.repair_json "[1, 2]" with
     | inl document => Some document
     | inr _ => None
     end
     = Some (JArr [JInt 1; JInt 2])
  /\ Roadmap.clean_roadmap_text ("```json" +:+ "[1, 2]") = "[1, 2]"
  /\ Roadmap.clean_roadmap_text ("[1, 2]" +:+ "```") = "[1, 2]".
Proof.
  pose proof (responses_normalized Demo.partition_pdf Demo.llm_down
                Demo.json_loads Demo.json_error Demo.repair_json)
    as (_ & Hfence & _ & _ & _ & _ & Hparse & Hrepair & Hlead & Htrail & _).
  split; [|split; [|split; [|split]]].
  - exact (Hfence ("```json" +:+ "[1, 2]" +:+ "```") "[1, 2]" eq_refl).
  - exact (Hparse ("```json" +:+ "[1, 2,]" +:+ "```")).
  - exact (Hrepair demo_repair_keeps_documents "[1, 2]").
  - exact (Hlead ("```json" +:+ "[1, 2]") "[1, 2]" eq_refl eq_refl).
  - exact (Htrail ("[1, 2]" +:+ "```") "[1, 2]" eq_refl eq_refl).
Defined.

End NormalizerFacts.

(** ** Progress tracker: comments, history and accounting *)

Module TrackerFacts.
Import Assessment ProgressFacts.

Abbreviation questions l := (map question l).

(** An entry with its comment replaced. *)
Abbreviation commented m c :=
  {| question := question m;
     correct_answer := correct_answer m;
     explanation := explanation m;
     user_answer := user_answer m;
     level := level m;
     comments := c;
     timestamp := timestamp m |}.

Lemma set_comment_none (q c : string) (l : list MistakeEntry) :
  set_comment q c l = None <-> ~ In q (questions l).
Proof.
  induction l as [|m l IH]; cbn [set_comment map In].
  - tauto.
  - destruct (String.eqb_spec (question m) q) as [Heq|Hne].
    + split; [discriminate|]. intros H. exfalso. apply H. left. exact Heq.
    + destruct (set_comment q c l) as [l'|]; cbn [option_map].
      * split; [discriminate|]. intros H. exfalso.
        assert (Hn : ~ In q (questions l)) by tauto.
        apply (proj2 IH) in Hn. discriminate.
      * split; [|reflexivity]. intros _ [H|H]; [contradiction|].
        apply (proj1 IH eq_refl H).
Qed.

Lemma set_comment_first (q c : string) (pre post : list MistakeEntry)
    (m : MistakeEntry) :
  question m = q -> ~ In q (questions pre) ->
  set_comment q c (pre ++ m :: post) = Some (pre ++ commented m c :: post).
Proof.
  intros Hq. induction pre as [|e pre IH]; cbn [set_comment app map In].
  - intros _. rewrite (proj2 (String.eqb_eq _ _) Hq). reflexivity.
  - intros Hfresh.
    destruct (String.eqb_spec (question e) q) as [Heq|_]; [tauto|].
    rewrite IH by tauto. reflexivity.
Qed.

Section Tracker.

Variable randint : nat -> Z -> Z -> Z.
Variable clock : nat -> string.

Abbreviation submit := (submit_assessment_result randint clock).
Abbreviation set_mistake_comment := (update_mistake_comment clock).

(** X1: a comment update answers true exactly when the session has a stored
    mistake with the question text, and a false answer leaves the world as it
    was. *)
Theorem comment_found_iff (w : World) (session_id q c : string) :
  (fst (set_mistake_comment w session_id q c) = true
   <-> In q (questions (session_mistakes w session_id)))
  /\ (fst (set_mistake_comment w session_id q c) = false ->
      snd (set_mistake_comment w session_id q c) = w).
Proof.
  unfold update_mistake_comment, session_mistakes.
  destruct (load_user_progress w !! session_id) as [r|];
    [|cbn; split; [split; [discriminate|intros []]|reflexivity]].
  destruct (mistakes r) as [l|];
    [|cbn; split; [split; [discriminate|intros []]|reflexivity]].
  destruct (set_comment q c l) as [l'|] eqn:E; cbn [fst snd].
  - split; [|discriminate]. split; [|reflexivity]. intros _.
    destruct (in_dec string_dec q (questions l)) as [H|H]; [exact H|].
    apply (proj2 (set_comment_none q c l)) in H. congruence.
  - split; [|reflexivity]. split; [discriminate|].
    intros H. apply (proj1 (set_comment_none q c l)) in E. contradiction.
Qed.

(** X2: a comment update rewrites the comment of the first stored mistake
    with the question text and nothing else: the other entries and the other
    fields of that entry, the XP, the unlocked level and the history of the
    session, and the records of the other sessions stay as they were. *)
Theorem comment_updates_first_match (w : World) (session_id q c : string)
    (pre post : list MistakeEntry) (m : MistakeEntry) :
  session_mistakes w session_id = pre ++ m :: post ->
  question m = q ->
  ~ In q (questions pre) ->
  let w' := snd (set_mistake_comment w session_id q c) in
  fst (set_mistake_comment w session_id q c) = true
  /\ session_mistakes w' session_id = pre ++ commented m c :: post
  /\ xp (get_progress w' session_id) = xp (get_progress w session_id)
  /\ unlocked_level (get_progress w' session_id)
     = unlocked_level (get_progress w session_id)
  /\ history (get_progress w' session_id) = history (get_progress w session_id)
  /\ (forall other, other <> session_id ->
        get_progress w' other = get_progress w other)
  /\ upload_dirs w' = upload_dirs w
  /\ assessment_files w' = assessment_files w
  /\ llm_calls w' = llm_calls w.
Proof.
  intros Hstored Hq Hfresh. cbv zeta.
  unfold update_mistake_comment, session_mistakes, get_progress in *.
  destruct (load_user_progress w !! session_id) as [r|] eqn:Hr;
    [|destruct pre; discriminate].
  destruct (mistakes r) as [l|] eqn:Hl; [|destruct pre; discriminate].
  subst l. rewrite (set_comment_first q c pre post m Hq Hfresh).
  cbn [fst snd]. rewrite load_save, lookup_insert_eq. cbn.
  repeat (split; [reflexivity|]). split; [|auto].
  intros other Hne. rewrite lookup_insert_ne by congruence. reflexivity.
Qed.

(** *** What one submission does to the record of its session *)

Lemma submit_grades (w w' : World) (session_id : string)
    (level score max_score : Z) (mistakes : option (list Mistake))
    (res : SubmitResult) :
  submit w session_id level score max_score mistakes = (res, w') ->
  let prior := get_progress w session_id in
  let after := get_progress w' session_id in
  xp after = xp prior + xp_gained res
  /\ (passed res = false -> xp_gained res = 0)
  /\ (passed res = true ->
      (level = 1 /\ 8 <= score /\ xp_gained res = randint (ticks w) 50 100)
      \/ (level = 2 /\ 7 <= score /\ xp_gained res = randint (ticks w) 100 150)
      \/ (level = 3 /\ 0 < score /\ xp_gained res = randint (ticks w) 150 200))
  /\ (unlocked_level after = unlocked_level prior
      \/ (unlocked_level after = 2 /\ unlocked_level prior < 2)
      \/ (unlocked_level after = 3 /\ unlocked_level prior < 3)).
Proof.
  intros Hcall prior after. subst prior after.
  unfold submit_assessment_result in Hcall.
  destruct (prior_record w session_id) as (Hxp & Hul & _).
  cbv zeta in Hxp, Hul.
  set (ud := match load_user_progress w !! session_id with
             | Some r => r | None => new_record end) in *.
  rewrite <- Hxp, <- Hul.
  destruct (Z.eqb_spec level 1) as [->|N1];
    [|destruct (Z.eqb_spec level 2) as [->|N2];
      [|destruct (Z.eqb_spec level 3) as [->|N3]]].
  all: unfold Z.geb, Z.gtb in Hcall.
  all: try (destruct (Z.compare_spec score 8); cbn in Hcall).
  all: try (destruct (Z.compare_spec score 7); cbn in Hcall).
  all: try (destruct (Z.compare_spec score 0); cbn in Hcall).
  all: try (destruct (Z.ltb_spec (unlocked_level ud) 2); cbn in Hcall).
  all: try (destruct (Z.ltb_spec (unlocked_level ud) 3); cbn in Hcall).
  all: injection Hcall as <- <-; rewrite get_progress_save; cbn.
  all: repeat split; intros; try discriminate; try lia.
  all: try (left; repeat split; (reflexivity || lia)).
  all: try (right; left; repeat split; (reflexivity || lia)).
  all: try (right; right; repeat split; (reflexivity || lia)).
Qed.

Lemma comment_keeps_progress (w : World) (session_id q c other : string) :
  let w' := snd (set_mistake_comment w session_id q c) in
  xp (get_progress w' other) = xp (get_progress w other)
  /\ unlocked_level (get_progress w' other)
     = unlocked_level (get_progress w other)
  /\ history (get_progress w' other) = history (get_progress w other).
Proof.
  cbv zeta. unfold update_mistake_comment.
  destruct (load_user_progress w !! session_id) as [r|] eqn:Hr; [|auto].
  destruct (mistakes r) as [l|]; [|auto].
  destruct (set_comment q c l) as [l'|]; [|auto].
  cbn [snd]. unfold get_progress. rewrite load_save.
  destruct (decide (session_id = other)) as [<-|Hne].
  - rewrite lookup_insert_eq, Hr. auto.
  - rewrite lookup_insert_ne by exact Hne. auto.
Qed.

Lemma gains_app (h : list SubmissionEvent) (e : SubmissionEvent) :
  gains (h ++ [e]) = gains h + ev_xp_gained e.
Proof.
  unfold gains. induction h as [|x h IH]; cbn [app map fold_right]; lia.
Qed.

Lemma step_history (w : World) (c : Submission) (session_id : string) :
  exists added,
    history (get_progress (submit_step randint clock w c) session_id)
    = history (get_progress w session_id) ++ added
    /\ map (fun e => (ev_level e, ev_score e, ev_max_score e)) added
       = map (fun c => (sub_level c, sub_score c, sub_max_score c))
           (List.filter (fun c => String.eqb (sub_session c) session_id) [c]).
Proof.
  unfold submit_step.
  destruct (submit w (sub_session c) (sub_level c) (sub_score c)
              (sub_max_score c) (sub_mistakes c)) as [res w'] eqn:Hcall.
  cbn [snd List.filter].
  destruct (String.eqb_spec (sub_session c) session_id) as [Heq|Hne].
  - subst session_id.
    destruct (submit_stored _ _ _ _ _ _ _ _ _ _ Hcall) as (_ & _ & Hev & _).
    eexists. split; [exact Hev|reflexivity].
  - destruct (submit_other_sessions _ _ _ _ _ session_id _ _ _ _ _ Hcall Hne)
      as [-> _].
    exists []. rewrite app_nil_r. auto.
Qed.

(** X3: the history of a session only grows: after any sequence of
    submissions it is the earlier history followed by one event for each
    submission of that session, in order, with its level, score and maximal
    score. *)
Theorem history_lists_submissions (w : World) (calls : list Submission)
    (session_id : string) :
  exists added,
    history (get_progress (submit_all randint clock calls w) session_id)
    = history (get_progress w session_id) ++ added
    /\ map (fun e => (ev_level e, ev_score e, ev_max_score e)) added
       = map (fun c => (sub_level c, sub_score c, sub_max_score c))
           (List.filter (fun c => String.eqb (sub_session c) session_id) calls)
    /\ length added = submissions_of session_id calls.
Proof.
  assert (Hmain : exists added,
    history (get_progress (submit_all randint clock calls w) session_id)
    = history (get_progress w session_id) ++ added
    /\ map (fun e => (ev_level e, ev_score e, ev_max_score e)) added
       = map (fun c => (sub_level c, sub_score c, sub_max_score c))
           (List.filter (fun c => String.eqb (sub_session c) session_id) calls)).
  { unfold submit_all. revert w.
    induction calls as [|c calls IH]; intros w.
    - exists []. cbn. rewrite app_nil_r. auto.
    - change (fold_left (submit_step randint clock) (c :: calls) w)
        with (fold_left (submit_step randint clock) calls
                (submit_step randint clock w c)).
      destruct (IH (submit_step randint clock w c)) as (rest & Hh & Hm).
      destruct (step_history w c session_id) as (first & Hf & Hfm).
      exists (first ++ rest). split.
      + rewrite Hh, Hf, app_assoc. reflexivity.
      + rewrite List.map_app, Hfm, Hm, <- List.map_app.
        change (c :: calls) with ([c] ++ calls).
        rewrite List.filter_app. reflexivity. }
  destruct Hmain as (added & Hh & Hm). exists added.
  split; [exact Hh|]. split; [exact Hm|].
  unfold submissions_of.
  rewrite <- (List.length_map
                (fun e => (ev_level e, ev_score e, ev_max_score e)) added), Hm.
  apply List.length_map.
Qed.

Lemma fold_add_known (level : Z) (stamp : string) (ms : list Mistake)
    (l : list MistakeEntry) :
  (forall m, In m ms -> In (m_question m) (questions l)) ->
  fold_left (add_mistake level stamp) ms l = l.
Proof.
  induction ms as [|m ms IH]; intros Hknown; cbn [fold_left]; [reflexivity|].
  destruct (add_mistake_cases level stamp l m) as [[_ ->]|[Hnew _]].
  - apply IH. intros m' Hm'. apply Hknown. right. exact Hm'.
  - exfalso. apply Hnew, Hknown. left. reflexivity.
Qed.

(** X19: mistakes whose question texts are all stored already add nothing,
    whatever the level and the score of the submission; so sending the
    mistakes of a submission a second time leaves the stored mistakes as the
    first time left them. *)
Theorem resubmitted_mistakes_add_nothing (w : World) (session_id : string)
    (level score max_score : Z) (ms : list Mistake) :
  (let w' := snd (submit w session_id level score max_score (Some ms)) in
   (forall m, In m ms ->
      In (m_question m) (questions (session_mistakes w session_id))) ->
   session_mistakes w' session_id = session_mistakes w session_id)
  /\ (forall level' score' max_score',
        let w1 := snd (submit w session_id level score max_score (Some ms)) in
        let w2 := snd (submit w1 session_id level' score' max_score' (Some ms)) in
        session_mistakes w2 session_id = session_mistakes w1 session_id).
Proof.
  assert (Hknown : forall w0 lvl sc mx,
            (forall m, In m ms ->
               In (m_question m) (questions (session_mistakes w0 session_id))) ->
            session_mistakes (snd (submit w0 session_id lvl sc mx (Some ms)))
              session_id
            = session_mistakes w0 session_id).
  { intros w0 lvl sc mx H.
    destruct (submit w0 session_id lvl sc mx (Some ms)) as [res w'] eqn:Hcall.
    cbn [snd].
    destruct (submit_stored _ _ _ _ _ _ _ _ _ _ Hcall) as (_ & -> & _).
    apply fold_add_known, H. }
  split; [apply Hknown|].
  intros level' score' max_score'. cbv zeta. apply Hknown.
  intros m Hm.
  destruct (submit w session_id level score max_score (Some ms))
    as [res w1] eqn:Hcall.
  destruct (submit_stored _ _ _ _ _ _ _ _ _ _ Hcall) as (_ & Hstored & _).
  cbn [snd]. rewrite Hstored. apply fold_add_covers, Hm.
Qed.

(** X4: in every store reached from a missing progress file the XP of a
    session is the sum of the gains its history records. *)
Theorem xp_is_sum_of_gains (w : World) :
  reachable randint clock w ->
  forall session_id,
    xp (get_progress w session_id)
    = gains (history (get_progress w session_id)).
Proof.
  induction 1 as [w Hw|w c _ IH|w s q c _ IH]; intros session_id.
  - unfold get_progress, load_user_progress. rewrite Hw, lookup_empty.
    reflexivity.
  - unfold submit_step.
    destruct (submit w (sub_session c) (sub_level c) (sub_score c)
                (sub_max_score c) (sub_mistakes c)) as [res w'] eqn:Hcall.
    cbn [snd].
    destruct (decide (sub_session c = session_id)) as [<-|Hne].
    + destruct (submit_stored _ _ _ _ _ _ _ _ _ _ Hcall) as (_ & _ & Hev & _).
      destruct (submit_grades _ _ _ _ _ _ _ _ Hcall) as (Hxp & _).
      rewrite Hev, gains_app, Hxp, IH. reflexivity.
    + destruct (submit_other_sessions _ _ _ _ _ session_id _ _ _ _ _ Hcall Hne)
        as [-> _]. apply IH.
  - destruct (comment_keeps_progress w s q c session_id) as (-> & _ & ->).
    apply IH.
Qed.

Hypothesis randint_range : forall t a b, a <= b -> a <= randint t a b <= b.

(** X5: with a generator that draws within its bounds, every store reached
    from a missing progress file keeps the unlocked level of a session
    between 1 and 3 and its XP non-negative, and every event of its history
    is graded by the thresholds: a passed event is of level 1, 2 or 3 with
    the score and the gain of its level, a failed one gained nothing. *)
Theorem reachable_records_in_range (w : World) :
  reachable randint clock w ->
  forall session_id,
    1 <= unlocked_level (get_progress w session_id) <= 3
    /\ 0 <= xp (get_progress w session_id)
    /\ Forall graded (history (get_progress w session_id)).
Proof.
  induction 1 as [w Hw|w c _ IH|w s q c _ IH]; intros session_id.
  - unfold get_progress, load_user_progress. rewrite Hw, lookup_empty.
    cbn. split; [lia|]. split; [lia|constructor].
  - unfold submit_step.
    destruct (submit w (sub_session c) (sub_level c) (sub_score c)
                (sub_max_score c) (sub_mistakes c)) as [res w'] eqn:Hcall.
    cbn [snd].
    destruct (decide (sub_session c = session_id)) as [<-|Hne].
    + destruct (IH (sub_session c)) as (Hul & Hxp & Hh).
      destruct (submit_stored _ _ _ _ _ _ _ _ _ _ Hcall) as (_ & _ & Hev & _).
      destruct (submit_grades _ _ _ _ _ _ _ _ Hcall)
        as (Hacc & Hfail & Hpass & Hunl).
      pose proof (randint_range (ticks w) 50 100 ltac:(lia)) as R1.
      pose proof (randint_range (ticks w) 100 150 ltac:(lia)) as R2.
      pose proof (randint_range (ticks w) 150 200 ltac:(lia)) as R3.
      assert (Hg : graded
                {| ev_level := sub_level c; ev_score := sub_score c;
                   ev_max_score := sub_max_score c; ev_passed := passed res;
                   ev_xp_gained := xp_gained res;
                   ev_timestamp := mtime_stamp w |}).
      { unfold graded. cbn. destruct (passed res).
        - destruct (Hpass eq_refl) as [(?&?&->)|[(?&?&->)|(?&?&->)]];
            [left|right; left|right; right]; auto.
        - apply Hfail. reflexivity. }
      assert (0 <= xp_gained res).
      { destruct (passed res).
        - destruct (Hpass eq_refl) as [(?&?&->)|[(?&?&->)|(?&?&->)]]; lia.
        - rewrite Hfail by reflexivity. lia. }
      split; [lia|]. split; [lia|].
      rewrite Hev. apply Forall_app. split; [exact Hh|].
      constructor; [exact Hg|constructor].
    + destruct (submit_other_sessions _ _ _ _ _ session_id _ _ _ _ _ Hcall Hne)
        as [-> _]. apply IH.
  - destruct (comment_keeps_progress w s q c session_id) as (-> & -> & ->).
    apply IH.
Qed.

End Tracker.

(** Examples on the store of the two mistakes. *)

Lemma comment_updates_first_match_example :
  let r := update_mistake_comment Demo.clock Examples.two_mistakes "s1" "R"
             "check" in
  fst r = true
  /\ map comments (session_mistakes (snd r) "s1") = [""; "check"]
  /\ history (get_progress (snd r) "s1")
     = history (get_progress Examples.two_mistakes "s1").
Proof.
  cbv zeta.
  destruct (comment_updates_first_match Demo.clock Examples.two_mistakes "s1"
              "R" "check" [mistake_entry 1 "0" (Demo.mistake "Q" "A")] []
              (mistake_entry 1 "0" (Demo.mistake "R" "B")) eq_refl eq_refl)
    as (H1 & H2 & _ & _ & H5 & _).
  - intros [H|[]]. discriminate.
  - split; [exact H1|]. split; [rewrite H2; reflexivity|exact H5].
Defined.

Lemma demo_reachable : reachable Demo.randint Demo.clock Examples.passed_after.
Proof.
  apply (reach_submit _ _ Examples.two_mistakes Examples.passed_call).
  apply (reach_submit _ _ Demo.fresh Examples.two_mistakes_call).
  apply reach_fresh. reflexivity.
Qed.

Lemma xp_is_sum_of_gains_example :
  xp (get_progress Examples.passed_after "s1") = 50
  /\ gains (history (get_progress Examples.passed_after "s1")) = 50.
Proof.
  split; [reflexivity|].
  rewrite <- (xp_is_sum_of_gains Demo.randint Demo.clock Examples.passed_after
                demo_reachable "s1").
  reflexivity.
Defined.

Lemma reachable_records_in_range_example :
  1 <= unlocked_level (get_progress Examples.passed_after "s1") <= 3
  /\ 0 <= xp (get_progress Examples.passed_after "s1")
  /\ Forall graded (history (get_progress Examples.passed_after "s1")).
Proof.
  exact (reachable_records_in_range Demo.randint Demo.clock
           demo_randint_range Examples.passed_after demo_reachable "s1").
Defined.

End TrackerFacts.

(** ** File names *)

Module PathFacts.
Import PyStr PyStrFacts.

Lemma has_char_append (c : ascii) (a b : string) :
  has_char c (a +:+ b) = has_char c a || has_char c b.
Proof.
  induction a as [|x a IH]; [reflexivity|].
  rewrite append_cons. cbn [has_char]. rewrite IH, orb_assoc. reflexivity.
Qed.

Lemma append_cancel_l (a b c : string) : a +:+ b = a +:+ c -> b = c.
Proof.
  induction a as [|x a IH]; [auto|].
  rewrite !append_cons. intros [= H]. auto.
Qed.

Lemma append_cancel_r (a b c : string) : a +:+ c = b +:+ c -> a = b.
Proof.
  revert b. induction a as [|x a IH]; intros [|y b] H.
  - reflexivity.
  - apply (f_equal String.length) in H.
    rewrite append_cons in H. cbn [String.length] in H.
    rewrite !length_append in H. cbn in H. lia.
  - apply (f_equal String.length) in H.
    rewrite append_cons in H. cbn [String.length] in H.
    rewrite !length_append in H. cbn in H. lia.
  - rewrite !append_cons in H. injection H as -> H. f_equal. auto.
Qed.

(** A string without a character is not one with that character in it. *)
Lemma no_char_no_split (c : ascii) (x s y : string) :
  has_char c x = false -> x <> s +:+ String c y.
Proof.
  intros Hx ->. rewrite has_char_append in Hx. cbn [has_char] in Hx.
  rewrite Ascii.eqb_refl, orb_true_r in Hx. discriminate.
Qed.

Lemma pretty_N_char_not_underscore (x : N) :
  Ascii.eqb (pretty_N_char x) "_" = false.
Proof. unfold pretty_N_char. repeat case_match; reflexivity. Qed.

Lemma pretty_N_go_no_underscore (x : N) (s : string) :
  has_char "_" s = false -> has_char "_" (pretty_N_go x s) = false.
Proof.
  revert s. induction (N.lt_wf_0 x) as [x _ IH]; intros s Hs.
  assert (x = 0 \/ 0 < x)%N as [->|Hpos] by lia.
  - rewrite pretty_N_go_0. exact Hs.
  - rewrite pretty_N_go_step by exact Hpos. apply IH.
    + apply N.div_lt; lia.
    + cbn [has_char]. rewrite pretty_N_char_not_underscore. exact Hs.
Qed.

Lemma pretty_Z_no_underscore (z : Z) : has_char "_" (pretty z) = false.
Proof.
  assert (HN : forall n : N, has_char "_" (pretty n) = false).
  { intros n. unfold pretty, pretty_N. case_decide; [reflexivity|].
    apply pretty_N_go_no_underscore. reflexivity. }
  destruct z as [|p|p]; [reflexivity|apply (HN (Npos p))|].
  change (pretty (Zneg p)) with ("-" +:+ pretty (Npos p)).
  rewrite has_char_append, (HN (Npos p)). reflexivity.
Qed.

(** The tail of an assessment file name, after the session id. *)
Abbreviation level_tail p := ("_lvl" +:+ p +:+ ".json").

Lemma level_tail_not_inside (p1 p2 s : string) :
  has_char "_" p1 = false ->
  level_tail p1 = s +:+ level_tail p2 -> s = "".
Proof.
  intros Hp H.
  destruct s as [|c1 [|c2 [|c3 [|c4 s]]]]; [reflexivity|exfalso..].
  1-3: cbn in H; discriminate.
  cbn [String.append] in H. rewrite !append_cons in H.
  injection H as _ _ _ _ H.
  apply (no_char_no_split "_" (p1 +:+ ".json") s ("lvl" +:+ p2 +:+ ".json"));
    [|exact H].
  rewrite has_char_append, Hp. reflexivity.
Qed.

Lemma level_name_inj (s1 s2 p1 p2 : string) :
  has_char "_" p1 = false -> has_char "_" p2 = false ->
  s1 +:+ level_tail p1 = s2 +:+ level_tail p2 -> s1 = s2 /\ p1 = p2.
Proof.
  intros H1 H2. revert s2.
  induction s1 as [|c s1 IH]; intros [|d s2] H.
  - split; [reflexivity|]. cbn [String.append] in H.
    apply (append_cancel_l "_lvl") in H. apply append_cancel_r in H. exact H.
  - apply (level_tail_not_inside p1 p2 (String d s2) H1) in H. discriminate.
  - symmetry in H.
    apply (level_tail_not_inside p2 p1 (String c s1) H2) in H. discriminate.
  - rewrite !append_cons in H. injection H as -> H.
    destruct (IH s2 H) as [-> ->]. auto.
Qed.

Lemma startswith_slash_append (c : ascii) (dir y : string) :
  startswith "/" (String c dir +:+ y) = startswith "/" (String c dir).
Proof.
  rewrite append_cons. unfold startswith. cbn [String.prefix].
  destruct (ascii_dec "/" c); [|reflexivity].
  destruct dir, y; reflexivity.
Qed.

Lemma path_join_inj (dir a b : string) :
  startswith "/" dir = false ->
  path_join dir a = path_join dir b -> a = b.
Proof.
  intros Hdir. unfold path_join.
  destruct dir as [|c dir].
  { cbn [String.eqb orb].
    destruct (startswith "/" a), (startswith "/" b); auto. }
  assert (Hrel : forall y,
            startswith "/"
              (if String.eqb (String c dir) "" || endswith "/" (String c dir)
               then String c dir +:+ y else String c dir +:+ "/" +:+ y)
            = false).
  { intros y. destruct (_ || _); rewrite startswith_slash_append; exact Hdir. }
  destruct (startswith "/" a) eqn:Ha, (startswith "/" b) eqn:Hb.
  - auto.
  - intros H. rewrite H, Hrel in Ha. discriminate.
  - intros H. rewrite <- H, Hrel in Hb. discriminate.
  - destruct (String.eqb (String c dir) "" || endswith "/" (String c dir));
      intros H.
    + apply append_cancel_l in H. exact H.
    + apply append_cancel_l in H. apply (append_cancel_l "/") in H. exact H.
Qed.

Lemma pretty_N_char_not_slash (x : N) :
  Ascii.eqb (pretty_N_char x) "/" = false.
Proof. unfold pretty_N_char. repeat case_match; reflexivity. Qed.

Lemma pretty_N_go_no_slash (x : N) (s : string) :
  has_char "/" s = false -> has_char "/" (pretty_N_go x s) = false.
Proof.
  revert s. induction (N.lt_wf_0 x) as [x _ IH]; intros s Hs.
  assert (x = 0 \/ 0 < x)%N as [->|Hpos] by lia.
  - rewrite pretty_N_go_0. exact Hs.
  - rewrite pretty_N_go_step by exact Hpos. apply IH.
    + apply N.div_lt; lia.
    + cbn [has_char]. rewrite pretty_N_char_not_slash. exact Hs.
Qed.

Lemma pretty_Z_no_slash (z : Z) : has_char "/" (pretty z) = false.
Proof.
  assert (HN : forall n : N, has_char "/" (pretty n) = false).
  { intros n. unfold pretty, pretty_N. case_decide; [reflexivity|].
    apply pretty_N_go_no_slash. reflexivity. }
  destruct z as [|p|p]; [reflexivity|apply (HN (Npos p))|].
  change (pretty (Zneg p)) with ("-" +:+ pretty (Npos p)).
  rewrite has_char_append, (HN (Npos p)). reflexivity.
Qed.

Lemma no_slash_not_absolute (s : string) :
  has_char "/" s = false -> startswith "/" s = false.
Proof.
  destruct s as [|c s]; [reflexivity|]. cbn [has_char]. intros H.
  apply orb_false_elim in H as [Hc _].
  unfold startswith. cbn [String.prefix].
  destruct (ascii_dec "/" c) as [<-|]; [discriminate|reflexivity].
Qed.

(** For an id free of "/" the file is a direct child of its folder. *)
Lemma cache_path_child (session_id : string) (level : Z) :
  has_char "/" session_id = false ->
  let name := session_id +:+ "_lvl" +:+ pretty level +:+ ".json" in
  Assessment.cache_path session_id level
  = Assessment.ASSESSMENT_DIR +:+ "/" +:+ name
  /\ has_char "/" name = false.
Proof.
  intros Hs name.
  assert (Hname : has_char "/" name = false).
  { unfold name. rewrite !has_char_append, Hs, pretty_Z_no_slash. reflexivity. }
  split; [|exact Hname].
  unfold Assessment.cache_path, path_join. fold name.
  rewrite (no_slash_not_absolute name Hname). reflexivity.
Qed.

Lemma roadmap_path_child (roadmap_id : string) :
  has_char "/" roadmap_id = false ->
  let name := roadmap_id +:+ ".json" in
  Roadmap.roadmap_path roadmap_id = Roadmap.ROADMAPS_DIR +:+ "/" +:+ name
  /\ has_char "/" name = false.
Proof.
  intros Hs name.
  assert (Hname : has_char "/" name = false).
  { unfold name. rewrite has_char_append, Hs. reflexivity. }
  split; [|exact Hname].
  unfold Roadmap.roadmap_path, path_join. fold name.
  rewrite (no_slash_not_absolute name Hname). reflexivity.
Qed.

Lemma cache_path_inj (s1 s2 : string) (l1 l2 : Z) :
  Assessment.cache_path s1 l1 = Assessment.cache_path s2 l2 ->
  s1 = s2 /\ l1 = l2.
Proof.
  unfold Assessment.cache_path. intros H.
  apply path_join_inj in H; [|reflexivity].
  apply level_name_inj in H; try apply pretty_Z_no_underscore.
  destruct H as [-> H]. split; [reflexivity|].
  apply (inj pretty). exact H.
Qed.

Lemma roadmap_path_inj (a b : string) :
  Roadmap.roadmap_path a = Roadmap.roadmap_path b -> a = b.
Proof.
  unfold Roadmap.roadmap_path. intros H.
  apply path_join_inj in H; [|reflexivity].
  apply append_cancel_r in H. exact H.
Qed.

End PathFacts.

(** ** Stores: cache files, roadmap files, the view of all mistakes *)

Module StoreFacts.
Import PyStr PyStrFacts PathFacts.

Section Generation.

Variable partition_pdf : string -> option (list string).
Variable llm_invoke : nat -> string -> option string.
Variable json_loads : string -> option Json.
Variable randint : nat -> Z -> Z -> Z.
Variable clock : nat -> string.

Abbreviation generate :=
  (Assessment.generate_assessment partition_pdf llm_invoke json_loads).
Abbreviation session_text := (Assessment.get_session_text partition_pdf).

(** X6: session ids are file-name components, free of "/". The cache file
    of such an id and a level is then a direct child of the assessments
    folder, two pairs share their cache file only if they are the same
    pair, and generating the assessment of one pair leaves the cache entry
    of every other pair as it was, whether or not the call writes its own. *)
Theorem generation_keeps_other_caches (w : Assessment.World)
    (s1 s2 : string) (l1 l2 : Z) :
  has_char "/" s1 = false ->
  has_char "/" s2 = false ->
  (exists name,
     Assessment.cache_path s1 l1 = Assessment.ASSESSMENT_DIR +:+ "/" +:+ name
     /\ has_char "/" name = false)
  /\ (Assessment.cache_path s1 l1 = Assessment.cache_path s2 l2 ->
      s1 = s2 /\ l1 = l2)
  /\ ((s1, l1) <> (s2, l2) ->
      Assessment.assessment_files (snd (generate w s1 l1))
        !! Assessment.cache_path s2 l2
      = Assessment.assessment_files w !! Assessment.cache_path s2 l2).
Proof.
  intros Hs1 Hs2.
  split; [eexists; apply (cache_path_child s1 l1 Hs1)|].
  split; [apply cache_path_inj|].
  intros Hne.
  assert (Hpath : Assessment.cache_path s1 l1 <> Assessment.cache_path s2 l2).
  { intros H. apply cache_path_inj in H as [-> ->]. contradiction. }
  unfold Assessment.generate_assessment.
  destruct (Assessment.assessment_files w !! Assessment.cache_path s1 l1);
    [reflexivity|].
  destruct (String.eqb _ ""); [reflexivity|].
  destruct (llm_invoke _ _); [|reflexivity].
  destruct (Assessment.parse_assessment_response _ _); [|reflexivity].
  cbn. apply lookup_insert_ne. exact Hpath.
Qed.

(** X9: a level other than 1, 2 and 3 has the empty prompt, and the
    generation does not refuse it: with no cache entry and some text the
    model is called with the empty prompt, and a response that parses is
    returned and cached as the assessment of that level. *)
Theorem unknown_level_sends_empty_prompt (w : Assessment.World)
    (session_id : string) (level : Z) :
  level <> 1 -> level <> 2 -> level <> 3 ->
  Assessment.assessment_files w !! Assessment.cache_path session_id level = None ->
  session_text w session_id <> "" ->
  Assessment.get_assessment_prompt level (session_text w session_id) = ""
  /\ Assessment.llm_calls (snd (generate w session_id level))
     = Assessment.llm_calls w ++ [""]
  /\ (forall response questions,
        llm_invoke (Assessment.ticks w) "" = Some response ->
        Assessment.parse_assessment_response json_loads response
          = Some questions ->
        let result :=
          JObj [("level", JInt level); ("timer_seconds", JInt 600);
                ("questions", questions)] in
        fst (generate w session_id level) = result
        /\ Assessment.assessment_files (snd (generate w session_id level))
             !! Assessment.cache_path session_id level = Some result).
Proof.
  intros N1 N2 N3 Hmiss Htext.
  assert (Hprompt : forall context,
            Assessment.get_assessment_prompt level context = "").
  { intros context. unfold Assessment.get_assessment_prompt.
    destruct (Z.eqb_spec level 1); [contradiction|].
    destruct (Z.eqb_spec level 2); [contradiction|].
    destruct (Z.eqb_spec level 3); [contradiction|reflexivity]. }
  split; [apply Hprompt|].
  unfold Assessment.generate_assessment. rewrite Hmiss, Hprompt.
  destruct (String.eqb_spec (session_text w session_id) "") as [|_];
    [contradiction|].
  split.
  - destruct (llm_invoke _ _); [|reflexivity].
    destruct (Assessment.parse_assessment_response _ _); reflexivity.
  - intros response questions -> ->. cbn. split; [reflexivity|].
    apply lookup_insert_eq.
Qed.

(** X10: the tracker and the generator keep to their own files. A
    submission leaves the upload folders, the assessment files and the record
    of calls to the model as they were; a generation leaves the progress
    file and the upload folders as they were and sends at most one prompt
    to the model. *)
Theorem services_keep_apart (w : Assessment.World) (session_id : string)
    (level score max_score : Z) (mistakes : option (list Assessment.Mistake)) :
  (let w' := snd (Assessment.submit_assessment_result randint clock w
                    session_id level score max_score mistakes) in
   Assessment.upload_dirs w' = Assessment.upload_dirs w
   /\ Assessment.assessment_files w' = Assessment.assessment_files w
   /\ Assessment.llm_calls w' = Assessment.llm_calls w)
  /\ (let w' := snd (generate w session_id level) in
      Assessment.progress_file w' = Assessment.progress_file w
      /\ Assessment.progress_mtime w' = Assessment.progress_mtime w
      /\ Assessment.upload_dirs w' = Assessment.upload_dirs w
      /\ (Assessment.llm_calls w' = Assessment.llm_calls w
          \/ Assessment.llm_calls w'
             = Assessment.llm_calls w
               ++ [Assessment.get_assessment_prompt level
                     (session_text w session_id)])).
Proof.
  split; cbv zeta.
  - unfold Assessment.submit_assessment_result.
    destruct (level =? 1);
      [|destruct (level =? 2); [|destruct (level =? 3)]].
    all: try (destruct (score >=? 8)).
    all: try (destruct (score >=? 7)).
    all: try (destruct (score >? 0)).
    all: cbn; auto.
  - unfold Assessment.generate_assessment.
    destruct (Assessment.assessment_files w !! _); [cbn; auto|].
    destruct (String.eqb _ ""); [cbn; auto|].
    destruct (llm_invoke _ _); [|cbn; auto 6].
    destruct (Assessment.parse_assessment_response _ _); cbn; auto 6.
Qed.

End Generation.

Lemma filter_tagged_same (session_id : string) (l : list Assessment.MistakeEntry) :
  List.filter (Assessment.tagged_with session_id) (map (fun m => (m, Some session_id)) l)
  = map (fun m => (m, Some session_id)) l.
Proof.
  induction l as [|m l IH]; [reflexivity|].
  cbn [map List.filter]. unfold Assessment.tagged_with at 1. cbn [snd].
  rewrite String.eqb_refl, IH. reflexivity.
Qed.

Lemma filter_tagged_other (session_id sid : string)
    (l : list Assessment.MistakeEntry) :
  sid <> session_id ->
  List.filter (Assessment.tagged_with session_id) (map (fun m => (m, Some sid)) l) = [].
Proof.
  intros Hne. induction l as [|m l IH]; [reflexivity|].
  cbn [map List.filter]. unfold Assessment.tagged_with at 1. cbn [snd].
  destruct (String.eqb_spec sid session_id); [contradiction|exact IH].
Qed.

Lemma in_map_iff_tag (m : Assessment.MistakeEntry) (session_id : string)
    (l : list Assessment.MistakeEntry) :
  In m l <-> In (m, Some session_id) (map (fun m => (m, Some session_id)) l).
Proof.
  rewrite in_map_iff. split.
  - intros H. exists m. auto.
  - intros (m' & [= ->] & H). exact H.
Qed.

Section Views.

Variable randint : nat -> Z -> Z -> Z.
Variable clock : nat -> string.

Lemma existsb_session (sid : string) (order : list string) :
  existsb (String.eqb sid) order = true <-> In sid order.
Proof.
  rewrite existsb_exists. split.
  - intros (x & Hx & E). apply String.eqb_eq in E. subst. exact Hx.
  - intros H. exists sid. rewrite String.eqb_refl. auto.
Qed.

(** The key order follows the store through any sequence of submissions:
    it lists the stored sessions, each once. *)
Lemma key_order_lists_sessions (calls : list Assessment.Submission)
    (w : Assessment.World) (order : list string) :
  NoDup order ->
  (forall sid,
     In sid order <-> is_Some (Assessment.load_user_progress w !! sid)) ->
  NoDup (fold_left Assessment.key_order_step calls order)
  /\ (forall sid,
        In sid (fold_left Assessment.key_order_step calls order)
        <-> is_Some
              (Assessment.load_user_progress
                 (Assessment.submit_all randint clock calls w) !! sid)).
Proof.
  unfold Assessment.submit_all. revert w order.
  induction calls as [|c calls IH]; intros w order Hnd Hkeys; [auto|].
  cbn [fold_left]. apply IH.
  - unfold Assessment.key_order_step.
    destruct (existsb _ order) eqn:E; [exact Hnd|].
    apply NoDup_app. split; [exact Hnd|]. split; [|apply NoDup_singleton].
    intros x Hx Hx'. apply list_elem_of_In in Hx, Hx'.
    destruct Hx' as [<-|[]].
    apply (proj2 (existsb_session _ _)) in Hx. congruence.
  - intros sid. unfold Assessment.submit_step.
    destruct (Assessment.submit_assessment_result randint clock w
                (Assessment.sub_session c) (Assessment.sub_level c)
                (Assessment.sub_score c) (Assessment.sub_max_score c)
                (Assessment.sub_mistakes c)) as [res w'] eqn:Hcall.
    destruct (ProgressFacts.submit_stored _ _ _ _ _ _ _ _ _ _ Hcall)
      as (Hfile & _).
    cbn [snd]. unfold Assessment.load_user_progress at 1. rewrite Hfile.
    rewrite lookup_insert_is_Some, <- Hkeys.
    unfold Assessment.key_order_step.
    destruct (existsb _ order) eqn:E.
    + apply existsb_session in E.
      destruct (string_dec (Assessment.sub_session c) sid) as [<-|Hne];
        tauto.
    + rewrite in_app_iff. cbn [In].
      destruct (string_dec (Assessment.sub_session c) sid) as [<-|Hne];
        tauto.
Qed.

(** X8: [file_order] lists the sessions of the progress file, each once, in
    the order of the file. Under the sentinel "all" the view is then the
    stored mistakes of the sessions in that order, each session's in their
    stored order and each entry with the id of its session: the entries
    that carry a given id are exactly the stored mistakes of that session,
    and no entry is untagged. For any other id the view is the stored
    mistakes of that session, untagged. After any sequence of submissions
    from a missing progress file the order in which the sessions were first
    submitted is such a listing. *)
Theorem all_mistakes_are_tagged :
  (forall (file_order : list string) (w : Assessment.World),
     NoDup file_order ->
     (forall sid,
        In sid file_order
        <-> is_Some (Assessment.load_user_progress w !! sid)) ->
     Assessment.get_mistakes file_order w "all"
     = flat_map
         (fun sid =>
            map (fun m => (m, Some sid)) (Assessment.session_mistakes w sid))
         file_order
     /\ (forall session_id,
           List.filter (Assessment.tagged_with session_id)
             (Assessment.get_mistakes file_order w "all")
           = map (fun m => (m, Some session_id))
               (Assessment.session_mistakes w session_id))
     /\ (forall m session_id,
           In (m, Some session_id)
             (Assessment.get_mistakes file_order w "all")
           <-> In m (Assessment.session_mistakes w session_id))
     /\ (forall m,
           ~ In (m, None) (Assessment.get_mistakes file_order w "all"))
     /\ (forall session_id,
           session_id <> "all" ->
           Assessment.get_mistakes file_order w session_id
           = map (fun m => (m, None))
               (Assessment.session_mistakes w session_id)))
  /\ (forall (calls : list Assessment.Submission) (w : Assessment.World),
        Assessment.progress_file w = None ->
        let w' := Assessment.submit_all randint clock calls w in
        NoDup (Assessment.key_order calls)
        /\ (forall sid,
              In sid (Assessment.key_order calls)
              <-> is_Some (Assessment.load_user_progress w' !! sid))
        /\ Assessment.get_mistakes (Assessment.key_order calls) w' "all"
           = flat_map
               (fun sid =>
                  map (fun m => (m, Some sid))
                    (Assessment.session_mistakes w' sid))
               (Assessment.key_order calls)).
Proof.
  assert (Hall : forall (w : Assessment.World) order,
            Assessment.get_mistakes order w "all"
            = flat_map
                (fun sid =>
                   map (fun m => (m, Some sid))
                     (Assessment.session_mistakes w sid)) order).
  { intros w order.
    transitivity
      (flat_map
         (fun sid =>
            match Assessment.load_user_progress w !! sid with
            | Some data =>
                match Assessment.mistakes data with
                | Some l => map (fun m => (m, Some sid)) l
                | None => []
                end
            | None => []
            end) order); [reflexivity|].
    induction order as [|sid order IH]; [reflexivity|].
    cbn [flat_map]. rewrite IH. f_equal.
    unfold Assessment.session_mistakes.
    destruct (Assessment.load_user_progress w !! sid) as [data|]; [|reflexivity].
    destruct (Assessment.mistakes data); reflexivity. }
  split.
  2:{ intros calls w Hfresh w'.
      destruct (key_order_lists_sessions calls w [] ltac:(constructor))
        as [Hnd Hkeys].
      { intros sid. unfold Assessment.load_user_progress. rewrite Hfresh.
        rewrite lookup_empty. cbn [In]. split; [intros []|intros [? [=]]]. }
      split; [exact Hnd|]. split; [exact Hkeys|apply Hall]. }
  intros file_order w Hnd Hkeys.
  set (view := fun sid =>
         map (fun m => (m, Some sid)) (Assessment.session_mistakes w sid)).
  assert (Hfilter : forall session_id order,
            NoDup order ->
            List.filter (Assessment.tagged_with session_id) (flat_map view order)
            = if in_dec string_dec session_id order then view session_id
              else []).
  { intros session_id order Hord.
    induction Hord as [|sid order Hnotin Hord IH]; [reflexivity|].
    cbn [flat_map]. rewrite List.filter_app, IH.
    destruct (string_dec sid session_id) as [->|Hne].
    - unfold view at 1. rewrite filter_tagged_same.
      destruct (in_dec string_dec session_id order) as [Hin|_].
      { exfalso. apply Hnotin. try apply list_elem_of_In. exact Hin. }
      destruct (in_dec string_dec session_id (session_id :: order))
        as [_|Hout]; [apply app_nil_r|].
      exfalso. apply Hout. left. reflexivity.
    - unfold view at 1. rewrite (filter_tagged_other _ _ _ Hne).
      cbn [app].
      destruct (in_dec string_dec session_id order) as [Hin|Hout];
        destruct (in_dec string_dec session_id (sid :: order)) as [Hin'|Hout'];
        try reflexivity.
      + exfalso. apply Hout'. right. exact Hin.
      + destruct Hin' as [E|Hin']; [congruence|contradiction].
  }
  assert (Hview : forall session_id,
            List.filter (Assessment.tagged_with session_id)
              (flat_map view file_order)
            = view session_id).
  { intros session_id. rewrite (Hfilter _ _ Hnd).
    destruct (in_dec string_dec session_id file_order) as [_|Hout];
      [reflexivity|].
    unfold view, Assessment.session_mistakes.
    destruct (Assessment.load_user_progress w !! session_id) eqn:E;
      [|reflexivity].
    exfalso. apply Hout, Hkeys. rewrite E. eauto. }
  split; [apply Hall|].
  split; [intros session_id; rewrite Hall; apply Hview|].
  split.
  { intros m session_id.
    rewrite Hall, (in_map_iff_tag m session_id (Assessment.session_mistakes w session_id)).
    fold (view session_id). rewrite <- (Hview session_id), filter_In.
    unfold Assessment.tagged_with. cbn [snd]. rewrite String.eqb_refl. tauto. }
  split.
  { intros m. rewrite Hall, in_flat_map. intros (sid & _ & Hin).
    apply in_map_iff in Hin as (? & [=] & _). }
  intros session_id Hne. unfold Assessment.get_mistakes.
  destruct (String.eqb_spec session_id "all"); [contradiction|reflexivity].
Qed.

End Views.

Lemma unknown_level_example :
  Assessment.get_assessment_prompt 7
    (Assessment.get_session_text Demo.partition_pdf Demo.uploaded "s1") = ""
  /\ Assessment.llm_calls
       (snd (Assessment.generate_assessment Demo.partition_pdf Demo.llm_down
               Demo.json_loads Demo.uploaded "s1" 7))
     = [""].
Proof.
  destruct (unknown_level_sends_empty_prompt Demo.partition_pdf Demo.llm_down
              Demo.json_loads Demo.uploaded "s1" 7
              ltac:(lia) ltac:(lia) ltac:(lia) eq_refl)
    as (H1 & H2 & _).
  - vm_compute. discriminate.
  - split; [exact H1|exact H2].
Defined.

Lemma other_cache_example :
  let w' :=
    snd (Assessment.generate_assessment Demo.partition_pdf Examples.llm_answers
           Demo.json_loads Examples.uploaded_cached "s1" 2) in
  Assessment.assessment_files w' !! Assessment.cache_path "s1" 2
  = Some (JObj [("level", JInt 2); ("timer_seconds", JInt 600);
                ("questions", JArr [JInt 1; JInt 2])])
  /\ Assessment.assessment_files w' !! Assessment.cache_path "s1" 1
     = Some Demo.cached_doc.
Proof.
  cbv zeta. split; [vm_compute; reflexivity|].
  rewrite (proj2 (proj2 (generation_keeps_other_caches Demo.partition_pdf
                           Examples.llm_answers Demo.json_loads
                           Examples.uploaded_cached "s1" "s1" 2 1
                           eq_refl eq_refl))).
  - vm_compute. reflexivity.
  - intros [= ].
Defined.

Lemma all_mistakes_example :
  Assessment.key_order [Examples.other_session_call; Examples.two_mistakes_call]
  = ["s2"; "s1"]
  /\ map (fun entry => (Assessment.question (fst entry), snd entry))
       (Assessment.get_mistakes ["s2"; "s1"] Examples.two_sessions "all")
     = [("P", Some "s2"); ("Q", Some "s1"); ("R", Some "s1")]
  /\ List.filter (Assessment.tagged_with "s1")
       (Assessment.get_mistakes ["s2"; "s1"] Examples.two_sessions "all")
     = map (fun m => (m, Some "s1"))
         (Assessment.session_mistakes Examples.two_sessions "s1").
Proof.
  destruct (all_mistakes_are_tagged Demo.randint Demo.clock) as [Hview Hcalls].
  destruct (Hcalls [Examples.other_session_call; Examples.two_mistakes_call]
              Demo.fresh eq_refl)
    as (Hnd & Hkeys & Hall).
  destruct (Hview ["s2"; "s1"] Examples.two_sessions Hnd Hkeys)
    as (_ & Hfilter & _).
  split; [reflexivity|].
  split; [|apply Hfilter].
  change (Assessment.key_order _) with ["s2"; "s1"] in Hall.
  change (Assessment.submit_all _ _ _ _) with Examples.two_sessions in Hall.
  rewrite Hall. vm_compute. reflexivity.
Defined.

End StoreFacts.

(** ** Roadmaps: week content and sequences of progress updates *)

Module WeekFacts.
Import PyStr PathFacts Roadmap.

(** [{"status": "success", "week_number": n}] *)
Abbreviation success n :=
  (JObj [("status", JStr "success"); ("week_number", JInt n)]).

Lemma find_day_data_dicts (n : Z) (items : list Json) :
  forallb is_dict items = true ->
  find_day_data n items = Returned (find (is_day_data n) items).
Proof.
  induction items as [|item items IH]; [reflexivity|].
  cbn [forallb]. intros H. apply andb_prop in H as [Hd Hrest].
  destruct item; try discriminate. cbn [find_day_data find is_day_data].
  destruct (PyJson.get "day_number" fields) as [v|]; [|exact (IH Hrest)].
  destruct (PyJson.eq_int v n); [reflexivity|exact (IH Hrest)].
Qed.

Lemma find_is_day_data (n : Z) (items : list Json) (d : Json) :
  find (is_day_data n) items = Some d ->
  exists f fields, d = JObj (f :: fields).
Proof.
  intros H. apply find_some in H as [_ H].
  destruct d; try discriminate. cbn in H.
  destruct fields as [|f fields]; [discriminate|eauto].
Qed.

Lemma lookup_dict (items : list Json) (i : nat) (d : Json) :
  forallb is_dict items = true -> items !! i = Some d ->
  exists fields, d = JObj fields.
Proof.
  intros Hall Hi. apply list_elem_of_lookup_2, list_elem_of_In in Hi.
  rewrite forallb_forall in Hall. specialize (Hall d Hi).
  destruct d; try discriminate. eauto.
Qed.

(** X11: the merge of one day with a response that is an array of dicts
    never raises: the day takes the five fields of the first dict whose
    day number equals its own; when there is none it takes those of the
    dict at its own position in the array, if that dict is not empty; and
    otherwise it stays as it is. *)
Theorem merge_by_day_number_then_position (items : list Json) (i : nat)
    (day : Day) :
  forallb is_dict items = true ->
  merge_day (JArr items) i day
  = Returned
      match find (is_day_data (day_number day)) items with
      | Some (JObj fields) => update_day day fields
      | Some _ => day
      | None =>
          match items !! i with
          | Some (JObj (f :: fields)) => update_day day (f :: fields)
          | _ => day
          end
      end.
Proof.
  intros Hall. unfold merge_day. cbn [iter_items].
  rewrite (find_day_data_dicts _ _ Hall).
  destruct (find (is_day_data (day_number day)) items) as [d|] eqn:Hfind.
  - destruct (find_is_day_data _ _ _ Hfind) as (f & fields & ->). reflexivity.
  - destruct (items !! i) as [d|] eqn:Hi; [|reflexivity].
    destruct (lookup_dict _ _ _ Hall Hi) as (fields & ->).
    destruct fields; reflexivity.
Qed.

Lemma merge_day_keeps (new_days_data : Json) (i : nat) (day day' : Day) :
  merge_day new_days_data i day = Returned day' ->
  day_number day' = day_number day /\ topic day' = topic day.
Proof.
  unfold merge_day. destruct (iter_items new_days_data); [|discriminate].
  destruct (find_day_data _ _) as [found|]; [|discriminate].
  destruct (match found with Some d => Some d | None => l !! i end) as [d|];
    [|intros [= <-]; auto].
  destruct (PyJson.truthy d); [|intros [= <-]; auto].
  destruct d; try discriminate. intros [= <-]. auto.
Qed.

Lemma merge_days_keep (new_days_data : Json) (ds ds' : list Day) (i : nat) :
  merge_days new_days_data i ds = Returned ds' ->
  map day_number ds' = map day_number ds /\ map topic ds' = map topic ds.
Proof.
  revert ds' i. induction ds as [|day ds IH]; intros ds' i; cbn [merge_days].
  - intros [= <-]. auto.
  - destruct (merge_day new_days_data i day) as [day'|] eqn:Hd; [|discriminate].
    destruct (merge_days new_days_data (S i) ds) as [rest|] eqn:Hr;
      [|discriminate].
    intros [= <-]. destruct (merge_day_keeps _ _ _ _ Hd) as [Hn Ht].
    destruct (IH _ _ Hr) as [Hns Hts]. cbn [map]. rewrite Hn, Ht, Hns, Hts.
    auto.
Qed.

Lemma merge_days_dicts (items : list Json) (ds : list Day) (i : nat) :
  forallb is_dict items = true ->
  exists ds', merge_days (JArr items) i ds = Returned ds'.
Proof.
  intros Hall. revert i. induction ds as [|day ds IH]; intros i;
    cbn [merge_days]; [eauto|].
  rewrite (merge_by_day_number_then_position items i day Hall).
  destruct (IH (S i)) as [rest ->]. eauto.
Qed.

Lemma replace_first_week (n : Z) (ds : list Day) (ws : list Week)
    (target_week : Week) :
  find (fun wk => week_number wk =? n) ws = Some target_week ->
  exists before after,
    ws = before ++ target_week :: after
    /\ Forall (fun wk => week_number wk <> n) before
    /\ replace_week n ds ws = before ++ set_days ds target_week :: after.
Proof.
  induction ws as [|wk ws IH]; cbn [find replace_week]; [discriminate|].
  destruct (Z.eqb_spec (week_number wk) n) as [Heq|Hne].
  - intros [= <-]. exists [], ws. auto.
  - intros H. destruct (IH H) as (before & after & -> & Hb & ->).
    exists (wk :: before), after. cbn [app]. auto.
Qed.

Section Weeks.

Variable generate_content : nat -> string -> string + string.
Variable json_loads : string -> option Json.
Variable repair_json : string -> string.

Abbreviation week_content :=
  (generate_week_content generate_content json_loads repair_json).

(** The request sent for a week of a roadmap. *)
Abbreviation week_request roadmap n target_week :=
  (week_system_prompt +:+ "

Roadmap Title: " +:+ title roadmap +:+ "
Week " +:+ pretty n +:+ " Outline:
" +:+ week_context target_week).


(** X13: a successful call fills one week and keeps the outline: the
    roadmap is written under its own id with the same fields, the same
    weeks before and after the first week of the given number, and in that
    week the same days by number and topic, in the same order. *)
Theorem week_content_keeps_outline (w : World) (roadmap_id : string) (n : Z)
    (roadmap : Roadmap) (target_week : Week) :
  get_roadmap w roadmap_id = Some roadmap ->
  find (fun wk => week_number wk =? n) (weeks roadmap) = Some target_week ->
  fst (week_content w roadmap_id n) = success n ->
  exists ds before after,
    weeks roadmap = before ++ target_week :: after
    /\ Forall (fun wk => week_number wk <> n) before
    /\ map day_number ds = map day_number (days target_week)
    /\ map topic ds = map topic (days target_week)
    /\ get_roadmap (snd (week_content w roadmap_id n)) (id roadmap)
       = Some (set_weeks (before ++ set_days ds target_week :: after) roadmap)
    /\ model_calls (snd (week_content w roadmap_id n))
       = model_calls w ++ [week_request roadmap n target_week].
Proof.
  intros Hget Hfind. unfold generate_week_content. rewrite Hget, Hfind.
  destruct (generate_content _ _) as [text|e]; [|discriminate].
  destruct (json_loads _) as [new_days_data|]; [|discriminate].
  destruct (merge_days new_days_data 0 (days target_week)) as [ds|] eqn:Hm;
    [|discriminate].
  intros _. cbn [fst snd].
  destruct (replace_first_week n ds _ _ Hfind) as (before & after & Hw & Hb & Hr).
  destruct (merge_days_keep _ _ _ _ Hm) as [Hn Ht].
  exists ds, before, after. rewrite Hr.
  repeat (split; [assumption|]). split; [|reflexivity].
  unfold get_roadmap, save_roadmap. cbn. apply lookup_insert_eq.
Qed.

(** X14: a response that parses to an array of dicts is always merged and
    saved, whatever day numbers it carries. *)
Theorem array_of_dicts_is_accepted (w : World) (roadmap_id : string) (n : Z)
    (roadmap : Roadmap) (target_week : Week) (text : string)
    (items : list Json) :
  get_roadmap w roadmap_id = Some roadmap ->
  find (fun wk => week_number wk =? n) (weeks roadmap) = Some target_week ->
  generate_content (ticks w) (week_request roadmap n target_week) = inl text ->
  json_loads (repair_json (clean_week_text text)) = Some (JArr items) ->
  forallb is_dict items = true ->
  fst (week_content w roadmap_id n) = success n.
Proof.
  intros Hget Hfind Hgen Hparse Hall. unfold generate_week_content.
  rewrite Hget, Hfind, Hgen, Hparse.
  destruct (merge_days_dicts items (days target_week) 0 Hall) as [ds ->].
  reflexivity.
Qed.

Lemma update_writes_stored_id (w : World) (roadmap_id : string) (r : Roadmap)
    (day : Z) :
  get_roadmap w roadmap_id = Some r ->
  let result := update_progress w roadmap_id day in
  snd result = w
  \/ exists r',
       id r' = id r
       /\ fst result = Returned (Some r')
       /\ roadmap_files (snd result)
          = <[roadmap_path (id r) := r']> (roadmap_files w).
Proof.
  intros Hget. cbv zeta. unfold update_progress. rewrite Hget.
  destruct (existsb _ _); [left; reflexivity|].
  destruct (PyNum.truediv _ _); [|left; reflexivity].
  right. eexists. split; [|split; reflexivity]. reflexivity.
Qed.

Lemma week_writes_stored_id (w : World) (roadmap_id : string) (r : Roadmap)
    (n : Z) :
  get_roadmap w roadmap_id = Some r ->
  let w' := snd (week_content w roadmap_id n) in
  roadmap_files w' = roadmap_files w
  \/ exists r',
       id r' = id r
       /\ roadmap_files w' = <[roadmap_path (id r) := r']> (roadmap_files w).
Proof.
  intros Hget. cbv zeta. unfold generate_week_content. rewrite Hget.
  destruct (find _ _); [|left; reflexivity].
  destruct (generate_content _ _); [|left; reflexivity].
  destruct (json_loads _); [|left; reflexivity].
  destruct (merge_days _ _ _); [|left; reflexivity].
  right. eexists. split; [|reflexivity]. reflexivity.
Qed.

(** X7: a roadmap is read from the file of the id asked for and saved to
    the file of the id it carries inside. Ids are file-name components,
    free of "/", so that the file of an id is a direct child of the roadmaps
    folder and two ids name the same file only if they are equal. A
    progress update and a week generation then change no roadmap file but
    the one of the id the roadmap carries; an update that returns a roadmap
    has either written nothing or left that roadmap in the file of the
    carried id. *)
Theorem roadmap_written_under_stored_id (w : World) (roadmap_id : string)
    (r : Roadmap) (day n : Z) :
  get_roadmap w roadmap_id = Some r ->
  has_char "/" (id r) = false ->
  (exists name,
     roadmap_path (id r) = ROADMAPS_DIR +:+ "/" +:+ name
     /\ has_char "/" name = false)
  /\ (forall w',
        w' = snd (update_progress w roadmap_id day)
        \/ w' = snd (week_content w roadmap_id n) ->
        (roadmap_files w' = roadmap_files w
         \/ exists r',
              id r' = id r
              /\ roadmap_files w'
                 = <[roadmap_path (id r) := r']> (roadmap_files w))
        /\ (forall other,
              has_char "/" other = false -> other <> id r ->
              get_roadmap w' other = get_roadmap w other))
  /\ (forall r',
        fst (update_progress w roadmap_id day) = Returned (Some r') ->
        snd (update_progress w roadmap_id day) = w
        \/ get_roadmap (snd (update_progress w roadmap_id day)) (id r)
           = Some r').
Proof.
  intros Hget Hid.
  split; [eexists; apply (roadmap_path_child (id r) Hid)|].
  assert (Hfiles : forall w',
            w' = snd (update_progress w roadmap_id day)
            \/ w' = snd (week_content w roadmap_id n) ->
            roadmap_files w' = roadmap_files w
            \/ exists r',
                 id r' = id r
                 /\ roadmap_files w'
                    = <[roadmap_path (id r) := r']> (roadmap_files w)).
  { intros w' [-> | ->].
    - destruct (update_writes_stored_id w roadmap_id r day Hget)
        as [-> | (r' & Hr' & _ & Hw)]; [left; reflexivity|].
      right. exists r'. auto.
    - apply (week_writes_stored_id w roadmap_id r n Hget). }
  split.
  - intros w' Hw'. split; [apply Hfiles, Hw'|].
    intros other _ Hne. unfold get_roadmap.
    destruct (Hfiles w' Hw') as [-> | (r' & _ & ->)]; [reflexivity|].
    apply lookup_insert_ne. intros H. apply roadmap_path_inj in H. congruence.
  - intros r' Hret.
    destruct (update_writes_stored_id w roadmap_id r day Hget)
      as [Hsame | (r1 & Hr1 & Hfst & Hw)]; [left; exact Hsame|].
    right. rewrite Hfst in Hret. injection Hret as <-.
    unfold get_roadmap. rewrite Hw. apply lookup_insert_eq.
Qed.

End Weeks.

(** *** Sequences of progress updates *)

Lemma existsb_completed (d : Z) (l : list Z) :
  existsb (Z.eqb d) l = true <-> In d l.
Proof.
  rewrite existsb_exists. split.
  - intros (x & Hx & E). apply Z.eqb_eq in E. subst. exact Hx.
  - intros H. exists d. rewrite Z.eqb_refl. auto.
Qed.

Lemma update_step_known (w : World) (roadmap_id : string) (day : Z)
    (r : Roadmap) :
  get_roadmap w roadmap_id = Some r -> In day (completed_list r) ->
  update_progress w roadmap_id day = (Returned (Some r), w).
Proof.
  intros Hr Hin. unfold update_progress. rewrite Hr.
  fold (completed_list r).
  rewrite (proj2 (existsb_completed day _)) by exact Hin.
  destruct r as [? ? ? ? ? ? ? ? ? [l|] ?]; cbn in *;
    [reflexivity|contradiction].
Qed.

Lemma update_step_new (w : World) (roadmap_id : string) (day : Z)
    (r : Roadmap) :
  get_roadmap w roadmap_id = Some r -> ~ In day (completed_list r) ->
  total_days r <> 0 ->
  Z.abs (total_days r) <= 2 ^ 1000 ->
  Z.of_nat (length (completed_list r)) < 2 ^ 63 ->
  exists r' pct,
    update_progress w roadmap_id day = (Returned (Some r'), save_roadmap r' w)
    /\ completed_list r' = completed_list r ++ [day]
    /\ days_completed r' = Z.of_nat (length (completed_list r'))
    /\ progress_percentage r' = NFloat pct
    /\ PyNum.is_finite pct = true
    /\ (Rabs (PyNum.to_R pct
               - 100 * IZR (days_completed r') / IZR (total_days r'))
         <= Rabs (100 * IZR (days_completed r') / IZR (total_days r'))
            / 2 ^ 51)%R
    /\ total_days r' = total_days r
    /\ weeks r' = weeks r
    /\ id r' = id r.
Proof.
  intros Hr Hnew Htotal Hbound Hlen.
  destruct (RoadmapFacts.update_progress_new w roadmap_id day r Hr Hnew Htotal
              Hbound Hlen)
    as (r' & q & pct & Hcall & Hdone & Hcount & _ & _ & Hstored & Hfinite
        & Hnear & _ & Ht & Hid & Hweeks).
  exists r', pct. unfold completed_list in *. rewrite Hdone.
  repeat (split; [first [assumption|reflexivity]|]). assumption.
Qed.

Lemma update_step_zero (w : World) (roadmap_id : string) (day : Z)
    (r : Roadmap) :
  get_roadmap w roadmap_id = Some r -> ~ In day (completed_list r) ->
  total_days r = 0 ->
  update_progress w roadmap_id day = (Raised "ZeroDivisionError", w).
Proof.
  intros Hr Hnew Htotal. unfold update_progress. rewrite Hr.
  fold (completed_list r).
  destruct (existsb (Z.eqb day) (completed_list r)) eqn:E.
  { apply existsb_completed in E. contradiction. }
  cbn [total_days set_completed_days]. rewrite Htotal. reflexivity.
Qed.

(** X15: for a roadmap stored under its id with a nonzero [total_days] and
    no day completed twice, any sequence of progress updates keeps it so:
    the completed days stay free of repetition, the earlier ones stay in
    place, and a day is completed afterwards exactly when it was before or
    is one of the updates. If no day was added the roadmap is the one read
    before; if one was, [days_completed] counts the list and
    [progress_percentage] is a finite float within a relative error of
    [2^-51] of [100 * days_completed / total_days] for that count. The
    outline is untouched. The two bounds keep every quotient inside the
    range of the floats. *)
Theorem updates_keep_completed_days_a_set (roadmap_id : string)
    (updates : list Z) (w : World) (r : Roadmap) :
  get_roadmap w roadmap_id = Some r ->
  id r = roadmap_id ->
  total_days r <> 0 ->
  Z.abs (total_days r) <= 2 ^ 1000 ->
  Z.of_nat (length (completed_list r) + length updates) < 2 ^ 63 ->
  NoDup (completed_list r) ->
  exists r',
    get_roadmap (update_all roadmap_id updates w) roadmap_id = Some r'
    /\ NoDup (completed_list r')
    /\ (exists added, completed_list r' = completed_list r ++ added)
    /\ (forall d, In d (completed_list r')
                  <-> In d (completed_list r) \/ In d updates)
    /\ (completed_list r' = completed_list r -> r' = r)
    /\ (completed_list r' <> completed_list r ->
        days_completed r' = Z.of_nat (length (completed_list r'))
        /\ exists pct,
             progress_percentage r' = NFloat pct
             /\ PyNum.is_finite pct = true
             /\ (Rabs (PyNum.to_R pct
                        - 100 * IZR (days_completed r') / IZR (total_days r'))
                  <= Rabs (100 * IZR (days_completed r')
                           / IZR (total_days r')) / 2 ^ 51)%R)
    /\ total_days r' = total_days r
    /\ weeks r' = weeks r
    /\ id r' = id r.
Proof.
  unfold update_all. revert w r.
  induction updates as [|day updates IH];
    intros w r Hget Hid Htotal Hbound Hlen Hnd.
  - exists r. cbn [fold_left]. split; [exact Hget|]. split; [exact Hnd|].
    split; [exists []; symmetry; apply app_nil_r|].
    split; [intros d; cbn; tauto|]. split; [reflexivity|].
    split; [contradiction|auto].
  - cbn [fold_left]. unfold update_step at 2. cbn [length] in Hlen.
    destruct (in_dec Z.eq_dec day (completed_list r)) as [Hin|Hnew].
    + rewrite (update_step_known _ _ _ _ Hget Hin). cbn [snd].
      destruct (IH w r Hget Hid Htotal Hbound ltac:(lia) Hnd)
        as (r' & Hg & Hn & Hp & Hm & Hsame & Hc & Ht & Hw & Hi).
      exists r'. repeat (split; [assumption|]).
      split; [|auto]. intros d. rewrite Hm. cbn [In].
      split; [tauto|]. intros [H|[<-|H]]; auto.
    + destruct (update_step_new _ _ _ _ Hget Hnew Htotal Hbound ltac:(lia))
        as (r1 & pct1 & -> & Hc1 & Hd1 & Hpct1 & Hfin1 & Hnear1 & Ht1 & Hw1
            & Hi1).
      cbn [snd].
      assert (Hget1 : get_roadmap (save_roadmap r1 w) roadmap_id = Some r1).
      { unfold get_roadmap, save_roadmap. cbn. rewrite Hi1, Hid.
        apply lookup_insert_eq. }
      assert (Hnd1 : NoDup (completed_list r1)).
      { rewrite Hc1. apply NoDup_app. split; [exact Hnd|]. split.
        - intros x Hx Hx'. apply list_elem_of_In in Hx, Hx'.
          destruct Hx' as [<-|[]]. contradiction.
        - apply NoDup_singleton. }
      assert (Hlen1 : Z.of_nat (length (completed_list r1) + length updates)
                      < 2 ^ 63).
      { rewrite Hc1, length_app. cbn [length]. lia. }
      destruct (IH _ r1 Hget1 ltac:(congruence) ltac:(congruence)
                  ltac:(congruence) Hlen1 Hnd1)
        as (r' & Hg & Hn & (added & Hp) & Hm & Hsame & Hc & Ht & Hw & Hi).
      assert (Hgrew : completed_list r' <> completed_list r).
      { rewrite Hp, Hc1. intros H. apply (f_equal (@length Z)) in H.
        rewrite !length_app in H. cbn in H. lia. }
      exists r'. split; [exact Hg|]. split; [exact Hn|].
      split; [exists (day :: added); rewrite Hp, Hc1, <- app_assoc; reflexivity|].
      split.
      { intros d. rewrite Hm, Hc1, in_app_iff. cbn [In]. tauto. }
      split; [intros H; contradiction|].
      split.
      { intros _.
        destruct (decide (completed_list r' = completed_list r1))
          as [Heq|Hneq].
        - rewrite (Hsame Heq). split; [exact Hd1|]. exists pct1. auto.
        - apply Hc, Hneq. }
      repeat split; congruence.
Qed.

(** X16: with [total_days] zero no new day is ever recorded: every update
    for a day that is not completed yet raises the division error and
    leaves the world as it was, through any sequence of such updates. *)
Theorem zero_total_days_blocks_progress (roadmap_id : string)
    (updates : list Z) (w : World) (r : Roadmap) :
  get_roadmap w roadmap_id = Some r ->
  total_days r = 0 ->
  Forall (fun d => ~ In d (completed_list r)) updates ->
  update_all roadmap_id updates w = w
  /\ Forall (fun d => update_progress w roadmap_id d
                      = (Raised "ZeroDivisionError", w)) updates.
Proof.
  intros Hget Htotal Hnew. unfold update_all.
  induction Hnew as [|day updates Hday _ IH]; [split; [reflexivity|constructor]|].
  cbn [fold_left]. unfold update_step at 2.
  rewrite (update_step_zero _ _ _ _ Hget Hday Htotal). cbn [snd].
  destruct IH as [IH1 IH2]. split; [exact IH1|].
  constructor; [apply (update_step_zero _ _ _ _ Hget Hday Htotal)|exact IH2].
Qed.

(** Examples on the three-day roadmap: the response carries content for day
    2 only, so day 1 takes it by position, day 2 by number, and day 3 stays
    as it is. *)

Lemma merge_example :
  merge_day (JArr Examples.week_items) 0 (Demo.day 1 "Union")
  = Returned
      (update_day (Demo.day 1 "Union")
         [("day_number", JInt 2); ("reference_content", JStr "Meet of sets")])
  /\ merge_day (JArr Examples.week_items) 2 (Demo.day 3 "Maps")
     = Returned (Demo.day 3 "Maps").
Proof.
  split.
  - exact (merge_by_day_number_then_position Examples.week_items 0
             (Demo.day 1 "Union") eq_refl).
  - exact (merge_by_day_number_then_position Examples.week_items 2
             (Demo.day 3 "Maps") eq_refl).
Defined.

Lemma array_of_dicts_example :
  fst (generate_week_content Examples.week_model Examples.week_loads
         Examples.week_repair Demo.roadmaps "r1" 1)
  = success 1.
Proof.
  apply (array_of_dicts_is_accepted Examples.week_model Examples.week_loads
           Examples.week_repair Demo.roadmaps "r1" 1 Demo.three_days
           Examples.first_week Examples.week_text Examples.week_items);
    vm_compute; reflexivity.
Defined.

Lemma week_content_keeps_outline_example :
  exists ds,
    map day_number ds = [1; 2; 3]
    /\ map topic ds = ["Union"; "Meet"; "Maps"]
    /\ get_roadmap
         (snd (generate_week_content Examples.week_model Examples.week_loads
                 Examples.week_repair Demo.roadmaps "r1" 1)) "r1"
       = Some (set_weeks [set_days ds Examples.first_week] Demo.three_days).
Proof.
  destruct (week_content_keeps_outline Examples.week_model Examples.week_loads
              Examples.week_repair Demo.roadmaps "r1" 1 Demo.three_days
              Examples.first_week eq_refl eq_refl)
    as (ds & before & after & Hw & _ & Hn & Ht & Hg & _).
  - vm_compute. reflexivity.
  - exists ds. split; [exact Hn|]. split; [exact Ht|].
    destruct before as [|x before].
    + injection Hw as <-. exact Hg.
    + injection Hw as _ Hw. destruct before; discriminate.
Defined.

Lemma updates_example :
  exists r',
    get_roadmap (update_all "r1" [1; 2; 1] Demo.roadmaps) "r1" = Some r'
    /\ NoDup (completed_list r')
    /\ (forall d, In d (completed_list r') <-> In d [] \/ In d [1; 2; 1])
    /\ total_days r' = 3.
Proof.
  destruct (updates_keep_completed_days_a_set "r1" [1; 2; 1] Demo.roadmaps
              Demo.three_days eq_refl eq_refl)
    as (r' & Hg & Hn & _ & Hm & _ & _ & Ht & _).
  - discriminate.
  - cbn. lia.
  - cbn. lia.
  - constructor.
  - exists r'. split; [exact Hg|]. split; [exact Hn|]. split; [exact Hm|exact Ht].
Defined.

Lemma stored_id_example :
  let w' := snd (update_progress Examples.roadmaps_copied "r2" 1) in
  get_roadmap w' "r2" = Some Demo.three_days
  /\ match get_roadmap w' "r1" with
     | Some r' => completed_days r' = Some [1]
     | None => False
     end.
Proof.
  cbv zeta. split; [|vm_compute; reflexivity].
  rewrite (proj2 (proj1 (proj2 (roadmap_written_under_stored_id
                                  Demo.generate_content Demo.json_loads
                                  Demo.repair_json Examples.roadmaps_copied
                                  "r2" Demo.three_days 1 1 eq_refl eq_refl))
                    _ (or_introl eq_refl))
             "r2" eq_refl).
  - vm_compute. reflexivity.
  - discriminate.
Defined.

Lemma zero_total_days_example :
  update_all "r0" [1; 2] Demo.roadmaps_no_days = Demo.roadmaps_no_days.
Proof.
  apply (zero_total_days_blocks_progress "r0" [1; 2] Demo.roadmaps_no_days
           Demo.no_days eq_refl eq_refl).
  repeat constructor; intros [].
Defined.

End WeekFacts.

(** ** The upload endpoint *)

Module UploadFacts.
Import PyStr Upload.


Section Endpoint.

Variable save_file : string -> option string.

Abbreviation upload := (upload_files save_file).

(** The file names the endpoint accepts and the ones it rejects. *)
Abbreviation accepted files := (List.filter is_allowed_file files).
Abbreviation rejected files :=
  (List.filter (fun f => negb (is_allowed_file f)) files).

Lemma save_files_all (dir : string) (files saved rej paths : list string) :
  Forall (fun f => is_allowed_file f = true ->
                   save_file (path_join dir f) = None) files ->
  save_files save_file dir files saved rej paths
  = (inr (saved ++ accepted files, rej ++ rejected files),
     paths ++ map (path_join dir) (accepted files)).
Proof.
  intros Hok. revert saved rej paths.
  induction Hok as [|f files Hf _ IH]; intros saved rej paths.
  - cbn. rewrite !app_nil_r. reflexivity.
  - cbn [save_files List.filter].
    destruct (is_allowed_file f) eqn:Ha; cbn [negb].
    + rewrite (Hf eq_refl), IH. cbn [map]. rewrite <- !app_assoc. reflexivity.
    + rewrite IH, <- !app_assoc. reflexivity.
Qed.

Lemma save_files_fails (dir : string) (before after : list string)
    (f e : string) (saved rej paths : list string) :
  Forall (fun f => is_allowed_file f = true ->
                   save_file (path_join dir f) = None) before ->
  is_allowed_file f = true ->
  save_file (path_join dir f) = Some e ->
  save_files save_file dir (before ++ f :: after) saved rej paths
  = (inl {| status_code := 500;
            detail := "Failed to save file " +:+ f +:+ ": " +:+ e |},
     paths ++ map (path_join dir) (accepted before)).
Proof.
  intros Hok Ha He. revert saved rej paths.
  induction Hok as [|g before Hg _ IH]; intros saved rej paths.
  - cbn [app save_files List.filter map]. rewrite Ha, He. cbn [negb].
    rewrite app_nil_r. reflexivity.
  - cbn [app save_files List.filter].
    destruct (is_allowed_file g) eqn:Hga; cbn [negb].
    + rewrite (Hg eq_refl), IH. cbn [map]. rewrite <- app_assoc. reflexivity.
    + apply IH.
Qed.


(** X18: a request fails in three ways. With no file it is refused before
    anything is done. With files of which none is accepted it is refused
    after the session folder is made, with nothing saved. When the saving of
    an accepted file fails the request ends there with the file and the
    message in its detail: the files accepted before it stay saved, the ones
    after it are not looked at, and no ingestion is scheduled. *)
Theorem upload_failures (session : string) :
  let dir := path_join UPLOAD_ROOT session in
  upload [] session
  = (inl {| status_code := 400; detail := "No files uploaded" |},
     {| made_dirs := []; saved_paths := []; ingest_tasks := [] |})
  /\ (forall files,
        files <> [] -> accepted files = [] ->
        upload files session
        = (inl {| status_code := 400;
                  detail := "No valid PDF files were uploaded" |},
           {| made_dirs := [dir]; saved_paths := []; ingest_tasks := [] |}))
  /\ (forall before after f e,
        Forall (fun f => is_allowed_file f = true ->
                         save_file (path_join dir f) = None) before ->
        is_allowed_file f = true ->
        save_file (path_join dir f) = Some e ->
        upload (before ++ f :: after) session
        = (inl {| status_code := 500;
                  detail := "Failed to save file " +:+ f +:+ ": " +:+ e |},
           {| made_dirs := [dir];
              saved_paths := map (path_join dir) (accepted before);
              ingest_tasks := [] |})).
Proof.
  intros dir. split; [reflexivity|]. split.
  - intros files Hne Hnone. unfold upload_files.
    destruct files as [|f files]; [contradiction|]. fold dir.
    rewrite (save_files_all dir (f :: files) [] [] []).
    + rewrite Hnone. reflexivity.
    + apply List.Forall_forall. intros g Hg Ha.
      assert (In g (accepted (f :: files))) by (apply filter_In; auto).
      rewrite Hnone in *. contradiction.
  - intros before after f e Hok Ha He. unfold upload_files. fold dir.
    rewrite (save_files_fails dir before after f e [] [] [] Hok Ha He).
    destruct (before ++ f :: after) eqn:E; [destruct before; discriminate|].
    reflexivity.
Qed.

End Endpoint.


Lemma upload_failures_example :
  upload_files Examples.save_full ["a.pdf"; "notes.txt"; "b.pdf"; "c.pdf"] "s1"
  = (inl {| status_code := 500;
            detail := "Failed to save file b.pdf: No space left on device" |},
     {| made_dirs := ["uploads/s1"];
        saved_paths := ["uploads/s1/a.pdf"];
        ingest_tasks := [] |}).
Proof.
  apply (proj2 (proj2 (upload_failures Examples.save_full "s1"))
           ["a.pdf"; "notes.txt"] ["c.pdf"] "b.pdf" "No space left on device");
    [repeat constructor|reflexivity|reflexivity].
Defined.

End UploadFacts.
